(** * Scholarly web annotation server: resolver, entity and target-graph engine

    A shallow embedding of [app/models/annotation.py] and
    [models/annotation_store.py].  Python values that come from JSON are
    modelled by the type [json]; exceptions by the type [exn]; the
    Elasticsearch client, the interpreter heap of dictionaries and the
    [needs_refresh] attribute by the record [world], threaded through a
    state-and-exception monad. *)

From stdpp Require Import base strings list gmap pretty.

Open Scope string_scope.
Open Scope list_scope.
Open Scope Z_scope.

(** ** JSON values as Python sees them after [json.loads] *)

(** Numbers are integers here; a Python [dict] is an association list in
    insertion order, with at most one binding per key. *)
#[warnings="-register-all"]
Inductive json : Type :=
| JNull
| JBool (b : bool)
| JNum (n : Z)
| JStr (s : string)
| JList (items : list json)
| JObj (fields : list (string * json)).

Definition dict := list (string * json).

(** ** Exceptions *)

(** A message is a literal or a ["... %s ..." % arg] format. *)
Inductive message : Type :=
| Msg (text : string)
| MsgFmt (before : string) (arg : json) (after : string).

Inductive exn : Type :=
| AnnotationError (msg : message) (status_code : Z)
| KeyError (key : string)
| TypeError
| ValueError
| IndexError
| AttributeError
| NotFoundError
| RecursionError.

(** [AnnotationError(message=m)] uses the default status code 400. *)
Definition AnnotationError400 (m : string) : exn := AnnotationError (Msg m) 400.

Inductive res (A : Type) : Type :=
| Ok (a : A)
| Raise (e : exn).
Arguments Ok {A} a.
Arguments Raise {A} e.

#[global] Instance res_ret : MRet res := fun A a => Ok a.
#[global] Instance res_bind : MBind res := fun A B f m =>
  match m with
  | Ok a => f a
  | Raise e => Raise e
  end.

Definition is_Ok {A} (r : res A) : bool :=
  match r with Ok _ => true | Raise _ => false end.

(** ** Python operators on JSON values *)

Fixpoint dict_get (k : string) (d : dict) : option json :=
  match d with
  | [] => None
  | (k', v) :: d' => if String.eqb k k' then Some v else dict_get k d'
  end.

Definition dict_has (k : string) (d : dict) : bool :=
  match dict_get k d with Some _ => true | None => false end.

(** [d[k] = v]: an existing key keeps its position. *)
Fixpoint dict_set (k : string) (v : json) (d : dict) : dict :=
  match d with
  | [] => [(k, v)]
  | (k', v') :: d' =>
      if String.eqb k k' then (k, v) :: d' else (k', v') :: dict_set k v d'
  end.

(** [del d[k]] on a dictionary that has the key. *)
Definition dict_del (k : string) (d : dict) : dict :=
  List.filter (fun kv => negb (String.eqb k (fst kv))) d.

(** Python [==].  [True == 1] and [False == 0]; dictionaries compare
    regardless of insertion order. *)
Fixpoint py_eqb (a b : json) : bool :=
  match a, b with
  | JNull, JNull => true
  | JBool x, JBool y => Bool.eqb x y
  | JBool x, JNum n => n =? (if x then 1 else 0)
  | JNum n, JBool x => n =? (if x then 1 else 0)
  | JNum x, JNum y => x =? y
  | JStr x, JStr y => String.eqb x y
  | JList xs, JList ys =>
      (fix go (xs ys : list json) : bool :=
         match xs, ys with
         | [], [] => true
         | x :: xs', y :: ys' => py_eqb x y && go xs' ys'
         | _, _ => false
         end) xs ys
  | JObj xs, JObj ys =>
      Nat.eqb (length xs) (length ys) &&
      (fix all (kvs : dict) : bool :=
         match kvs with
         | [] => true
         | (k, v) :: kvs' =>
             match dict_get k ys with
             | Some v' => py_eqb v v'
             | None => false
             end && all kvs'
         end) xs
  | _, _ => false
  end.

(** [p in s] for two strings. *)
Fixpoint is_substring (p s : string) : bool :=
  String.prefix p s ||
  match s with
  | EmptyString => false
  | String _ s' => is_substring p s'
  end.

Definition hashable (a : json) : bool :=
  match a with
  | JList _ | JObj _ => false
  | _ => true
  end.

(** [a in x]. *)
Definition py_in (a x : json) : res bool :=
  match x with
  | JList l => Ok (existsb (py_eqb a) l)
  | JObj d =>
      match a with
      | JStr k => Ok (dict_has k d)
      | _ => if hashable a then Ok false else Raise TypeError
      end
  | JStr s =>
      match a with
      | JStr p => Ok (is_substring p s)
      | _ => Raise TypeError
      end
  | _ => Raise TypeError
  end.

(** [x[k]] for a string key. *)
Definition py_getitem (x : json) (k : string) : res json :=
  match x with
  | JObj d =>
      match dict_get k d with
      | Some v => Ok v
      | None => Raise (KeyError k)
      end
  | _ => Raise TypeError
  end.

(** Truth value of an object, as tested by [if x] and [not x]. *)
Definition py_truthy (x : json) : bool :=
  match x with
  | JNull => false
  | JBool b => b
  | JNum n => negb (n =? 0)
  | JStr s => negb (String.eqb s EmptyString)
  | JList l => match l with [] => false | _ => true end
  | JObj d => match d with [] => false | _ => true end
  end.

Definition is_str (x : json) : bool :=
  match x with JStr _ => true | _ => false end.
Definition is_dict (x : json) : bool :=
  match x with JObj _ => true | _ => false end.
Definition is_list (x : json) : bool :=
  match x with JList _ => true | _ => false end.

(** [for v in x]: the sequence a [for] loop or a comprehension walks. *)
Definition py_iter (x : json) : res (list json) :=
  match x with
  | JList l => Ok l
  | JObj d => Ok (map (fun kv => JStr (fst kv)) d)
  | JStr s => Ok (map (fun c => JStr (String c EmptyString)) (String.list_ascii_of_string s))
  | _ => Raise TypeError
  end.

(** [x += y] where [y] is a list. *)
Definition py_iadd_list (x : json) (y : list json) : res json :=
  match x with
  | JList l => Ok (JList (l ++ y))
  | _ => Raise TypeError
  end.

(** [len(x)]. *)
Definition py_len (x : json) : res Z :=
  match x with
  | JList l => Ok (Z.of_nat (length l))
  | JObj d => Ok (Z.of_nat (length d))
  | JStr s => Ok (Z.of_nat (String.length s))
  | _ => Raise TypeError
  end.

(** [[x["id"] for x in l]]. *)
Fixpoint ids_of (l : list json) : res (list json) :=
  match l with
  | [] => Ok []
  | x :: rest =>
      i ← py_getitem x "id";
      more ← ids_of rest;
      Ok (i :: more)
  end.

(** *** Python sets of JSON scalars *)

(** What a scalar is identified with inside a [set]: [True] and [1] are
    one element, and so are [False] and [0]. *)
Inductive hkey : Type :=
| HNone
| HInt (n : Z)
| HStr (s : string).

#[global] Instance hkey_eq_dec : EqDecision hkey.
Proof. solve_decision. Defined.

#[global] Instance hkey_countable : Countable hkey.
Proof.
  refine (inj_countable'
    (fun k => match k with
              | HNone => inl tt
              | HInt n => inr (inl n)
              | HStr s => inr (inr s)
              end)
    (fun c => match c with
              | inl _ => HNone
              | inr (inl n) => HInt n
              | inr (inr s) => HStr s
              end) _).
  intros []; reflexivity.
Defined.

(** Hashing: lists and dictionaries raise [TypeError]. *)
Definition py_hash_key (a : json) : res hkey :=
  match a with
  | JNull => Ok HNone
  | JBool b => Ok (HInt (if b then 1 else 0))
  | JNum n => Ok (HInt n)
  | JStr s => Ok (HStr s)
  | _ => Raise TypeError
  end.

Fixpoint hash_keys (l : list json) : res (list hkey) :=
  match l with
  | [] => Ok []
  | a :: rest =>
      k ← py_hash_key a;
      more ← hash_keys rest;
      Ok (k :: more)
  end.

(** [set(l)]. *)
Definition py_set (l : list json) : res (gset hkey) :=
  keys ← hash_keys l; Ok (list_to_set keys).

(** ** Structural validator ([app/models/annotation.py]) *)

Section Server.

(** [rfc3987.parse(s, rule="IRI")] succeeds exactly on the strings that
    match the IRI grammar; the grammar is the library's, not ours. *)
Variable is_iri : string -> bool.

(** The call [parse_iri(target_id, rule="IRI")]: a string that does not
    match raises [ValueError]; anything that is not a string makes the
    regular-expression match raise [TypeError]. *)
Definition parse_iri (target_id : json) : res unit :=
  match target_id with
  | JStr s => if is_iri s then Ok tt else Raise ValueError
  | _ => Raise TypeError
  end.

Definition anno_context : string := "http://www.w3.org/ns/anno.jsonld".

(** The double-quote character inside the messages. *)
Definition dq : string := String (Ascii.ascii_of_nat 34) EmptyString.
Definition quoted (s : string) : string := dq +:+ s +:+ dq.

Definition validate_generic (annotation : json) : res unit :=
  if negb (is_dict annotation) then
    Raise (AnnotationError400 "annotation MUST be valid JSON")
  else
    has_context ← py_in (JStr "@context") annotation;
    if negb has_context then
      Raise (AnnotationError400 "annotation MUST have a @context")
    else
      context ← py_getitem annotation "@context";
      if negb (py_eqb context (JStr anno_context)) then
        Raise (AnnotationError400
          ("annotation @context MUST include " +:+ quoted anno_context))
      else
        has_type ← py_in (JStr "type") annotation;
        if negb has_type then
          Raise (AnnotationError400 "annotation MUST have a type")
        else Ok tt.

Definition as_list (value : json) : list json :=
  match value with
  | JList l => l
  | _ => [value]
  end.

(** The [if]/[elif]/[else] that picks [target_id] in the loop of
    [validate_annotation]; [target_id] starts as [None]. *)
Definition target_identifier (target : json) : res json :=
  if is_str target then Ok target
  else if is_dict target then
    has_id ← py_in (JStr "id") target;
    if has_id : bool then py_getitem target "id"
    else
      has_source ← py_in (JStr "source") target;
      if has_source : bool then py_getitem target "source"
      else Ok JNull
  else
    Raise (AnnotationError400
      "External annotation target MUST have an IRI identifier").

(** One round of that loop: the [try] turns [ValueError], and nothing
    else, into an [AnnotationError]. *)
Definition validate_target (target : json) : res unit :=
  target_id ← target_identifier target;
  match parse_iri target_id with
  | Raise ValueError =>
      Raise (AnnotationError400 "annotation target id MUST be an IRI")
  | r => r
  end.

Fixpoint validate_targets (targets : list json) : res unit :=
  match targets with
  | [] => Ok tt
  | target :: rest => validate_target target;; validate_targets rest
  end.

Definition validate_annotation (annotation : json) : res unit :=
  ty ← py_getitem annotation "type";
  if negb (existsb (py_eqb (JStr "Annotation")) (as_list ty)) then
    Raise (AnnotationError400
      ("annotation type MUST include " +:+ quoted "Annotation"))
  else
    has_target ← py_in (JStr "target") annotation;
    if negb has_target then
      Raise (AnnotationError400 "annotation MUST have at least one target")
    else
      target ← py_getitem annotation "target";
      validate_targets (as_list target).

Definition validate_annotation_page (annotation_page : json) : res unit :=
  ty ← py_getitem annotation_page "type";
  if negb (existsb (py_eqb (JStr "AnnotationPage")) (as_list ty)) then
    Raise (AnnotationError400
      ("annotation " +:+ quoted "type" +:+ " property MUST include "
       +:+ quoted "AnnotationPage"))
  else
    has_items ← py_in (JStr "items") annotation_page;
    if negb has_items then
      Raise (AnnotationError400
        ("annotation page MUST have an " +:+ quoted "items" +:+
         " property with as value a list with at least one annotation."))
    else
      items ← py_getitem annotation_page "items";
      match items with
      | JList (_ :: _) => Ok tt
      | _ =>
          Raise (AnnotationError400
            ("annotation page " +:+ quoted "items" +:+
             " property MUST be a list with at least one annotation."))
      end.

Definition validate_annotation_collection (annotation_collection : json)
  : res unit :=
  ty ← py_getitem annotation_collection "type";
  if negb (existsb (py_eqb (JStr "AnnotationCollection")) (as_list ty)) then
    Raise (AnnotationError400
      ("annotation " +:+ quoted "type" +:+ " property MUST include "
       +:+ quoted "AnnotationCollection"))
  else
    has_label ← py_in (JStr "label") annotation_collection;
    if negb has_label then
      Raise (AnnotationError400
        ("annotation collection MUST have an " +:+ quoted "label" +:+
         " property with as value a string."))
    else
      label ← py_getitem annotation_collection "label";
      if negb (is_str label) then
        Raise (AnnotationError400
          ("annotation collection " +:+ quoted "label" +:+
           " property MUST be a string."))
      else
        has_total ← py_in (JStr "total") annotation_collection;
        if has_total : bool then
          has_first ← py_in (JStr "first") annotation_collection;
          if negb has_first then
            Raise (AnnotationError400
              ("Non-empty collection MUST have " +:+ quoted "first" +:+
               " property referencing the first AnnotationPage"))
          else
            has_last ← py_in (JStr "last") annotation_collection;
            if negb has_last then
              Raise (AnnotationError400
                ("Non-empty collection MUST have " +:+ quoted "last" +:+
                 " property referencing the first AnnotationPage"))
            else Ok tt
        else Ok tt.

(** *** [WebAnnotationValidator] *)

Definition accepted_types : list json :=
  [JStr "Annotation"; JStr "AnnotationCollection"; JStr "AnnotationPage"].

Definition has_valid_type (annotation : json) : res json :=
  ty ← py_getitem annotation "type";
  let types :=
    List.filter (fun anno_type => existsb (py_eqb anno_type) accepted_types)
                (as_list ty) in
  match types with
  | _ :: _ :: _ =>
      Raise (AnnotationError400
        "annotation cannot have multiple annotation types")
  | [] =>
      Raise (AnnotationError400
        ("annotation type MUST have one of " +:+ quoted "Annotation" +:+ ", "
         +:+ quoted "AnnotationCollection" +:+ ", " +:+ quoted "AnnotationPage"))
  | [t] => Ok t
  end.

Definition validate_type (annotation : json) (annotation_type : option json)
  : res unit :=
  anno_type ← has_valid_type annotation;
  let annotation_type := default anno_type annotation_type in
  ty ← py_getitem annotation "type";
  if negb (existsb (py_eqb annotation_type) (as_list ty)) then
    Raise (AnnotationError
      (MsgFmt "annotation is not of type " annotation_type EmptyString) 400)
  else
    (if py_eqb annotation_type (JStr "Annotation")
     then validate_annotation annotation else Ok tt);;
    (if py_eqb annotation_type (JStr "AnnotationPage")
     then validate_annotation_page annotation else Ok tt);;
    (if py_eqb annotation_type (JStr "AnnotationCollection")
     then validate_annotation_collection annotation else Ok tt).

(** [validate] returns [True] when nothing was raised. *)
Definition validate (annotation : json) (annotation_type : option json)
  : res bool :=
  validate_generic annotation;;
  validate_type annotation annotation_type;;
  Ok true.

(** ** Target and selector resolver (methods of [Annotation]) *)

(** A descriptor [{"id": i, "type": t}], and [{"id": i}] without a type. *)
Definition descriptor (i t : json) : json := JObj [("id", i); ("type", t)].
Definition bare_descriptor (i : json) : json := JObj [("id", i)].

(** [get_subresource_info]: one descriptor for the subresource and one for
    every level nested under its "subresource" key.  The recursion follows
    the value stored under that key. *)
Fixpoint get_subresource_info (subresource : json) : res (list json) :=
  match subresource with
  | JObj d =>
      i ← py_getitem subresource "id";
      t ← py_getitem subresource "type";
      let info := [descriptor i t] in
      match
        (fix nested (fields : dict) : option (res (list json)) :=
           match fields with
           | [] => None
           | (k, v) :: fields' =>
               if String.eqb "subresource" k
               then Some (get_subresource_info v)
               else nested fields'
           end) d
      with
      | None => Ok info
      | Some deeper => more ← deeper; Ok (info ++ more)
      end
  | _ => Raise TypeError
  end.

(** [x["value"] = v] on a selector that some name still refers to. *)
Definition set_value (v : json) (selector : json) : json :=
  match selector with
  | JObj d => JObj (dict_set "value" v d)
  | _ => selector
  end.

(** The [for selector in selectors] loop of [get_selector_info].

    [info = selector["value"]] binds [info] to the very list stored in
    the selector, so that a later [info += ...] extends that stored list
    too.  [alias] is the position in [selectors] of the selector whose
    value [info] currently is, if any; [i] is the position of the head of
    [todo].  The second component is [selectors] as the loop leaves it,
    also when it raises. *)
Fixpoint selector_loop (todo : list json) (i : nat) (alias : option nat)
    (selectors : list json) (info : json) : res json * list json :=
  match todo with
  | [] => (Ok info, selectors)
  | selector :: todo' =>
      match py_getitem selector "type" with
      | Raise e => (Raise e, selectors)
      | Ok ty =>
          let appended : res (json * list json) :=
            if py_eqb ty (JStr "SubresourceSelector") then
              value ← py_getitem selector "value";
              subresource ← py_getitem value "subresource";
              more ← get_subresource_info subresource;
              info' ← py_iadd_list info more;
              Ok (info',
                  match alias with
                  | Some k => alter (set_value info') k selectors
                  | None => selectors
                  end)
            else Ok (info, selectors) in
          match appended with
          | Raise e => (Raise e, selectors)
          | Ok (info1, selectors1) =>
              if py_eqb ty (JStr "NestedPIDSelector") then
                match py_getitem selector "value" with
                | Raise e => (Raise e, selectors1)
                | Ok value =>
                    selector_loop todo' (S i) (Some i) selectors1 value
                end
              else selector_loop todo' (S i) alias selectors1 info1
          end
      end
  end.

(** [get_selector_info(selectors, info)]: the resulting [info], and the
    object passed as [selectors] after the call. *)
Definition get_selector_info (selectors info : json) : res json * json :=
  if negb (py_truthy selectors) then (Ok info, selectors)
  else
    match selectors with
    | JList l =>
        let '(r, l') := selector_loop l 0 None l info in (r, JList l')
    | _ =>
        let '(r, l') := selector_loop [selectors] 0 None [selectors] info in
        (r, List.hd selectors l')
    end.

(** [x["selector"] = s], used to put a selector back into its target. *)
Definition set_selector (s : json) (target : json) : json :=
  match target with
  | JObj d => JObj (dict_set "selector" s d)
  | _ => target
  end.

(** [get_target_info(target)]: the descriptors, and [target] after the
    call. *)
Definition get_target_info (target : json) : res json * json :=
  if is_str target then (Ok (JList [bare_descriptor target]), target)
  else
    let as_it_is (r : res json) := (r, target) in
    match py_in (JStr "id") target with
    | Raise e => as_it_is (Raise e)
    | Ok true =>
        as_it_is (
          has_type ← py_in (JStr "type") target;
          if negb has_type then
            Raise (AnnotationError400 "target requires a type property")
          else
            i ← py_getitem target "id";
            t ← py_getitem target "type";
            Ok (JList [descriptor i t]))
    | Ok false =>
        match (has_source ← py_in (JStr "source") target;
               if has_source : bool then py_in (JStr "selector") target
               else Ok false) with
        | Raise e => as_it_is (Raise e)
        | Ok true =>
            match (has_type ← py_in (JStr "type") target;
                   if negb has_type then
                     Raise (AnnotationError400 "target requires a type property")
                   else
                     source ← py_getitem target "source";
                     t ← py_getitem target "type";
                     selector ← py_getitem target "selector";
                     Ok (JList [descriptor source t], selector)) with
            | Raise e => as_it_is (Raise e)
            | Ok (info, selector) =>
                let '(r, selector') := get_selector_info selector info in
                (r, set_selector selector' target)
            end
        | Ok false =>
            as_it_is
              (Raise (AnnotationError400
                        "target requires an id or source property"))
        end
    end.

(** [get_targets] on the entity's [data]. *)
Definition get_targets (data : json) : res (list json) :=
  has_target ← py_in (JStr "target") data;
  if negb has_target then Ok []
  else
    target ← py_getitem data "target";
    Ok (as_list target).

(** The comprehension of [get_targets_info]: the descriptors of every
    target in order, and the targets after the calls. *)
Fixpoint targets_info_loop (targets : list json) : res (list json) * list json :=
  match targets with
  | [] => (Ok [], [])
  | target :: rest =>
      let '(r, target') := get_target_info target in
      match r ≫= py_iter with
      | Raise e => (Raise e, target' :: rest)
      | Ok info =>
          let '(r', rest') := targets_info_loop rest in
          (more ← r'; Ok (info ++ more), target' :: rest')
      end
  end.

(** Writes the targets back where [get_targets] took them from. *)
Definition put_targets (targets : list json) (data : json) : json :=
  match data with
  | JObj d =>
      match dict_get "target" d with
      | Some (JList _) => JObj (dict_set "target" (JList targets) d)
      | Some target => JObj (dict_set "target" (List.hd target targets) d)
      | None => data
      end
  | _ => data
  end.

(** [get_targets_info] on the entity's [data]: the flat descriptor list,
    and [data] after the call. *)
Definition get_targets_info (data : json) : res (list json) * json :=
  match get_targets data with
  | Raise e => (Raise e, data)
  | Ok targets =>
      let '(r, targets') := targets_info_loop targets in
      (r, put_targets targets' data)
  end.

(** *** The identifier-only variant *)

Fixpoint get_subresource_ids (subresource : json) : res (list json) :=
  match subresource with
  | JObj d =>
      i ← py_getitem subresource "id";
      match
        (fix nested (fields : dict) : option (res (list json)) :=
           match fields with
           | [] => None
           | (k, v) :: fields' =>
               if String.eqb "subresource" k
               then Some (get_subresource_ids v)
               else nested fields'
           end) d
      with
      | None => Ok [i]
      | Some deeper => more ← deeper; Ok (i :: more)
      end
  | _ => Raise TypeError
  end.

Fixpoint selector_ids_loop (selectors : list json) (ids : list json)
  : res (list json) :=
  match selectors with
  | [] => Ok ids
  | selector :: rest =>
      ty ← py_getitem selector "type";
      ids1 ←
        (if py_eqb ty (JStr "SubresourceSelector") then
           value ← py_getitem selector "value";
           subresource ← py_getitem value "subresource";
           more ← get_subresource_ids subresource;
           Ok (ids ++ more)
         else Ok ids);
      ids2 ←
        (if py_eqb ty (JStr "NestedPIDSelector") then
           value ← py_getitem selector "value";
           resources ← py_iter value;
           more ← ids_of resources;
           Ok (ids1 ++ more)
         else Ok ids1);
      selector_ids_loop rest ids2
  end.

Definition get_selector_ids (selectors : json) : res (list json) :=
  if negb (py_truthy selectors) then Ok []
  else selector_ids_loop (as_list selectors) [].

(** [get_target_id] has no [return] after its last [if], so that it
    yields [None] ([JNull]) when no branch is taken. *)
Definition get_target_id (target : json) : res json :=
  if is_str target then Ok (JList [target])
  else
    has_id ← py_in (JStr "id") target;
    if has_id : bool then
      i ← py_getitem target "id"; Ok (JList [i])
    else
      has_source ← py_in (JStr "source") target;
      has_both ← (if has_source : bool then py_in (JStr "selector") target
                  else Ok false);
      if has_both : bool then
        source ← py_getitem target "source";
        selector ← py_getitem target "selector";
        more ← get_selector_ids selector;
        Ok (JList (source :: more))
      else Ok JNull.

Fixpoint target_ids_loop (targets : list json) : res (list json) :=
  match targets with
  | [] => Ok []
  | target :: rest =>
      ids ← get_target_id target ≫= py_iter;
      more ← target_ids_loop rest;
      Ok (ids ++ more)
  end.

Definition get_target_ids (data : json) : res (list json) :=
  get_targets data ≫= target_ids_loop.

(** *** [has_target] *)

(** The [for] loop of [has_target].  [a in b == c] is a chained
    comparison: [a in b and b == c], with [b] evaluated once.  The third
    test returns from inside the loop. *)
Fixpoint has_target_loop (targets : list json) (target_id : json) : res bool :=
  match targets with
  | [] => Ok false
  | target :: rest =>
      if py_eqb target target_id then Ok true
      else
        i ← py_getitem target "id";
        contains ← py_in (JStr "id") i;
        if contains && py_eqb i target_id then Ok true
        else
          has_selector ← py_in (JStr "selector") target;
          no_value ←
            (if negb has_selector then Ok true
             else
               selector ← py_getitem target "selector";
               if negb (py_truthy selector) then Ok true
               else
                 has_value ← py_in (JStr "value") selector;
                 Ok (negb has_value));
          if no_value : bool then Ok false
          else
            selector ← py_getitem target "selector";
            value ← py_getitem selector "value";
            if py_eqb value target_id then Ok true
            else has_target_loop rest target_id
  end.

Definition has_target (data : json) (target_id : json) : res bool :=
  targets ← get_targets data;
  if negb (py_truthy (JList targets)) then Ok false
  else
    targets ← get_targets data;
    has_target_loop targets target_id.

(** ** The state the code runs in *)

(** A document of the Elasticsearch index: its type, its id and the body
    that was indexed. *)
Record es_doc : Type := EsDoc {
  doc_type : json;
  doc_id : json;
  doc_source : json;
}.

(** Calls that the theorems below have to tell apart in a run. *)
Inductive event : Type :=
| EsIndicesRefresh
| CallGetAnnotation (annotation_id : json)
| CallUpdateChained (annotation_id : json).

(** [heap] holds the dictionaries that are passed around by reference (a
    request payload, the body of a search hit, a copy), addressed by their
    position; [es_docs] is the index; [needs_refresh] the attribute of the
    store object; [trace] the calls made so far, oldest first; [ticks]
    counts the draws from [uuid] and from the clock. *)
Record world : Type := World {
  heap : list json;
  es_docs : list es_doc;
  needs_refresh : bool;
  trace : list event;
  ticks : nat;
}.

Definition loc := nat.

(** State and exceptions: an exception keeps the state reached so far. *)
Definition M (A : Type) : Type := world -> res A * world.

#[global] Instance M_ret : MRet M := fun A a w => (Ok a, w).
#[global] Instance M_bind : MBind M := fun A B f m w =>
  match m w with
  | (Ok a, w') => f a w'
  | (Raise e, w') => (Raise e, w')
  end.

Definition raise {A} (e : exn) : M A := fun w => (Raise e, w).
Definition lift {A} (r : res A) : M A := fun w => (r, w).

Definition with_heap (h : list json) (w : world) : world :=
  World h (es_docs w) (needs_refresh w) (trace w) (ticks w).
Definition with_es_docs (ds : list es_doc) (w : world) : world :=
  World (heap w) ds (needs_refresh w) (trace w) (ticks w).
Definition with_needs_refresh (b : bool) (w : world) : world :=
  World (heap w) (es_docs w) b (trace w) (ticks w).
Definition with_event (ev : event) (w : world) : world :=
  World (heap w) (es_docs w) (needs_refresh w) (trace w ++ [ev]) (ticks w).
Definition with_tick (w : world) : world :=
  World (heap w) (es_docs w) (needs_refresh w) (trace w) (S (ticks w)).

(** *** Dictionaries on the heap *)

(** A new object; its address is the next free position. *)
Definition alloc (v : json) : M loc :=
  fun w => (Ok (length (heap w)), with_heap (heap w ++ [v]) w).

Definition deref (l : loc) : M json :=
  fun w => (Ok (default JNull (heap w !! l)), w).

Definition assign (l : loc) (v : json) : M unit :=
  fun w => (Ok tt, with_heap (<[l := v]> (heap w)) w).

(** [k in x], [x[k]], [x[k] = v] and [del x[k]] on the object at [l]. *)
Definition obj_in (k : string) (l : loc) : M bool :=
  x ← deref l; lift (py_in (JStr k) x).

Definition obj_getitem (l : loc) (k : string) : M json :=
  x ← deref l; lift (py_getitem x k).

Definition obj_setitem (l : loc) (k : string) (v : json) : M unit :=
  x ← deref l;
  match x with
  | JObj d => assign l (JObj (dict_set k v d))
  | _ => raise TypeError
  end.

Definition obj_delitem (l : loc) (k : string) : M unit :=
  x ← deref l;
  match x with
  | JObj d =>
      if dict_has k d then assign l (JObj (dict_del k d))
      else raise (KeyError k)
  | _ => raise TypeError
  end.

(** [copy.copy(x)]: a new object with the same fields. *)
Definition copy_copy (l : loc) : M loc :=
  x ← deref l; alloc x.

(** *** Identifiers and time *)

(** [uuid.uuid4().urn] and [datetime.datetime.now(pytz.utc).isoformat()]
    at the n-th draw. *)
Variable uuid4_urn : nat -> string.
Variable now_isoformat : nat -> string.

Definition new_urn : M json :=
  fun w => (Ok (JStr (uuid4_urn (ticks w))), with_tick w).
Definition now : M json :=
  fun w => (Ok (JStr (now_isoformat (ticks w))), with_tick w).

(** ** The [Annotation] entity *)

(** The attributes that [__init__] sets.  [self_data] is a reference to a
    dictionary; [None] is [JNull]. *)
Record Annotation : Type := MkAnnotation {
  self_data : loc;
  self_type : string;
  self_id : json;
  self_motivation : json;
  self_in_collection : list json;
  self_permissions : json;
  self_target_list : json;
}.

(** Assignments to [self.permissions], [self.target_list] and
    [self.data]. *)
Definition assign_permissions (p : json) (self : Annotation) : Annotation :=
  MkAnnotation (self_data self) (self_type self) (self_id self)
    (self_motivation self) (self_in_collection self) p (self_target_list self).
Definition assign_target_list (t : json) (self : Annotation) : Annotation :=
  MkAnnotation (self_data self) (self_type self) (self_id self)
    (self_motivation self) (self_in_collection self) (self_permissions self) t.
Definition assign_data (l : loc) (self : Annotation) : Annotation :=
  MkAnnotation l (self_type self) (self_id self)
    (self_motivation self) (self_in_collection self) (self_permissions self)
    (self_target_list self).

Definition set_permissions (self : Annotation) : M Annotation :=
  has ← obj_in "permissions" (self_data self);
  if has : bool then
    permissions ← obj_getitem (self_data self) "permissions";
    obj_delitem (self_data self) "permissions";;
    mret (assign_permissions permissions self)
  else
    mret (assign_permissions JNull self).

Definition set_target_list (self : Annotation) : M Annotation :=
  has ← obj_in "target_list" (self_data self);
  if has : bool then
    target_list ← obj_getitem (self_data self) "target_list";
    obj_delitem (self_data self) "target_list";;
    mret (assign_target_list target_list self)
  else
    mret (assign_target_list JNull self).

(** [Annotation(annotation)], where [annotation] is the caller's
    dictionary. *)
Definition Annotation_init (annotation : loc) : M Annotation :=
  has_id ← obj_in "id" annotation;
  (if negb has_id then
     urn ← new_urn; obj_setitem annotation "id" urn
   else mret tt);;
  has_created ← obj_in "created" annotation;
  (if negb has_created then
     stamp ← now; obj_setitem annotation "created" stamp
   else mret tt);;
  document ← deref annotation;
  lift (validate document None);;
  i ← obj_getitem annotation "id";
  has_motivation ← obj_in "motivation" annotation;
  motivation ← (if has_motivation : bool
                then obj_getitem annotation "motivation" else mret JNull);
  self ← set_permissions
           (MkAnnotation annotation "Annotation" i motivation [] JNull JNull);
  set_target_list self.

(** What [__init__] makes of the caller's dictionary [d] before it
    validates it, when [n] draws were made so far: "id" and "created" are
    filled in where they are missing. *)
Definition with_defaults (n : nat) (d : dict) : dict :=
  let d1 :=
    if dict_has "id" d then d else dict_set "id" (JStr (uuid4_urn n)) d in
  let n1 := if dict_has "id" d then n else S n in
  if dict_has "created" d1 then d1
  else dict_set "created" (JStr (now_isoformat n1)) d1.

(** The number of draws this takes. *)
Definition draws (d : dict) : nat :=
  ((if dict_has "id" d then 0 else 1) +
   (if dict_has "created" d then 0 else 1))%nat.

(** [to_json]: a copy of [data] with the two private fields put back. *)
Definition to_json (self : Annotation) : M loc :=
  annotation_json ← copy_copy (self_data self);
  obj_setitem annotation_json "permissions" (self_permissions self);;
  obj_setitem annotation_json "target_list" (self_target_list self);;
  mret annotation_json.

(** The test [params and "include_permissions" in params and
    params["include_permissions"]] of [to_clean_json]. *)
Definition include_permissions (params : json) : res bool :=
  if py_truthy params then
    has ← py_in (JStr "include_permissions") params;
    if has : bool then
      flag ← py_getitem params "include_permissions";
      Ok (py_truthy flag)
    else Ok false
  else Ok false.

(** [to_clean_json(params)]; [params] is [None] or a dictionary. *)
Definition to_clean_json (self : Annotation) (params : json) : M loc :=
  annotation_json ← copy_copy (self_data self);
  wanted ← lift (include_permissions params);
  (if wanted : bool
   then obj_setitem annotation_json "permissions" (self_permissions self)
   else mret tt);;
  mret annotation_json.

Definition get_permissions (self : Annotation) : json := self_permissions self.

(** [self.get_targets_info()]: reads [data] and leaves in it what the
    selector loop did to the stored lists. *)
Definition self_get_targets_info (self : Annotation) : M (list json) :=
  data ← deref (self_data self);
  let '(r, data') := get_targets_info data in
  assign (self_data self) data';;
  lift r.

Definition self_get_target_ids (self : Annotation) : M (list json) :=
  data ← deref (self_data self);
  lift (get_target_ids data).

(** [update(updated_annotation)]: the entity now refers to the caller's
    dictionary. *)
Definition update (self : Annotation) (updated_annotation : loc)
  : M Annotation :=
  document ← deref updated_annotation;
  lift (validate document None);;
  i ← obj_getitem updated_annotation "id";
  if py_eqb (self_id self) i then
    stamp ← now;
    obj_setitem updated_annotation "modified" stamp;;
    mret (assign_data updated_annotation self)
  else
    raise (AnnotationError400
      "ID of updated annotation does not match ID of existing annotation").

(** ** The Elasticsearch client, as far as the store uses it *)

(** A document is addressed by type and id; the type ["_all"] stands for
    every type.  Types and ids are matched by equality.  A write is
    visible to [exists] and [get] at once; [refresh] is recorded in the
    trace. *)
Definition doc_matches (ty i : json) (d : es_doc) : bool :=
  (py_eqb ty (JStr "_all") || py_eqb ty (doc_type d)) && py_eqb i (doc_id d).

Definition es_exists (ty i : json) : M bool :=
  fun w => (Ok (existsb (doc_matches ty i) (es_docs w)), w).

Definition es_get (ty i : json) : M json :=
  fun w =>
    match List.find (doc_matches ty i) (es_docs w) with
    | Some d => (Ok (doc_source d), w)
    | None => (Raise NotFoundError, w)
    end.

Fixpoint put_doc (new : es_doc) (docs : list es_doc) : list es_doc :=
  match docs with
  | [] => [new]
  | d :: docs' =>
      if doc_matches (doc_type new) (doc_id new) d
      then new :: docs'
      else d :: put_doc new docs'
  end.

Definition es_index (ty i body : json) : M unit :=
  fun w => (Ok tt, with_es_docs (put_doc (EsDoc ty i body) (es_docs w)) w).

Definition es_delete (ty i : json) : M unit :=
  fun w =>
    if existsb (doc_matches ty i) (es_docs w) then
      (Ok tt,
       with_es_docs
         (List.filter (fun d => negb (doc_matches ty i d)) (es_docs w)) w)
    else (Raise NotFoundError, w).

Definition es_indices_refresh : M unit :=
  fun w => (Ok tt, with_event EsIndicesRefresh w).

(** A [match] query on ["target_list.<field>.keyword"]: the documents of
    the given type whose [target_list] has an entry with that value in
    that field.  A search that names no size returns ten hits at most. *)
Definition target_list_has (field : string) (value : json) (source : json)
  : bool :=
  match py_getitem source "target_list" with
  | Ok (JList entries) =>
      existsb (fun entry =>
                 match py_getitem entry field with
                 | Ok v => py_eqb v value
                 | Raise _ => false
                 end) entries
  | _ => false
  end.

Definition es_search_target_list (ty : json) (field : string) (value : json)
  : M (list json) :=
  fun w =>
    (Ok (take 10
           (map doc_source
              (List.filter
                 (fun d => py_eqb ty (doc_type d)
                           && target_list_has field value (doc_source d))
                 (es_docs w)))),
     w).

(** A search without a query: the number of documents of the type, and
    the bodies of those from position [from] on, [size] at most. *)
Definition es_search_page (ty : json) (from size : nat)
  : M (nat * list json) :=
  fun w =>
    let hits :=
      map doc_source
          (List.filter (fun d => py_eqb ty (doc_type d)) (es_docs w)) in
    (Ok (length hits, take size (drop from hits)), w).

(** ** The annotation store ([models/annotation_store.py]) *)

(** [es_config["page_size"]]. *)
Variable page_size : nat.

Definition index_needs_refresh : M bool :=
  fun w => (Ok (needs_refresh w), w).

Definition put_needs_refresh (b : bool) : M unit :=
  fun w => (Ok tt, with_needs_refresh b w).

Definition index_refresh : M unit :=
  es_indices_refresh;;
  put_needs_refresh false.

Definition set_index_needs_refresh : M unit :=
  put_needs_refresh true.

Definition check_index_is_fresh : M unit :=
  stale ← index_needs_refresh;
  if stale : bool then index_refresh else mret tt.

(** *** Index access *)

Definition is_deleted (annotation_id annotation_type : json) : M bool :=
  found ← es_exists annotation_type annotation_id;
  if found : bool then
    source ← es_get annotation_type annotation_id;
    has_status ← lift (py_in (JStr "status") source);
    if has_status : bool then
      status ← lift (py_getitem source "status");
      mret (py_eqb status (JStr "deleted"))
    else mret false
  else mret false.

Definition should_exist (annotation_id annotation_type : json) : M bool :=
  found ← es_exists annotation_type annotation_id;
  gone ← (if found : bool then is_deleted annotation_id annotation_type
          else mret true);
  if negb gone then mret true
  else
    raise (AnnotationError
             (MsgFmt "Annotation with id " annotation_id " does not exist")
             404).

Definition should_not_exist (annotation_id annotation_type : json) : M bool :=
  found ← es_exists annotation_type annotation_id;
  if found : bool then
    raise (AnnotationError
             (MsgFmt "Annotation with id " annotation_id " already exists")
             400)
  else mret true.

Definition add_to_index (annotation annotation_type : json) : M unit :=
  i ← lift (py_getitem annotation "id");
  should_not_exist i annotation_type;;
  es_index annotation_type i annotation.

(** The body [es.get] returns is a new dictionary. *)
Definition get_from_index (annotation_id annotation_type : json) : M loc :=
  should_exist annotation_id annotation_type;;
  source ← es_get annotation_type annotation_id;
  alloc source.

Definition update_in_index (annotation annotation_type : json) : M unit :=
  i ← lift (py_getitem annotation "id");
  should_exist i annotation_type;;
  es_index annotation_type i annotation.

Definition remove_from_index (annotation_id annotation_type : json) : M unit :=
  should_exist annotation_id annotation_type;;
  es_delete annotation_type annotation_id.

(** *** Helper functions of the store *)

(** [set([target["id"] for target in l])]. *)
Definition id_set (l : json) : res (gset hkey) :=
  targets ← py_iter l;
  ids ← ids_of targets;
  py_set ids.

(** [target_list_changed(list1, list2)]. *)
Definition target_list_changed (list1 list2 : json) : res bool :=
  ids1 ← id_set list1;
  ids2 ← id_set list2;
  if negb (Nat.eqb (size ids1) (size ids2)) then Ok true
  else if negb (Nat.eqb (size (ids1 ∩ ids2)) (size ids1)) then Ok true
  else if negb (Nat.eqb (size (ids1 ∪ ids2)) (size ids1)) then Ok true
  else Ok false.

Definition is_annotation (target : json) : res bool :=
  has_type ← py_in (JStr "type") target;
  if has_type : bool then
    ty ← py_getitem target "type";
    if is_str ty && py_eqb ty (JStr "Annotation") then Ok true
    else if is_list ty then py_in (JStr "Annotation") ty
    else Ok false
  else Ok false.

Definition log_call (ev : event) : M unit :=
  fun w => (Ok tt, with_event ev w).

Definition get_annotation_es (annotation_id : json) : M loc :=
  log_call (CallGetAnnotation annotation_id);;
  check_index_is_fresh;;
  should_exist annotation_id (JStr "Annotation");;
  annotation ← get_from_index annotation_id (JStr "Annotation");
  obj_delitem annotation "target_list";;
  mret annotation.

Definition self_targeting : exn :=
  AnnotationError400 "Annotation cannot target itself".

(** The first loop of [get_target_list]; [closure] is the recursive call
    [self.get_target_list]. *)
Fixpoint expand_targets (closure : Annotation -> M (list json))
    (annotation : Annotation) (targets deeper_targets : list json)
  : M (list json) :=
  match targets with
  | [] => mret deeper_targets
  | target :: rest =>
      is_anno ← lift (is_annotation target);
      if is_anno : bool then
        i ← lift (py_getitem target "id");
        if py_eqb i (self_id annotation) then raise self_targeting
        else
          gone ← is_deleted i (JStr "_all");
          if gone : bool then
            expand_targets closure annotation rest deeper_targets
          else
            target_annotation ← get_annotation_es i;
            referenced ← Annotation_init target_annotation;
            more ← closure referenced;
            expand_targets closure annotation rest (deeper_targets ++ more)
      else expand_targets closure annotation rest deeper_targets
  end.

(** The second loop: [target not in target_ids] looks the descriptor
    itself up in the list of ids. *)
Fixpoint merge_targets (deeper_targets target_list target_ids : list json)
  : res (list json) :=
  match deeper_targets with
  | [] => Ok target_list
  | target :: rest =>
      if negb (existsb (py_eqb target) target_ids) then
        i ← py_getitem target "id";
        merge_targets rest (target_list ++ [target]) (target_ids ++ [i])
      else merge_targets rest target_list target_ids
  end.

(** [get_target_list]; [fuel] is the depth of recursion the interpreter
    still allows. *)
Fixpoint get_target_list (fuel : nat) (annotation : Annotation)
  : M (list json) :=
  match fuel with
  | O => raise RecursionError
  | S fuel' =>
      target_list ← self_get_targets_info annotation;
      deeper_targets ←
        expand_targets (get_target_list fuel') annotation target_list [];
      target_ids ← lift (ids_of target_list);
      lift (merge_targets deeper_targets target_list target_ids)
  end.

(** *** Operations of the store *)

(** [make_target_list_query(target)]: the field is the first key of
    [target]; the query matches ["target_list.<field>.keyword"] against
    the value under that key. *)
Definition make_target_list_query (target : json) : res (string * json) :=
  match target with
  | JObj ((target_field, value) :: _) => Ok (target_field, value)
  | JObj [] => Raise IndexError
  | _ => Raise AttributeError
  end.

Fixpoint alloc_all (sources : list json) : M (list loc) :=
  match sources with
  | [] => mret []
  | source :: rest =>
      l ← alloc source;
      ls ← alloc_all rest;
      mret (l :: ls)
  end.

(** The hits of the search, each a new dictionary. *)
Definition get_from_index_by_target (target : json) : M (list loc) :=
  '(field, value) ← lift (make_target_list_query target);
  hits ← es_search_target_list (JStr "Annotation") field value;
  alloc_all hits.

Definition get_from_index_by_target_list (target : json) : M (list loc) :=
  '(field, value) ← lift (make_target_list_query target);
  hits ← es_search_target_list (JStr "Annotation") field value;
  alloc_all hits.

(** [for annotation in annotations: del annotation["target_list"]]. *)
Fixpoint strip_target_lists (annotations : list loc) : M unit :=
  match annotations with
  | [] => mret tt
  | annotation :: rest =>
      obj_delitem annotation "target_list";;
      strip_target_lists rest
  end.

Definition get_annotations_by_target_es (annotation_target : json)
  : M (list loc) :=
  check_index_is_fresh;;
  annotations ← get_from_index_by_target_list annotation_target;
  strip_target_lists annotations;;
  mret annotations.

Definition add_annotation_es (fuel : nat) (annotation : loc) : M loc :=
  anno ← Annotation_init annotation;
  has_id ← obj_in "id" annotation;
  (if has_id : bool then
     i ← obj_getitem annotation "id";
     ty ← obj_getitem annotation "type";
     should_not_exist i ty
   else mret true);;
  target_list ← get_target_list fuel anno;
  obj_setitem (self_data anno) "target_list" (JList target_list);;
  data ← deref (self_data anno);
  ty ← obj_getitem annotation "type";
  add_to_index data ty;;
  obj_delitem (self_data anno) "target_list";;
  set_index_needs_refresh;;
  mret (self_data anno).

(** The loop of [update_chained_annotations]; [update] is the call
    [self.update_annotation_es] and [closure] is [self.get_target_list]. *)
Fixpoint chain_loop (update : loc -> M loc)
    (closure : Annotation -> M (list json))
    (annotation_id : json) (chain_annotations : list loc) : M unit :=
  match chain_annotations with
  | [] => mret tt
  | chain_annotation :: rest =>
      i ← obj_getitem chain_annotation "id";
      if py_eqb i annotation_id then raise self_targeting
      else
        chained ← Annotation_init chain_annotation;
        target_list ← closure chained;
        obj_setitem chain_annotation "target_list" (JList target_list);;
        update chain_annotation;;
        chain_loop update closure annotation_id rest
  end.

(** [update_annotation_es] and [update_chained_annotations] call each
    other; [fuel] bounds the depth of the calls as in [get_target_list].
    [copy.copy] of the stored target list is that list's value. *)
Fixpoint update_annotation_es (fuel : nat) (updated_annotation_json : loc)
  : M loc :=
  match fuel with
  | O => raise RecursionError
  | S fuel' =>
      i ← obj_getitem updated_annotation_json "id";
      annotation_json ← get_from_index i (JStr "Annotation");
      old_target_list ← obj_getitem annotation_json "target_list";
      annotation ← Annotation_init annotation_json;
      annotation ← update annotation updated_annotation_json;
      new_target_list ← get_target_list fuel' annotation;
      obj_setitem (self_data annotation) "target_list" (JList new_target_list);;
      data ← deref (self_data annotation);
      ty ← obj_getitem (self_data annotation) "type";
      update_in_index data ty;;
      changed ← lift (target_list_changed (JList new_target_list)
                                          old_target_list);
      (if changed : bool
       then update_chained_annotations fuel' (self_id annotation)
       else mret tt);;
      obj_delitem (self_data annotation) "target_list";;
      set_index_needs_refresh;;
      mret (self_data annotation)
  end
with update_chained_annotations (fuel : nat) (annotation_id : json) : M unit :=
  match fuel with
  | O => raise RecursionError
  | S fuel' =>
      log_call (CallUpdateChained annotation_id);;
      es_indices_refresh;;
      chain_annotations ←
        get_from_index_by_target (JObj [("id", annotation_id)]);
      chain_loop (update_annotation_es fuel') (get_target_list fuel')
                 annotation_id chain_annotations
  end.

Definition deleted_record (i : json) (ty : string) : json :=
  JObj [("id", i); ("type", JStr ty); ("status", JStr "deleted")].

Definition remove_annotation_es (fuel : nat) (annotation_id : json) : M json :=
  check_index_is_fresh;;
  should_exist annotation_id (JStr "Annotation");;
  remove_from_index annotation_id (JStr "Annotation");;
  let deleted_annotation := deleted_record annotation_id "Annotation" in
  add_to_index deleted_annotation (JStr "Annotation");;
  update_chained_annotations fuel annotation_id;;
  mret deleted_annotation.

(** The listings: [get_annotations_es] checks the flag before it
    searches, [get_collections_es] searches at once. *)
Definition get_annotations_es (page : nat) : M json :=
  check_index_is_fresh;;
  '(total, hits) ← es_search_page (JStr "Annotation") (page * page_size) page_size;
  mret (JObj [("total", JNum (Z.of_nat total)); ("annotations", JList hits)]).

Definition get_collections_es (page : nat) : M json :=
  '(total, hits) ← es_search_page (JStr "AnnotationCollection")
                     (page * page_size) page_size;
  mret (JObj [("total", JNum (Z.of_nat total)); ("collections", JList hits)]).

(** *** Collections *)

Definition get_collection_es (collection_id : json) : M loc :=
  check_index_is_fresh;;
  should_exist collection_id (JStr "AnnotationCollection");;
  get_from_index collection_id (JStr "AnnotationCollection").

Definition add_annotation_to_collection_es (annotation_id collection_id : json)
  : M loc :=
  should_exist annotation_id (JStr "Annotation");;
  should_exist collection_id (JStr "AnnotationCollection");;
  collection ← get_from_index collection_id (JStr "AnnotationCollection");
  items ← obj_getitem collection "items";
  member ← lift (py_in annotation_id items);
  if member : bool then
    raise (AnnotationError400 "Collection already contains this annotation")
  else
    items' ← lift (py_iadd_list items [annotation_id]);
    obj_setitem collection "items" items';;
    total ← lift (py_len items');
    obj_setitem collection "total" (JNum total);;
    data ← deref collection;
    update_in_index data (JStr "AnnotationCollection");;
    set_index_needs_refresh;;
    mret collection.

(** [l.remove(x)]: drops the first element equal to [x]. *)
Fixpoint list_remove (x : json) (l : list json) : res (list json) :=
  match l with
  | [] => Raise ValueError
  | y :: l' =>
      if py_eqb y x then Ok l'
      else l'' ← list_remove x l'; Ok (y :: l'')
  end.

Definition remove_annotation_from_collection_es
    (annotation_id collection_id : json) : M loc :=
  check_index_is_fresh;;
  should_exist annotation_id (JStr "Annotation");;
  should_exist collection_id (JStr "AnnotationCollection");;
  collection ← get_from_index collection_id (JStr "AnnotationCollection");
  items ← obj_getitem collection "items";
  match items with
  | JList l =>
      match list_remove annotation_id l with
      | Raise ValueError =>
          raise (AnnotationError400
                   "Collection does not contain this annotation")
      | Raise e => raise e
      | Ok l' =>
          obj_setitem collection "items" (JList l');;
          obj_setitem collection "total" (JNum (Z.of_nat (length l')));;
          data ← deref collection;
          update_in_index data (JStr "AnnotationCollection");;
          mret collection
      end
  | _ => raise AttributeError
  end.

Definition remove_collection_es (collection_id : json) : M json :=
  check_index_is_fresh;;
  should_exist collection_id (JStr "AnnotationCollection");;
  remove_from_index collection_id (JStr "AnnotationCollection");;
  let deleted_collection :=
    deleted_record collection_id "AnnotationCollection" in
  add_to_index deleted_collection (JStr "AnnotationCollection");;
  mret deleted_collection.

(** ** What the specification says about selectors *)

(** The nesting levels of a subresource, outermost first: the
    subresource itself and whatever is nested under its "subresource"
    key. *)
Fixpoint subresource_chain (subresource : json) : list json :=
  subresource ::
  match subresource with
  | JObj d =>
      match
        (fix nested (fields : dict) : option (list json) :=
           match fields with
           | [] => None
           | (k, v) :: fields' =>
               if String.eqb "subresource" k
               then Some (subresource_chain v)
               else nested fields'
           end) d
      with
      | Some chain => chain
      | None => []
      end
  | _ => []
  end.

(** One [{id, type}] descriptor for every level. *)
Fixpoint level_descriptors (levels : list json) : res (list json) :=
  match levels with
  | [] => Ok []
  | level :: rest =>
      i ← py_getitem level "id";
      t ← py_getitem level "type";
      more ← level_descriptors rest;
      Ok (descriptor i t :: more)
  end.


(** ** Vocabulary of the properties *)

(** [preserves R m]: the world [m] ends in is related by [R] to the one
    it started in, whether it returns or raises. *)
Definition preserves {A} (R : world -> world -> Prop) (m : M A) : Prop :=
  forall w, R w (snd (m w)).

(** The index, the flag and the trace are as before; only the heap and
    the draw counter may differ. *)
Definition heap_only (w w' : world) : Prop :=
  es_docs w' = es_docs w /\
  needs_refresh w' = needs_refresh w /\
  trace w' = trace w.

(** The trace grew by events that all satisfy [P]. *)
Definition emits (P : event -> Prop) (w w' : world) : Prop :=
  exists evs, trace w' = trace w ++ evs /\ Forall P evs.

(** Nothing changed at all. *)
Definition unchanged (w w' : world) : Prop := w' = w.

(** What was at [l] is still there. *)
Definition heap_kept_at (l : loc) (w w' : world) : Prop :=
  forall x, heap w !! l = Some x -> heap w' !! l = Some x.

(** [pt w l d]: in [w], the object at [l] is the dictionary [d]. *)
Definition pt (w : world) (l : loc) (d : dict) : Prop :=
  heap w !! l = Some (JObj d).

(** The world after the object at [l] became [d]. *)
Definition set_obj (l : loc) (d : dict) (w : world) : world :=
  with_heap (<[l := JObj d]> (heap w)) w.

(** What [is_deleted] and [should_exist] read off the index. *)
Definition deleted_in (docs : list es_doc) (i ty : json) : res bool :=
  if existsb (doc_matches ty i) docs then
    match List.find (doc_matches ty i) docs with
    | Some d =>
        has_status ← py_in (JStr "status") (doc_source d);
        if has_status : bool then
          status ← py_getitem (doc_source d) "status";
          Ok (py_eqb status (JStr "deleted"))
        else Ok false
    | None => Raise NotFoundError
    end
  else Ok false.

(** The events a closure computation may add to the trace, given the
    index it runs on: refreshes, and fetches of annotations that are not
    tombstoned.  It never starts a chain update. *)
Definition closure_event (docs : list es_doc) (ev : event) : Prop :=
  match ev with
  | EsIndicesRefresh => True
  | CallGetAnnotation j => deleted_in docs j (JStr "_all") = Ok false
  | CallUpdateChained _ => False
  end.

(** The index is as before and the trace grew by such events only. *)
Definition closure_run (w w' : world) : Prop :=
  es_docs w' = es_docs w /\ emits (closure_event (es_docs w)) w w'.

(** The flag is as before. *)
Definition flag_kept (w w' : world) : Prop :=
  needs_refresh w' = needs_refresh w.

(** An event other than the start of a chain update. *)
Definition not_chain_start (ev : event) : Prop :=
  match ev with
  | CallUpdateChained _ => False
  | _ => True
  end.

Definition any_event (ev : event) : Prop := True.

(** The index is as before. *)
Definition index_kept (w w' : world) : Prop := es_docs w' = es_docs w.

(** A tombstone under the annotation id [s] stays one. *)
Definition tombstone_kept (s : string) (w w' : world) : Prop :=
  deleted_in (es_docs w) (JStr s) (JStr "Annotation") = Ok true ->
  deleted_in (es_docs w') (JStr s) (JStr "Annotation") = Ok true.

(** The error of [should_exist], and the one of [should_not_exist]. *)
Definition does_not_exist (annotation_id : json) : exn :=
  AnnotationError
    (MsgFmt "Annotation with id " annotation_id " does not exist") 404.

(** The selectors of a target, and the test for a [NestedPIDSelector]. *)
Definition selectors_of (target : json) : list json :=
  match py_getitem target "selector" with
  | Ok selectors => as_list selectors
  | Raise _ => []
  end.

Definition is_nested_pid (selector : json) : bool :=
  match py_getitem selector "type" with
  | Ok ty => py_eqb ty (JStr "NestedPIDSelector")
  | Raise _ => false
  end.

(** * Properties *)

Arguments String.eqb : simpl never.

(** ** Induction on JSON values *)

Lemma json_nested_ind (P : json -> Prop) :
  P JNull ->
  (forall b, P (JBool b)) ->
  (forall n, P (JNum n)) ->
  (forall s, P (JStr s)) ->
  (forall l, Forall P l -> P (JList l)) ->
  (forall d, Forall (fun kv => P (snd kv)) d -> P (JObj d)) ->
  forall j, P j.
Proof.
  intros Hnull Hbool Hnum Hstr Hlist Hobj.
  fix IH 1. intros [ | b | n | s | l | d ].
  - exact Hnull.
  - apply Hbool.
  - apply Hnum.
  - apply Hstr.
  - apply Hlist. induction l as [ | x l IHl ]; constructor; [ apply IH | exact IHl ].
  - apply Hobj. induction d as [ | [k v] d IHd ]; constructor;
      [ apply IH | exact IHd ].
Qed.

Lemma dict_get_Forall (P : json -> Prop) k d v :
  Forall (fun kv => P (snd kv)) d -> dict_get k d = Some v -> P v.
Proof.
  induction 1 as [ | [k' v'] d Hv _ IH ]; simpl; [ discriminate | ].
  destruct (String.eqb k k'); [ intros [= <-]; exact Hv | exact IH ].
Qed.

(** ** The resolver *)

(** The unfolding of [get_subresource_info] on a dictionary, with the
    nested value found by [dict_get]. *)
Lemma get_subresource_info_unfold d :
  get_subresource_info (JObj d) =
  i ← py_getitem (JObj d) "id";
  t ← py_getitem (JObj d) "type";
  match dict_get "subresource" d with
  | None => Ok [descriptor i t]
  | Some v => more ← get_subresource_info v; Ok (descriptor i t :: more)
  end.
Proof.
  cbn [get_subresource_info].
  destruct (py_getitem (JObj d) "id") as [i | e]; [ | reflexivity ].
  destruct (py_getitem (JObj d) "type") as [t | e]; [ | reflexivity ].
  cbn [mbind res_bind]. clear.
  assert (H : (fix nested (fields : dict) : option (res (list json)) :=
                 match fields with
                 | [] => None
                 | (k, v) :: fields' =>
                     if String.eqb "subresource" k
                     then Some (get_subresource_info v)
                     else nested fields'
                 end) d
              = get_subresource_info <$> dict_get "subresource" d).
  { induction d as [ | [k v] d IH ]; [ reflexivity | ].
    cbn [dict_get]. destruct (String.eqb "subresource" k); [ reflexivity | exact IH ]. }
  rewrite H. destruct (dict_get "subresource" d); reflexivity.
Qed.

Lemma subresource_chain_unfold d :
  subresource_chain (JObj d) =
  JObj d :: match dict_get "subresource" d with
            | Some v => subresource_chain v
            | None => []
            end.
Proof.
  cbn [subresource_chain]. f_equal.
  assert (H : (fix nested (fields : dict) : option (list json) :=
                 match fields with
                 | [] => None
                 | (k, v) :: fields' =>
                     if String.eqb "subresource" k
                     then Some (subresource_chain v)
                     else nested fields'
                 end) d
              = subresource_chain <$> dict_get "subresource" d).
  { induction d as [ | [k v] d IH ]; [ reflexivity | ].
    cbn [dict_get]. destruct (String.eqb "subresource" k); [ reflexivity | exact IH ]. }
  rewrite H. destruct (dict_get "subresource" d); reflexivity.
Qed.

(** [get_subresource_info] emits exactly one descriptor per level. *)
Lemma get_subresource_info_levels subresource :
  get_subresource_info subresource =
  level_descriptors (subresource_chain subresource).
Proof.
  induction subresource as [ | b | n | s | l _ | d IH ] using json_nested_ind;
    try reflexivity.
  rewrite get_subresource_info_unfold, subresource_chain_unfold.
  cbn [level_descriptors].
  destruct (py_getitem (JObj d) "id") as [i | e]; [ | reflexivity ].
  destruct (py_getitem (JObj d) "type") as [t | e]; [ | reflexivity ].
  cbn [mbind res_bind].
  destruct (dict_get "subresource" d) as [v | ] eqn:Hv; [ | reflexivity ].
  pose proof
    (dict_get_Forall
       (fun j => get_subresource_info j =
                 level_descriptors (subresource_chain j)) _ _ _ IH Hv) as Hrec.
  cbn beta in Hrec. rewrite Hrec. reflexivity.
Qed.

Lemma level_descriptors_length levels descriptors :
  level_descriptors levels = Ok descriptors ->
  length descriptors = length levels.
Proof.
  revert descriptors. induction levels as [ | level rest IH ]; intros ds; cbn.
  - intros [= <-]. reflexivity.
  - destruct (py_getitem level "id"); [ | discriminate ].
    destruct (py_getitem level "type"); [ | discriminate ].
    cbn. destruct (level_descriptors rest) as [more | ]; [ | discriminate ].
    cbn. intros [= <-]. cbn. f_equal. apply IH. reflexivity.
Qed.

(** Both type tags are strings, and different ones. *)
Lemma selector_loop_nested_pid selector value todo i alias selectors info :
  py_getitem selector "type" = Ok (JStr "NestedPIDSelector") ->
  py_getitem selector "value" = Ok value ->
  selector_loop (selector :: todo) i alias selectors info =
  selector_loop todo (S i) (Some i) selectors value.
Proof.
  intros Hty Hvalue. cbn [selector_loop]. rewrite Hty, Hvalue. reflexivity.
Qed.

Lemma selector_loop_subresource selector value subresource levels
    todo i alias selectors l :
  py_getitem selector "type" = Ok (JStr "SubresourceSelector") ->
  py_getitem selector "value" = Ok value ->
  py_getitem value "subresource" = Ok subresource ->
  level_descriptors (subresource_chain subresource) = Ok levels ->
  selector_loop (selector :: todo) i alias selectors (JList l) =
  selector_loop todo (S i) alias
    match alias with
    | Some k => alter (set_value (JList (l ++ levels))) k selectors
    | None => selectors
    end
    (JList (l ++ levels)).
Proof.
  intros Hty Hvalue Hsub Hlevels. cbn [selector_loop].
  rewrite Hty, Hvalue. cbn. rewrite Hsub. cbn.
  rewrite get_subresource_info_levels, Hlevels. reflexivity.
Qed.


(** C9: on a target object that has "source" but neither "selector" nor
    "id", [get_target_id] returns [None] where a list of ids is expected,
    while [get_target_info] raises the [AnnotationError] "target requires
    an id or source property". *)
Theorem source_without_selector_splits_the_resolvers (d : dict) :
  dict_has "source" d = true ->
  dict_has "selector" d = false ->
  dict_has "id" d = false ->
  get_target_id (JObj d) = Ok JNull /\
  fst (get_target_info (JObj d)) =
    Raise (AnnotationError400 "target requires an id or source property").
Proof.
  intros Hsource Hselector Hid.
  unfold get_target_id, get_target_info. cbn [is_str py_in].
  rewrite Hid, Hsource, Hselector. split; reflexivity.
Qed.

(** ** Change detection *)

(** The three length tests of [target_list_changed] all pass exactly on
    equal sets. *)
Lemma size_tests_decide_equality (ids1 ids2 : gset hkey) :
  size ids1 = size ids2 /\
  size (ids1 ∩ ids2) = size ids1 /\
  size (ids1 ∪ ids2) = size ids1 <->
  ids1 = ids2.
Proof.
  split.
  - intros (Hsize & Hinter & _).
    assert (Hsub : ids1 ∩ ids2 = ids1).
    { apply set_subseteq_size_eq; [ apply intersection_subseteq_l | ].
      rewrite Hinter. reflexivity. }
    apply set_subseteq_size_eq.
    + rewrite <- Hsub. apply intersection_subseteq_r.
    + rewrite Hsize. reflexivity.
  - intros <-. rewrite intersection_idemp_L, union_idemp_L. auto.
Qed.

Lemma target_list_changed_decides list1 list2 ids1 ids2 :
  id_set list1 = Ok ids1 ->
  id_set list2 = Ok ids2 ->
  target_list_changed list1 list2 = Ok (bool_decide (ids1 <> ids2)).
Proof.
  intros H1 H2. unfold target_list_changed. rewrite H1, H2. cbn.
  destruct (decide (ids1 = ids2)) as [Heq | Hne].
  - rewrite bool_decide_eq_false_2 by (intros Hne; apply Hne, Heq).
    apply size_tests_decide_equality in Heq as (-> & -> & ->).
    rewrite !Nat.eqb_refl. reflexivity.
  - rewrite bool_decide_eq_true_2 by exact Hne.
    destruct (Nat.eqb_spec (size ids1) (size ids2)) as [Hsize | ];
      [ | reflexivity ].
    destruct (Nat.eqb_spec (size (ids1 ∩ ids2)) (size ids1)) as [Hinter | ];
      [ | reflexivity ].
    destruct (Nat.eqb_spec (size (ids1 ∪ ids2)) (size ids1)) as [Hunion | ];
      [ | reflexivity ].
    exfalso. apply Hne, size_tests_decide_equality. auto.
Qed.

(** ** Running monadic code *)

Lemma run_bind {A B} (m : M A) (f : A -> M B) w :
  (m ≫= f) w =
  match m w with
  | (Ok a, w') => f a w'
  | (Raise e, w') => (Raise e, w')
  end.
Proof. reflexivity. Qed.

Lemma bind_Ok {A B} (m : M A) (f : A -> M B) w b w' :
  (m ≫= f) w = (Ok b, w') ->
  exists a w1, m w = (Ok a, w1) /\ f a w1 = (Ok b, w').
Proof.
  rewrite run_bind. destruct (m w) as [[a | e] w1]; [ eauto | discriminate ].
Qed.

(** ** What a computation leaves alone *)

#[local] Instance heap_only_preorder : PreOrder heap_only.
Proof.
  split.
  - intros w. repeat split.
  - intros w1 w2 w3 (Hd1 & Hf1 & Ht1) (Hd2 & Hf2 & Ht2).
    repeat split; congruence.
Qed.

#[local] Instance emits_preorder P : PreOrder (emits P).
Proof.
  split.
  - intros w. exists []. split; [ symmetry; apply app_nil_r | constructor ].
  - intros w1 w2 w3 (evs1 & H1 & HP1) (evs2 & H2 & HP2).
    exists (evs1 ++ evs2). split.
    + rewrite H2, H1, app_assoc. reflexivity.
    + apply Forall_app; auto.
Qed.

Lemma heap_only_emits P w w' : heap_only w w' -> emits P w w'.
Proof.
  intros (_ & _ & Ht). exists []. split; [ | constructor ].
  rewrite Ht. symmetry. apply app_nil_r.
Qed.

Lemma emits_weaken (P Q : event -> Prop) w w' :
  (forall ev, P ev -> Q ev) -> emits P w w' -> emits Q w w'.
Proof.
  intros HPQ (evs & Ht & HP). exists evs. split; [ exact Ht | ].
  eapply Forall_impl; eauto.
Qed.

Lemma preserves_weaken {A} (R R' : world -> world -> Prop) (m : M A) :
  (forall w w', R w w' -> R' w w') -> preserves R m -> preserves R' m.
Proof. intros HRR' Hm w. apply HRR', Hm. Qed.

Lemma preserves_ret {A} R `{!Reflexive R} (a : A) : preserves R (mret a).
Proof. intros w. reflexivity. Qed.

Lemma preserves_lift {A} R `{!Reflexive R} (r : res A) : preserves R (lift r).
Proof. intros w. reflexivity. Qed.

Lemma preserves_raise {A} R `{!Reflexive R} e : preserves R (@raise A e).
Proof. intros w. reflexivity. Qed.

Lemma preserves_bind {A B} R `{!PreOrder R} (m : M A) (f : A -> M B) :
  preserves R m -> (forall a, preserves R (f a)) -> preserves R (m ≫= f).
Proof.
  intros Hm Hf w. rewrite run_bind. specialize (Hm w).
  destruct (m w) as [[a | e] w1]; cbn in *; [ | exact Hm ].
  etransitivity; [ exact Hm | apply Hf ].
Qed.

(** Splits a computation along its binds and its case distinctions, and
    closes the parts that the hint database [frame] knows. *)
Ltac frame_step :=
  match goal with
  | |- preserves _ (mbind _ _) => apply preserves_bind; [ typeclasses eauto | | intros ? ]
  | |- preserves _ (mret _) => apply preserves_ret; typeclasses eauto
  | |- preserves _ (lift _) => apply preserves_lift; typeclasses eauto
  | |- preserves _ (raise _) => apply preserves_raise; typeclasses eauto
  | |- preserves _ (if ?b then _ else _) => destruct b
  | |- preserves _ (match ?x with _ => _ end) => destruct x
  | |- preserves _ _ => solve [ eauto with frame ]
  end.
Ltac frame := repeat frame_step.

Create HintDb frame discriminated.
#[local] Hint Constants Opaque : frame.
#[local] Hint Variables Opaque : frame.

(** *** Operations that touch the heap only *)

Lemma alloc_heap_only v : preserves heap_only (alloc v).
Proof. intros w. repeat split. Qed.
Lemma deref_heap_only l : preserves heap_only (deref l).
Proof. intros w. repeat split. Qed.
Lemma assign_heap_only l v : preserves heap_only (assign l v).
Proof. intros w. repeat split. Qed.
Lemma new_urn_heap_only : preserves heap_only new_urn.
Proof. intros w. repeat split. Qed.
Lemma now_heap_only : preserves heap_only now.
Proof. intros w. repeat split. Qed.
#[local] Hint Resolve alloc_heap_only deref_heap_only assign_heap_only
  new_urn_heap_only now_heap_only : frame.

Lemma obj_in_heap_only k l : preserves heap_only (obj_in k l).
Proof. unfold obj_in. frame. Qed.
Lemma obj_getitem_heap_only l k : preserves heap_only (obj_getitem l k).
Proof. unfold obj_getitem. frame. Qed.
Lemma obj_setitem_heap_only l k v : preserves heap_only (obj_setitem l k v).
Proof. unfold obj_setitem. frame. Qed.
Lemma obj_delitem_heap_only l k : preserves heap_only (obj_delitem l k).
Proof. unfold obj_delitem. frame. Qed.
Lemma copy_copy_heap_only l : preserves heap_only (copy_copy l).
Proof. unfold copy_copy. frame. Qed.
#[local] Hint Resolve obj_in_heap_only obj_getitem_heap_only
  obj_setitem_heap_only obj_delitem_heap_only copy_copy_heap_only : frame.

Lemma set_permissions_heap_only self : preserves heap_only (set_permissions self).
Proof. unfold set_permissions. frame. Qed.
Lemma set_target_list_heap_only self : preserves heap_only (set_target_list self).
Proof. unfold set_target_list. frame. Qed.
#[local] Hint Resolve set_permissions_heap_only set_target_list_heap_only : frame.

Lemma Annotation_init_heap_only l : preserves heap_only (Annotation_init l).
Proof. unfold Annotation_init. frame. Qed.
Lemma update_heap_only self l : preserves heap_only (update self l).
Proof. unfold update. frame. Qed.
Lemma self_get_targets_info_heap_only self :
  preserves heap_only (self_get_targets_info self).
Proof. unfold self_get_targets_info. frame. Qed.
#[local] Hint Resolve Annotation_init_heap_only update_heap_only
  self_get_targets_info_heap_only : frame.

(** ** Dictionaries *)

Lemma dict_get_set k k' v d :
  dict_get k (dict_set k' v d) =
  if String.eqb k k' then Some v else dict_get k d.
Proof.
  induction d as [ | [k0 v0] d IH ]; cbn [dict_set dict_get].
  - reflexivity.
  - destruct (String.eqb_spec k' k0) as [-> | Hne]; cbn [dict_get].
    + destruct (String.eqb k k0); reflexivity.
    + rewrite IH. destruct (String.eqb_spec k k0) as [-> | ]; [ | reflexivity ].
      destruct (String.eqb_spec k0 k'); [ congruence | reflexivity ].
Qed.

Lemma dict_get_del k k' d :
  dict_get k (dict_del k' d) =
  if String.eqb k k' then None else dict_get k d.
Proof.
  unfold dict_del.
  induction d as [ | [k0 v0] d IH ]; cbn [List.filter dict_get fst].
  - destruct (String.eqb k k'); reflexivity.
  - destruct (String.eqb_spec k' k0) as [-> | Hne]; cbn [negb dict_get].
    + rewrite IH. destruct (String.eqb k k0); reflexivity.
    + rewrite IH. destruct (String.eqb_spec k k0) as [-> | ]; [ | reflexivity ].
      destruct (String.eqb_spec k0 k'); [ congruence | reflexivity ].
Qed.

Lemma dict_has_set k k' v d :
  dict_has k (dict_set k' v d) = String.eqb k k' || dict_has k d.
Proof.
  unfold dict_has. rewrite dict_get_set. destruct (String.eqb k k'); reflexivity.
Qed.

Lemma dict_has_del k k' d :
  dict_has k (dict_del k' d) = negb (String.eqb k k') && dict_has k d.
Proof.
  unfold dict_has. rewrite dict_get_del. destruct (String.eqb k k'); reflexivity.
Qed.

Lemma dict_del_absent k d : dict_has k d = false -> dict_del k d = d.
Proof.
  unfold dict_has, dict_del.
  induction d as [ | [k0 v0] d IH ]; cbn [List.filter dict_get fst]; [ reflexivity | ].
  destruct (String.eqb k k0); [ discriminate | ].
  intros H. cbn [negb]. f_equal. apply IH, H.
Qed.

(** ** Objects on the heap *)

Lemma pt_set_obj w l d d' : pt w l d -> pt (set_obj l d' w) l d'.
Proof.
  unfold pt, set_obj. cbn. intros H.
  apply list_lookup_insert_eq. eapply lookup_lt_Some, H.
Qed.

(** Draws do not touch the heap. *)
Lemma pt_after_draws n w l d : pt w l d -> pt (Nat.iter n with_tick w) l d.
Proof. intros H. induction n as [ | n IH ]; [ exact H | exact IH ]. Qed.

Lemma set_obj_id w l d : pt w l d -> set_obj l d w = w.
Proof.
  unfold pt, set_obj, with_heap. intros H.
  rewrite list_insert_id by exact H. destruct w; reflexivity.
Qed.

Lemma set_obj_twice w l d1 d2 : set_obj l d2 (set_obj l d1 w) = set_obj l d2 w.
Proof. unfold set_obj, with_heap. cbn. rewrite list_insert_insert_eq. reflexivity. Qed.

Lemma set_obj_tick w l d1 d2 :
  set_obj l d2 (with_tick (set_obj l d1 w)) = set_obj l d2 (with_tick w).
Proof. unfold set_obj, with_heap. cbn. rewrite list_insert_insert_eq. reflexivity. Qed.

Lemma deref_run w l d : pt w l d -> deref l w = (Ok (JObj d), w).
Proof. unfold pt, deref. intros ->. reflexivity. Qed.

Lemma obj_in_run k w l d : pt w l d -> obj_in k l w = (Ok (dict_has k d), w).
Proof. intros H. unfold obj_in. rewrite run_bind, (deref_run _ _ _ H). reflexivity. Qed.

Lemma obj_getitem_run k w l d :
  pt w l d -> obj_getitem l k w = (py_getitem (JObj d) k, w).
Proof. intros H. unfold obj_getitem. rewrite run_bind, (deref_run _ _ _ H). reflexivity. Qed.

Lemma obj_setitem_run k v w l d :
  pt w l d -> obj_setitem l k v w = (Ok tt, set_obj l (dict_set k v d) w).
Proof. intros H. unfold obj_setitem. rewrite run_bind, (deref_run _ _ _ H). reflexivity. Qed.

Lemma obj_delitem_run k w l d :
  pt w l d ->
  obj_delitem l k w =
  if dict_has k d then (Ok tt, set_obj l (dict_del k d) w)
  else (Raise (KeyError k), w).
Proof.
  intros H. unfold obj_delitem. rewrite run_bind, (deref_run _ _ _ H).
  destruct (dict_has k d); reflexivity.
Qed.

(** ** The entity *)

Lemma dict_has_get k d :
  dict_has k d = match dict_get k d with Some _ => true | None => false end.
Proof. reflexivity. Qed.

Lemma set_permissions_run self w d :
  pt w (self_data self) d ->
  set_permissions self w =
  (Ok (assign_permissions (default JNull (dict_get "permissions" d)) self),
   set_obj (self_data self) (dict_del "permissions" d) w).
Proof.
  intros H. unfold set_permissions.
  rewrite run_bind, (obj_in_run _ _ _ _ H), dict_has_get.
  destruct (dict_get "permissions" d) as [p | ] eqn:Hp.
  - rewrite run_bind, (obj_getitem_run _ _ _ _ H). cbn [py_getitem]. rewrite Hp.
    rewrite run_bind, (obj_delitem_run _ _ _ _ H), dict_has_get, Hp.
    reflexivity.
  - rewrite dict_del_absent by (rewrite dict_has_get, Hp; reflexivity).
    rewrite (set_obj_id _ _ _ H). reflexivity.
Qed.

Lemma set_target_list_run self w d :
  pt w (self_data self) d ->
  set_target_list self w =
  (Ok (assign_target_list (default JNull (dict_get "target_list" d)) self),
   set_obj (self_data self) (dict_del "target_list" d) w).
Proof.
  intros H. unfold set_target_list.
  rewrite run_bind, (obj_in_run _ _ _ _ H), dict_has_get.
  destruct (dict_get "target_list" d) as [p | ] eqn:Hp.
  - rewrite run_bind, (obj_getitem_run _ _ _ _ H). cbn [py_getitem]. rewrite Hp.
    rewrite run_bind, (obj_delitem_run _ _ _ _ H), dict_has_get, Hp.
    reflexivity.
  - rewrite dict_del_absent by (rewrite dict_has_get, Hp; reflexivity).
    rewrite (set_obj_id _ _ _ H). reflexivity.
Qed.

Lemma with_defaults_has_id n d : dict_has "id" (with_defaults n d) = true.
Proof.
  unfold with_defaults.
  destruct (dict_has "id" d) eqn:Hid.
  - destruct (dict_has "created" d); [ exact Hid | ].
    rewrite dict_has_set, Hid. reflexivity.
  - rewrite !dict_has_set.
    destruct (String.eqb "created" "id" || dict_has "created" d);
      rewrite ?dict_has_set, ?String.eqb_refl; reflexivity.
Qed.

(** The part of [__init__] from the validation on. *)
Lemma Annotation_init_tail_run l w d :
  pt w l d ->
  dict_has "id" d = true ->
  (document ← deref l;
   lift (validate document None);;
   i ← obj_getitem l "id";
   has_motivation ← obj_in "motivation" l;
   motivation ← (if has_motivation : bool
                 then obj_getitem l "motivation" else mret JNull);
   self ← set_permissions
            (MkAnnotation l "Annotation" i motivation [] JNull JNull);
   set_target_list self) w =
  match validate (JObj d) None with
  | Raise e => (Raise e, w)
  | Ok _ =>
      (Ok (MkAnnotation l "Annotation"
             (default JNull (dict_get "id" d))
             (default JNull (dict_get "motivation" d)) []
             (default JNull (dict_get "permissions" d))
             (default JNull (dict_get "target_list" d))),
       set_obj l (dict_del "target_list" (dict_del "permissions" d)) w)
  end.
Proof.
  intros H Hid.
  rewrite run_bind, (deref_run _ _ _ H), run_bind. unfold lift at 1.
  destruct (validate (JObj d) None) as [ok | e]; [ | reflexivity ].
  rewrite run_bind, (obj_getitem_run _ _ _ _ H). cbn [py_getitem].
  rewrite dict_has_get in Hid.
  destruct (dict_get "id" d) as [i | ]; [ clear Hid | discriminate ].
  rewrite run_bind, (obj_in_run _ _ _ _ H), run_bind, dict_has_get.
  assert (Hm : (if match dict_get "motivation" d with
                   | Some _ => true
                   | None => false
                   end
                then obj_getitem l "motivation" else mret JNull) w
               = (Ok (default JNull (dict_get "motivation" d)), w)).
  { destruct (dict_get "motivation" d) as [m | ] eqn:Hmot; [ | reflexivity ].
    rewrite (obj_getitem_run _ _ _ _ H). cbn [py_getitem]. rewrite Hmot.
    reflexivity. }
  rewrite Hm. clear Hm.
  rewrite run_bind, (set_permissions_run _ _ d) by exact H.
  cbn [self_data].
  rewrite (set_target_list_run _ _ (dict_del "permissions" d))
    by (apply (pt_set_obj _ _ _ _ H)).
  cbn [assign_permissions assign_target_list self_data self_type self_id
       self_motivation self_in_collection self_permissions self_target_list].
  rewrite set_obj_twice, dict_get_del. reflexivity.
Qed.

(** [Annotation(annotation)] on a dictionary, in one equation. *)
Lemma Annotation_init_run l w d :
  pt w l d ->
  Annotation_init l w =
  let d2 := with_defaults (ticks w) d in
  let w2 := set_obj l d2 (Nat.iter (draws d) with_tick w) in
  match validate (JObj d2) None with
  | Raise e => (Raise e, w2)
  | Ok _ =>
      (Ok (MkAnnotation l "Annotation"
             (default JNull (dict_get "id" d2))
             (default JNull (dict_get "motivation" d2)) []
             (default JNull (dict_get "permissions" d2))
             (default JNull (dict_get "target_list" d2))),
       set_obj l (dict_del "target_list" (dict_del "permissions" d2)) w2)
  end.
Proof.
  intros H. unfold Annotation_init.
  rewrite run_bind, (obj_in_run _ _ _ _ H). unfold with_defaults, draws.
  destruct (dict_has "id" d) eqn:Hid; cbn [negb].
  - rewrite run_bind. cbn [mret M_ret].
    rewrite run_bind, (obj_in_run _ _ _ _ H).
    destruct (dict_has "created" d) eqn:Hc; cbn [negb]; rewrite run_bind.
    + cbv zeta. cbn [mret M_ret Nat.add]. simpl Nat.iter.
      rewrite (set_obj_id _ _ _ H).
      apply (Annotation_init_tail_run _ _ _ H Hid).
    + cbv zeta. cbn [Nat.add]. simpl Nat.iter.
      rewrite run_bind. unfold now at 1.
      rewrite (obj_setitem_run _ _ (with_tick w) _ d) by exact H.
      apply Annotation_init_tail_run.
      * eapply pt_set_obj, H.
      * rewrite dict_has_set, Hid. apply orb_true_r.
  - rewrite run_bind, run_bind. unfold new_urn at 1.
    rewrite (obj_setitem_run _ _ (with_tick w) _ d) by exact H.
    assert (H1 : pt (set_obj l (dict_set "id" (JStr (uuid4_urn (ticks w))) d)
                       (with_tick w)) l
                    (dict_set "id" (JStr (uuid4_urn (ticks w))) d))
      by (eapply pt_set_obj, H).
    rewrite run_bind, (obj_in_run _ _ _ _ H1).
    destruct (dict_has "created"
                (dict_set "id" (JStr (uuid4_urn (ticks w))) d)) eqn:Hc;
      cbn [negb]; rewrite run_bind.
    + assert (Hc' : dict_has "created" d = true)
        by (rewrite dict_has_set in Hc; exact Hc).
      cbv zeta. rewrite Hc'.
      cbn [mret M_ret Nat.add]. simpl Nat.iter.
      rewrite (Annotation_init_tail_run _ _ _ H1)
        by (rewrite dict_has_set; reflexivity).
      reflexivity.
    + assert (Hc' : dict_has "created" d = false)
        by (rewrite dict_has_set in Hc; exact Hc).
      cbv zeta. rewrite Hc'.
      cbn [Nat.add]. simpl Nat.iter.
      rewrite run_bind. unfold now at 1.
      cbv beta. erewrite obj_setitem_run by exact H1.
      rewrite (Annotation_init_tail_run _ _
                 (dict_set "created" (JStr (now_isoformat (S (ticks w))))
                    (dict_set "id" (JStr (uuid4_urn (ticks w))) d))).
      * cbn [ticks with_tick]. rewrite set_obj_tick. reflexivity.
      * eapply pt_set_obj. exact H1.
      * rewrite !dict_has_set. rewrite String.eqb_refl. apply orb_true_r.
Qed.

Lemma Annotation_init_Ok l w d a w' :
  pt w l d ->
  Annotation_init l w = (Ok a, w') ->
  let d2 := with_defaults (ticks w) d in
  a = MkAnnotation l "Annotation"
        (default JNull (dict_get "id" d2))
        (default JNull (dict_get "motivation" d2)) []
        (default JNull (dict_get "permissions" d2))
        (default JNull (dict_get "target_list" d2)) /\
  w' = set_obj l (dict_del "target_list" (dict_del "permissions" d2))
         (set_obj l d2 (Nat.iter (draws d) with_tick w)) /\
  pt w' l (dict_del "target_list" (dict_del "permissions" d2)).
Proof.
  intros H Hrun. rewrite (Annotation_init_run _ _ _ H) in Hrun.
  cbv zeta in *.
  destruct (validate (JObj (with_defaults (ticks w) d)) None); [ | discriminate ].
  injection Hrun as <- <-. repeat split.
  eapply pt_set_obj, pt_set_obj, pt_after_draws, H.
Qed.

(** The defaults leave every key but "id" and "created" alone, and keep
    an "id" or "created" that was there. *)
Lemma with_defaults_get n d k :
  dict_get k (with_defaults n d) =
  if String.eqb k "id" then
    Some (default (JStr (uuid4_urn n)) (dict_get "id" d))
  else if String.eqb k "created" then
    Some (default
            (JStr (now_isoformat (if dict_has "id" d then n else S n)))
            (dict_get "created" d))
  else dict_get k d.
Proof.
  unfold with_defaults, dict_has.
  destruct (dict_get "id" d) as [i | ] eqn:Hid.
  - destruct (dict_get "created" d) as [c | ] eqn:Hc.
    + destruct (String.eqb_spec k "id") as [-> | ]; [ exact Hid | ].
      destruct (String.eqb_spec k "created") as [-> | ]; [ exact Hc | reflexivity ].
    + rewrite dict_get_set.
      destruct (String.eqb_spec k "id") as [-> | ]; [ exact Hid | reflexivity ].
  - rewrite (dict_get_set "created" "id").
    change (String.eqb "created" "id") with false. cbv iota.
    destruct (dict_get "created" d) as [c | ] eqn:Hc.
    + rewrite dict_get_set.
      destruct (String.eqb_spec k "id") as [-> | ]; [ reflexivity | ].
      destruct (String.eqb_spec k "created") as [-> | ]; [ exact Hc | reflexivity ].
    + rewrite !dict_get_set.
      destruct (String.eqb_spec k "id") as [-> | ]; [ reflexivity | ].
      destruct (String.eqb_spec k "created") as [-> | ]; reflexivity.
Qed.

(** C10: [Annotation(annotation)] changes the caller's dictionary in
    place.  When the constructor returns on a dictionary [d] at [l]: the
    entity's [data] is [l] itself; "id" and "created" are in the
    dictionary at [l], freshly drawn where [d] lacked them and as in [d]
    otherwise; "permissions" and "target_list" are no longer in it; every
    other key is as it was. *)
Theorem Annotation_init_changes_the_callers_dictionary l w d a w' :
  pt w l d ->
  Annotation_init l w = (Ok a, w') ->
  self_data a = l /\
  exists d',
    pt w' l d' /\
    dict_get "id" d' =
      Some (default (JStr (uuid4_urn (ticks w))) (dict_get "id" d)) /\
    dict_get "created" d' =
      Some (default
              (JStr (now_isoformat
                       (if dict_has "id" d then ticks w else S (ticks w))))
              (dict_get "created" d)) /\
    dict_has "permissions" d' = false /\
    dict_has "target_list" d' = false /\
    forall k,
      k <> "id" -> k <> "created" ->
      k <> "permissions" -> k <> "target_list" ->
      dict_get k d' = dict_get k d.
Proof.
  intros H Hrun.
  destruct (Annotation_init_Ok _ _ _ _ _ H Hrun) as (-> & _ & Hpt).
  split; [ reflexivity | ].
  eexists. split; [ exact Hpt | ].
  rewrite !dict_has_del, !dict_get_del, !with_defaults_get.
  repeat split.
  intros k Hid Hc Hp Ht.
  rewrite !dict_get_del, with_defaults_get.
  destruct (String.eqb_spec k "target_list"); [ congruence | ].
  destruct (String.eqb_spec k "permissions"); [ congruence | ].
  destruct (String.eqb_spec k "id"); [ congruence | ].
  destruct (String.eqb_spec k "created"); [ congruence | reflexivity ].
Qed.

(** [update] on a payload dictionary, in one equation. *)
Lemma update_run self l w d :
  pt w l d ->
  update self l w =
  match validate (JObj d) None with
  | Raise e => (Raise e, w)
  | Ok _ =>
      match dict_get "id" d with
      | None => (Raise (KeyError "id"), w)
      | Some i =>
          if py_eqb (self_id self) i then
            (Ok (assign_data l self),
             set_obj l (dict_set "modified" (JStr (now_isoformat (ticks w))) d)
               (with_tick w))
          else
            (Raise (AnnotationError400
               "ID of updated annotation does not match ID of existing annotation"),
             w)
      end
  end.
Proof.
  intros H. unfold update.
  rewrite run_bind, (deref_run _ _ _ H), run_bind. unfold lift at 1.
  destruct (validate (JObj d) None) as [ok | e]; [ | reflexivity ].
  rewrite run_bind, (obj_getitem_run _ _ _ _ H). cbn [py_getitem].
  destruct (dict_get "id" d) as [i | ]; [ | reflexivity ].
  destruct (py_eqb (self_id self) i); [ | reflexivity ].
  rewrite run_bind. unfold now at 1. cbv beta iota.
  rewrite run_bind. erewrite obj_setitem_run by exact H. reflexivity.
Qed.

Lemma alloc_pt w d : pt (snd (alloc (JObj d) w)) (length (heap w)) d.
Proof.
  unfold pt. cbn. rewrite lookup_app_r by reflexivity.
  rewrite Nat.sub_diag. reflexivity.
Qed.

(** [to_clean_json] when the permissions were not asked for: a copy of
    [data] as it is. *)
Lemma to_clean_json_run self params w d :
  pt w (self_data self) d ->
  include_permissions params = Ok false ->
  to_clean_json self params w =
  (Ok (length (heap w)), snd (alloc (JObj d) w)).
Proof.
  intros H Hparams. unfold to_clean_json, copy_copy.
  rewrite !run_bind, (deref_run _ _ _ H). unfold alloc at 1.
  rewrite Hparams. reflexivity.
Qed.

(** C8: construction leaves no "permissions" key in [data], and [update]
    does not restore that.  For an entity built by the constructor and
    then updated with a payload that carries "permissions": right after
    construction [data] had no such key; after [update] the key is in
    [data] with the payload's value, and [to_clean_json] returns a
    dictionary with that key although the permissions were not asked
    for. *)
Theorem update_keeps_permissions_in_data
    l0 w0 d0 self w l d p self' w1 params :
  pt w0 l0 d0 ->
  Annotation_init l0 w0 = (Ok self, w) ->
  pt w l d ->
  dict_get "permissions" d = Some p ->
  update self l w = (Ok self', w1) ->
  include_permissions params = Ok false ->
  (exists d0', pt w (self_data self) d0' /\ dict_has "permissions" d0' = false) /\
  (exists d1, pt w1 (self_data self') d1 /\ dict_get "permissions" d1 = Some p) /\
  (exists l2 w2 d2,
     to_clean_json self' params w1 = (Ok l2, w2) /\
     pt w2 l2 d2 /\
     dict_get "permissions" d2 = Some p).
Proof.
  intros H0 Hinit H Hp Hupdate Hparams.
  destruct (Annotation_init_Ok _ _ _ _ _ H0 Hinit) as (Hself & _ & Hpt0).
  split.
  { eexists. rewrite Hself. cbn [self_data]. split; [ exact Hpt0 | ].
    rewrite !dict_has_del. reflexivity. }
  rewrite (update_run _ _ _ _ H) in Hupdate.
  destruct (validate (JObj d) None); [ | discriminate ].
  destruct (dict_get "id" d) as [i | ]; [ | discriminate ].
  destruct (py_eqb (self_id self) i); [ | discriminate ].
  injection Hupdate as <- <-. cbn [assign_data self_data].
  assert (H1 : pt (set_obj l (dict_set "modified"
                                (JStr (now_isoformat (ticks w))) d)
                     (with_tick w)) l
                  (dict_set "modified" (JStr (now_isoformat (ticks w))) d))
    by (eapply pt_set_obj, H).
  assert (Hp1 : dict_get "permissions"
                  (dict_set "modified" (JStr (now_isoformat (ticks w))) d)
                = Some p)
    by (rewrite dict_get_set; exact Hp).
  split; [ eexists; split; [ exact H1 | exact Hp1 ] | ].
  do 3 eexists. split; [ | split ].
  - apply to_clean_json_run; [ exact H1 | exact Hparams ].
  - apply alloc_pt.
  - exact Hp1.
Qed.

(** ** The index *)

Lemma is_deleted_run i ty w :
  is_deleted i ty w = (deleted_in (es_docs w) i ty, w).
Proof.
  unfold is_deleted, deleted_in. rewrite run_bind. unfold es_exists at 1.
  destruct (existsb (doc_matches ty i) (es_docs w)); [ | reflexivity ].
  rewrite run_bind. unfold es_get at 1.
  destruct (List.find (doc_matches ty i) (es_docs w)) as [d | ]; [ | reflexivity ].
  rewrite run_bind. unfold lift at 1.
  destruct (py_in (JStr "status") (doc_source d)) as [[ | ] | e]; try reflexivity.
  rewrite run_bind. unfold lift at 1.
  destruct (py_getitem (doc_source d) "status"); reflexivity.
Qed.

Lemma es_exists_heap_only ty i : preserves heap_only (es_exists ty i).
Proof. intros w. repeat split. Qed.
Lemma es_get_heap_only ty i : preserves heap_only (es_get ty i).
Proof. intros w. unfold es_get. destruct (List.find _ _); repeat split. Qed.
Lemma es_search_heap_only ty f v :
  preserves heap_only (es_search_target_list ty f v).
Proof. intros w. repeat split. Qed.
#[local] Hint Resolve es_exists_heap_only es_get_heap_only
  es_search_heap_only : frame.

Lemma is_deleted_heap_only i ty : preserves heap_only (is_deleted i ty).
Proof. intros w. rewrite is_deleted_run. reflexivity. Qed.
#[local] Hint Resolve is_deleted_heap_only : frame.

Lemma should_exist_heap_only i ty : preserves heap_only (should_exist i ty).
Proof. unfold should_exist. frame. Qed.
Lemma should_not_exist_heap_only i ty :
  preserves heap_only (should_not_exist i ty).
Proof. unfold should_not_exist. frame. Qed.
#[local] Hint Resolve should_exist_heap_only should_not_exist_heap_only : frame.

Lemma get_from_index_heap_only i ty : preserves heap_only (get_from_index i ty).
Proof. unfold get_from_index. frame. Qed.

Lemma alloc_all_heap_only sources : preserves heap_only (alloc_all sources).
Proof. induction sources; cbn [alloc_all]; frame. Qed.
#[local] Hint Resolve get_from_index_heap_only alloc_all_heap_only : frame.

Lemma get_from_index_by_target_heap_only target :
  preserves heap_only (get_from_index_by_target target).
Proof. unfold get_from_index_by_target. frame. Qed.
#[local] Hint Resolve get_from_index_by_target_heap_only : frame.

(** ** Closure computation *)

#[local] Instance closure_run_preorder : PreOrder closure_run.
Proof.
  split.
  - intros w. split; reflexivity.
  - intros w1 w2 w3 (Hd1 & He1) (Hd2 & He2). split; [ congruence | ].
    rewrite Hd1 in He2. etransitivity; eassumption.
Qed.

Lemma heap_only_closure_run w w' : heap_only w w' -> closure_run w w'.
Proof.
  intros H. split; [ apply H | apply heap_only_emits, H ].
Qed.

Lemma preserves_bind_at {A B} R `{!PreOrder R} (m : M A) (f : A -> M B) w :
  R w (snd (m w)) -> (forall a, preserves R (f a)) ->
  R w (snd ((m ≫= f) w)).
Proof.
  intros Hm Hf. rewrite run_bind.
  destruct (m w) as [[a | e] w1]; cbn in *; [ | exact Hm ].
  etransitivity; [ exact Hm | apply Hf ].
Qed.

Lemma check_index_is_fresh_closure_run : preserves closure_run check_index_is_fresh.
Proof.
  intros w. unfold check_index_is_fresh, index_needs_refresh.
  rewrite run_bind. destruct (needs_refresh w); [ | reflexivity ].
  split; [ reflexivity | ].
  exists [EsIndicesRefresh]. split; [ reflexivity | ].
  repeat constructor.
Qed.

Lemma get_annotation_es_closure_run i w :
  deleted_in (es_docs w) i (JStr "_all") = Ok false ->
  closure_run w (snd (get_annotation_es i w)).
Proof.
  intros Hlive. unfold get_annotation_es.
  apply preserves_bind_at; [ typeclasses eauto | | ].
  - split; [ reflexivity | ].
    exists [CallGetAnnotation i]. split; [ reflexivity | ].
    repeat constructor. exact Hlive.
  - intros _. apply preserves_bind; [ typeclasses eauto | | intros _ ].
    + apply check_index_is_fresh_closure_run.
    + eapply preserves_weaken; [ apply heap_only_closure_run | ].
      frame.
Qed.

Lemma expand_targets_closure_run closure annotation targets :
  (forall referenced, preserves closure_run (closure referenced)) ->
  forall deeper_targets,
    preserves closure_run
      (expand_targets closure annotation targets deeper_targets).
Proof.
  intros Hclosure.
  induction targets as [ | target rest IH ]; intros deeper_targets;
    cbn [expand_targets]; [ frame | ].
  apply preserves_bind; [ typeclasses eauto | frame | intros is_anno ].
  destruct is_anno; [ | apply IH ].
  apply preserves_bind; [ typeclasses eauto | frame | intros i ].
  destruct (py_eqb i (self_id annotation)); [ frame | ].
  intros w. rewrite run_bind, is_deleted_run.
  destruct (deleted_in (es_docs w) i (JStr "_all")) as [[ | ] | e] eqn:Hdel.
  - apply IH.
  - apply preserves_bind_at; [ typeclasses eauto | | ].
    + apply get_annotation_es_closure_run, Hdel.
    + intros target_annotation.
      apply preserves_bind; [ typeclasses eauto | | intros referenced ].
      * eapply preserves_weaken; [ apply heap_only_closure_run | frame ].
      * apply preserves_bind; [ typeclasses eauto | apply Hclosure | ].
        intros more. apply IH.
  - reflexivity.
Qed.

Lemma get_target_list_closure_run fuel :
  forall annotation, preserves closure_run (get_target_list fuel annotation).
Proof.
  induction fuel as [ | fuel IH ]; intros annotation; cbn [get_target_list].
  - frame.
  - apply preserves_bind; [ typeclasses eauto | | intros target_list ].
    + eapply preserves_weaken; [ apply heap_only_closure_run | frame ].
    + apply preserves_bind; [ typeclasses eauto | | intros deeper; frame ].
      apply expand_targets_closure_run, IH.
Qed.

(** The second loop only ever appends to the list it was given. *)
Lemma merge_targets_extends deeper_targets :
  forall target_list target_ids result,
    merge_targets deeper_targets target_list target_ids = Ok result ->
    exists added, result = target_list ++ added.
Proof.
  induction deeper_targets as [ | target rest IH ];
    intros target_list target_ids result; cbn [merge_targets].
  - intros [= <-]. exists []. symmetry. apply app_nil_r.
  - destruct (negb (existsb (py_eqb target) target_ids)); [ | apply IH ].
    destruct (py_getitem target "id") as [i | ]; [ cbn | discriminate ].
    intros Hrest. apply IH in Hrest as [added ->].
    exists (target :: added). rewrite <- app_assoc. reflexivity.
Qed.

(** A closure starts with the direct descriptors, in their order. *)
Lemma get_target_list_starts_with_targets fuel annotation w result w'
    target_list w1 :
  get_target_list fuel annotation w = (Ok result, w') ->
  self_get_targets_info annotation w = (Ok target_list, w1) ->
  exists added, result = target_list ++ added.
Proof.
  destruct fuel as [ | fuel ]; cbn [get_target_list]; [ discriminate | ].
  intros Hrun Hinfo. rewrite run_bind, Hinfo in Hrun.
  apply bind_Ok in Hrun as (deeper & w2 & _ & Hrun).
  apply bind_Ok in Hrun as (ids & w3 & _ & Hrun).
  unfold lift in Hrun. injection Hrun as Hmerge _.
  eapply merge_targets_extends, Hmerge.
Qed.

(** ** Self-targeting *)

Lemma expand_targets_app closure annotation pre post :
  forall deeper_targets w,
    expand_targets closure annotation (pre ++ post) deeper_targets w =
    (expand_targets closure annotation pre deeper_targets
       ≫= expand_targets closure annotation post) w.
Proof.
  induction pre as [ | target pre IH ]; intros deeper_targets w;
    [ reflexivity | ].
  cbn [app expand_targets]. rewrite !run_bind.
  destruct (lift (is_annotation target) w) as [[[ | ] | e] w1];
    [ | apply IH | reflexivity ].
  rewrite !run_bind.
  destruct (lift (py_getitem target "id") w1) as [[i | e] w2]; [ | reflexivity ].
  destruct (py_eqb i (self_id annotation)); [ reflexivity | ].
  rewrite !run_bind.
  destruct (is_deleted i (JStr "_all") w2) as [[[ | ] | e] w3];
    [ apply IH | | reflexivity ].
  rewrite !run_bind.
  destruct (get_annotation_es i w3) as [[l | e] w4]; [ | reflexivity ].
  rewrite !run_bind.
  destruct (Annotation_init l w4) as [[referenced | e] w5]; [ | reflexivity ].
  rewrite !run_bind.
  destruct (closure referenced w5) as [[more | e] w6]; [ | reflexivity ].
  apply IH.
Qed.

(** The loop stops at a descriptor of type Annotation that carries the
    annotation's own id. *)
Lemma expand_targets_at_self closure annotation target i rest deeper_targets w :
  is_annotation target = Ok true ->
  py_getitem target "id" = Ok i ->
  py_eqb i (self_id annotation) = true ->
  expand_targets closure annotation (target :: rest) deeper_targets w =
  (Raise self_targeting, w).
Proof.
  intros Hanno Hid Heq. cbn [expand_targets].
  rewrite run_bind. unfold lift at 1. rewrite Hanno.
  rewrite run_bind. unfold lift at 1. rewrite Hid, Heq. reflexivity.
Qed.

Lemma get_target_list_at_self fuel annotation w w1 pre target i post :
  self_get_targets_info annotation w = (Ok (pre ++ target :: post), w1) ->
  is_annotation target = Ok true ->
  py_getitem target "id" = Ok i ->
  py_eqb i (self_id annotation) = true ->
  get_target_list (S fuel) annotation w =
  match expand_targets (get_target_list fuel) annotation pre [] w1 with
  | (Ok _, w2) => (Raise self_targeting, w2)
  | (Raise e, w2) => (Raise e, w2)
  end.
Proof.
  intros Hinfo Hanno Hid Heq. cbn [get_target_list].
  rewrite run_bind, Hinfo, run_bind, expand_targets_app, run_bind.
  destruct (expand_targets (get_target_list fuel) annotation pre [] w1)
    as [[deeper | e] w2]; [ | reflexivity ].
  rewrite (expand_targets_at_self _ _ _ _ _ _ _ Hanno Hid Heq). reflexivity.
Qed.

Lemma get_target_list_self_target_fails
    fuel annotation w w1 target_list target i :
  self_get_targets_info annotation w = (Ok target_list, w1) ->
  In target target_list ->
  is_annotation target = Ok true ->
  py_getitem target "id" = Ok i ->
  py_eqb i (self_id annotation) = true ->
  is_Ok (fst (get_target_list fuel annotation w)) = false.
Proof.
  intros Hinfo Hin Hanno Hid Heq.
  destruct fuel as [ | fuel ]; [ reflexivity | ].
  apply in_split in Hin as (pre & post & ->).
  rewrite (get_target_list_at_self _ _ _ _ _ _ _ _ Hinfo Hanno Hid Heq).
  destruct (expand_targets (get_target_list fuel) annotation pre [] w1)
    as [[deeper | e] w2]; reflexivity.
Qed.

(** ** Tombstoned targets *)

(** The loop passes over a tombstoned descriptor of type Annotation: no
    fetch, no recursive call, nothing added. *)
Lemma expand_targets_at_tombstone
    closure annotation target i rest deeper_targets w :
  is_annotation target = Ok true ->
  py_getitem target "id" = Ok i ->
  py_eqb i (self_id annotation) = false ->
  fst (is_deleted i (JStr "_all") w) = Ok true ->
  expand_targets closure annotation (target :: rest) deeper_targets w =
  expand_targets closure annotation rest deeper_targets w.
Proof.
  intros Hanno Hid Hne Hgone. cbn [expand_targets].
  rewrite run_bind. unfold lift at 1. rewrite Hanno.
  rewrite run_bind. unfold lift at 1. rewrite Hid, Hne.
  rewrite run_bind. rewrite is_deleted_run in *. cbn [fst] in Hgone.
  rewrite Hgone. reflexivity.
Qed.

(** C3: a descriptor of type Annotation whose record is tombstoned stays
    in the closure as a leaf.  When closure computation returns, every
    such direct descriptor is in the result; the first loop passes over
    it without a fetch or a recursive call, whatever the recursive call
    is, in every state with the same index; the run never called
    [get_annotation_es] on its id, and no id it did fetch was
    tombstoned. *)
Theorem tombstoned_targets_stay_leaves
    fuel annotation w result w' target_list w1 d i :
  get_target_list fuel annotation w = (Ok result, w') ->
  self_get_targets_info annotation w = (Ok target_list, w1) ->
  In d target_list ->
  is_annotation d = Ok true ->
  py_getitem d "id" = Ok i ->
  fst (is_deleted i (JStr "_all") w) = Ok true ->
  In d result /\
  (forall closure rest deeper_targets w0,
     es_docs w0 = es_docs w ->
     expand_targets closure annotation (d :: rest) deeper_targets w0 =
     expand_targets closure annotation rest deeper_targets w0) /\
  exists evs,
    trace w' = trace w ++ evs /\
    ~ In (CallGetAnnotation i) evs /\
    forall j, In (CallGetAnnotation j) evs ->
              fst (is_deleted j (JStr "_all") w) = Ok false.
Proof.
  intros Hrun Hinfo Hd Hanno Hid Hgone.
  split; [ | split ].
  - destruct (get_target_list_starts_with_targets _ _ _ _ _ _ _ Hrun Hinfo)
      as [added ->].
    apply in_or_app. left. exact Hd.
  - intros closure rest deeper_targets w0 Hdocs.
    apply (expand_targets_at_tombstone _ _ _ i); [ exact Hanno | exact Hid | | ].
    + destruct (py_eqb i (self_id annotation)) eqn:Heq; [ | reflexivity ].
      pose proof (get_target_list_self_target_fails
                    fuel annotation w w1 target_list d i
                    Hinfo Hd Hanno Hid Heq) as Hfails.
      rewrite Hrun in Hfails. discriminate Hfails.
    + rewrite is_deleted_run in *. rewrite Hdocs. exact Hgone.
  - pose proof (get_target_list_closure_run fuel annotation w)
      as (_ & evs & Htrace & Hevs).
    rewrite Hrun in Htrace. cbn [snd] in Htrace.
    assert (Hlive : forall j, In (CallGetAnnotation j) evs ->
                              fst (is_deleted j (JStr "_all") w) = Ok false).
    { intros j Hj. rewrite is_deleted_run. cbn [fst].
      rewrite List.Forall_forall in Hevs. apply (Hevs _ Hj). }
    exists evs. repeat split; [ exact Htrace | | exact Hlive ].
    intros Hi. apply Hlive in Hi. congruence.
Qed.

(** ** Creating and updating a self-targeting annotation *)

(** The descriptors depend on the "target" key of [data] only. *)
Lemma get_targets_info_same_target d d' :
  dict_get "target" d' = dict_get "target" d ->
  fst (get_targets_info (JObj d')) = fst (get_targets_info (JObj d)).
Proof.
  intros Htarget. unfold get_targets_info, get_targets. cbn [py_in py_getitem].
  rewrite !dict_has_get, Htarget.
  destruct (dict_get "target" d) as [target | ]; cbn.
  - destruct (targets_info_loop (as_list target)). reflexivity.
  - reflexivity.
Qed.

Lemma self_get_targets_info_run self w d :
  pt w (self_data self) d ->
  self_get_targets_info self w =
  (fst (get_targets_info (JObj d)),
   with_heap (<[self_data self := snd (get_targets_info (JObj d))]> (heap w)) w).
Proof.
  intros H. unfold self_get_targets_info.
  rewrite run_bind, (deref_run _ _ _ H).
  destruct (get_targets_info (JObj d)) as [r data']. reflexivity.
Qed.

(** Only a string equals a string. *)
Lemma py_eqb_str a s : py_eqb a (JStr s) = true -> a = JStr s.
Proof.
  destruct a; cbn; try discriminate.
  intros H. apply String.eqb_eq in H. congruence.
Qed.

Lemma py_eqb_str_refl s : py_eqb (JStr s) (JStr s) = true.
Proof. cbn. apply String.eqb_refl. Qed.

(** *** Reads, and what an allocation leaves in place *)

#[local] Instance unchanged_preorder : PreOrder unchanged.
Proof. split; [ intros w; reflexivity | intros w1 w2 w3 H1 H2; congruence ]. Qed.

#[local] Instance heap_kept_at_preorder l : PreOrder (heap_kept_at l).
Proof. split; [ intros w x H; exact H | intros w1 w2 w3 H1 H2 x H; auto ]. Qed.

Lemma deref_unchanged l : preserves unchanged (deref l).
Proof. intros w. reflexivity. Qed.
Lemma es_exists_unchanged ty i : preserves unchanged (es_exists ty i).
Proof. intros w. reflexivity. Qed.
Lemma es_get_unchanged ty i : preserves unchanged (es_get ty i).
Proof. intros w. unfold es_get. destruct (List.find _ _); reflexivity. Qed.
Lemma is_deleted_unchanged i ty : preserves unchanged (is_deleted i ty).
Proof. intros w. rewrite is_deleted_run. reflexivity. Qed.
#[local] Hint Resolve deref_unchanged es_exists_unchanged es_get_unchanged
  is_deleted_unchanged : frame.

Lemma obj_in_unchanged k l : preserves unchanged (obj_in k l).
Proof. unfold obj_in. frame. Qed.
Lemma obj_getitem_unchanged l k : preserves unchanged (obj_getitem l k).
Proof. unfold obj_getitem. frame. Qed.
Lemma should_exist_unchanged i ty : preserves unchanged (should_exist i ty).
Proof. unfold should_exist. frame. Qed.
Lemma should_not_exist_unchanged i ty : preserves unchanged (should_not_exist i ty).
Proof. unfold should_not_exist. frame. Qed.
#[local] Hint Resolve obj_in_unchanged obj_getitem_unchanged
  should_exist_unchanged should_not_exist_unchanged : frame.

Lemma alloc_heap_kept_at l v : preserves (heap_kept_at l) (alloc v).
Proof. intros w x H. cbn. apply lookup_app_l_Some, H. Qed.

Lemma assign_heap_kept_at l l' v :
  l <> l' -> preserves (heap_kept_at l) (assign l' v).
Proof.
  intros Hne w x H. cbn. rewrite list_lookup_insert_ne by congruence. exact H.
Qed.

Lemma new_urn_heap_kept_at l : preserves (heap_kept_at l) new_urn.
Proof. intros w x H. exact H. Qed.
Lemma now_heap_kept_at l : preserves (heap_kept_at l) now.
Proof. intros w x H. exact H. Qed.
Lemma deref_heap_kept_at l l' : preserves (heap_kept_at l) (deref l').
Proof. intros w x H. exact H. Qed.
#[local] Hint Resolve alloc_heap_kept_at assign_heap_kept_at
  new_urn_heap_kept_at now_heap_kept_at deref_heap_kept_at : frame.

Lemma obj_in_heap_kept_at l k l' : preserves (heap_kept_at l) (obj_in k l').
Proof. unfold obj_in. frame. Qed.
Lemma obj_getitem_heap_kept_at l k l' :
  preserves (heap_kept_at l) (obj_getitem l' k).
Proof. unfold obj_getitem. frame. Qed.
Lemma obj_setitem_heap_kept_at l k v l' :
  l <> l' -> preserves (heap_kept_at l) (obj_setitem l' k v).
Proof. intros Hne. unfold obj_setitem. frame. Qed.
Lemma obj_delitem_heap_kept_at l k l' :
  l <> l' -> preserves (heap_kept_at l) (obj_delitem l' k).
Proof. intros Hne. unfold obj_delitem. frame. Qed.
#[local] Hint Resolve obj_in_heap_kept_at obj_getitem_heap_kept_at
  obj_setitem_heap_kept_at obj_delitem_heap_kept_at : frame.

(** A bind whose second part relies on what the first part returned. *)
Lemma preserves_bind_result {A B} R `{!PreOrder R} (Q : A -> Prop)
    (m : M A) (f : A -> M B) :
  preserves R m ->
  (forall w a, fst (m w) = Ok a -> Q a) ->
  (forall a, Q a -> preserves R (f a)) ->
  preserves R (m ≫= f).
Proof.
  intros Hm HQ Hf w. rewrite run_bind.
  specialize (Hm w). specialize (HQ w).
  destruct (m w) as [[a | e] w1]; cbn in *; [ | exact Hm ].
  etransitivity; [ exact Hm | apply Hf, HQ; reflexivity ].
Qed.

Lemma set_permissions_data self w self' :
  fst (set_permissions self w) = Ok self' -> self_data self' = self_data self.
Proof.
  unfold set_permissions. rewrite run_bind.
  destruct (obj_in "permissions" (self_data self) w) as [[[ | ] | e] w1];
    cbn; try discriminate.
  - rewrite run_bind.
    destruct (obj_getitem (self_data self) "permissions" w1) as [[p | e] w2];
      cbn; try discriminate.
    rewrite run_bind.
    destruct (obj_delitem (self_data self) "permissions" w2) as [[u | e] w3];
      cbn; try discriminate.
    intros [= <-]. reflexivity.
  - intros [= <-]. reflexivity.
Qed.

Lemma set_permissions_heap_kept_at l self :
  l <> self_data self -> preserves (heap_kept_at l) (set_permissions self).
Proof. intros Hne. unfold set_permissions. frame. Qed.
Lemma set_target_list_heap_kept_at l self :
  l <> self_data self -> preserves (heap_kept_at l) (set_target_list self).
Proof. intros Hne. unfold set_target_list. frame. Qed.
#[local] Hint Resolve set_permissions_heap_kept_at
  set_target_list_heap_kept_at : frame.

Lemma Annotation_init_heap_kept_at l l' :
  l <> l' -> preserves (heap_kept_at l) (Annotation_init l').
Proof.
  intros Hne. unfold Annotation_init.
  do 9 (apply preserves_bind; [ typeclasses eauto | frame | intros ? ]).
  apply (preserves_bind_result _ (fun self => self_data self = l')).
  - apply set_permissions_heap_kept_at. exact Hne.
  - intros w self H. apply set_permissions_data in H. exact H.
  - intros self <-. apply set_target_list_heap_kept_at. exact Hne.
Qed.

(** [get_from_index] returns a new object and leaves the others. *)
Lemma get_from_index_new i ty w l2 w2 :
  get_from_index i ty w = (Ok l2, w2) ->
  l2 = length (heap w) /\ forall l, heap_kept_at l w w2.
Proof.
  unfold get_from_index. intros Hrun.
  apply bind_Ok in Hrun as (ok & w1 & Hexist & Hrun).
  pose proof (should_exist_unchanged i ty w) as Hw1.
  rewrite Hexist in Hw1. cbn in Hw1. red in Hw1. subst w1.
  apply bind_Ok in Hrun as (source & w1 & Hget & Hrun).
  pose proof (es_get_unchanged ty i w) as Hw1.
  rewrite Hget in Hw1. cbn in Hw1. red in Hw1. subst w1.
  unfold alloc in Hrun. injection Hrun as <- <-.
  split; [ reflexivity | ]. intros l. apply (alloc_heap_kept_at l source w).
Qed.

(** Running a read: the world is the one it started in. *)
Lemma run_unchanged {A} (m : M A) w :
  preserves unchanged m -> m w = (fst (m w), w).
Proof.
  intros Hm. specialize (Hm w). red in Hm.
  destruct (m w) as [r w1]. cbn in *. congruence.
Qed.

(** The dictionary the constructor leaves has the payload's "id" and
    "target". *)
Lemma stripped_defaults_get n d k :
  dict_has k d = true ->
  k <> "permissions" -> k <> "target_list" ->
  dict_get k (dict_del "target_list" (dict_del "permissions" (with_defaults n d)))
  = dict_get k d.
Proof.
  intros Hk Hp Ht. rewrite !dict_get_del, with_defaults_get.
  rewrite dict_has_get in Hk.
  destruct (String.eqb_spec k "target_list"); [ congruence | ].
  destruct (String.eqb_spec k "permissions"); [ congruence | ].
  destruct (String.eqb_spec k "id") as [-> | ];
    [ destruct (dict_get "id" d); [ reflexivity | discriminate ] | ].
  destruct (String.eqb_spec k "created") as [-> | ];
    [ destruct (dict_get "created" d); [ reflexivity | discriminate ] | ].
  reflexivity.
Qed.

Lemma get_targets_info_Ok_has_target d target_list target :
  fst (get_targets_info (JObj d)) = Ok target_list ->
  In target target_list ->
  dict_has "target" d = true.
Proof.
  unfold get_targets_info, get_targets. cbn [py_in].
  destruct (dict_has "target" d); [ reflexivity | ].
  cbn. intros [= <-] [].
Qed.

Section SelfTargeting.

(** A payload [d] at [l] with a string id [s], one of whose resolved
    direct descriptors is of type Annotation and carries that id. *)
Variables (l : loc) (d : dict) (s : string).
Variables (target_list : list json) (target : json).
Hypothesis Hid : dict_get "id" d = Some (JStr s).
Hypothesis Hinfo : fst (get_targets_info (JObj d)) = Ok target_list.
Hypothesis Hin : In target target_list.
Hypothesis Hanno : is_annotation target = Ok true.
Hypothesis Htid : py_getitem target "id" = Ok (JStr s).

Lemma closure_of_self_target_fails fuel annotation w d' :
  pt w l d' ->
  dict_get "target" d' = dict_get "target" d ->
  self_data annotation = l ->
  self_id annotation = JStr s ->
  is_Ok (fst (get_target_list fuel annotation w)) = false.
Proof.
  intros Hpt Htarget Hdata Hself.
  eapply get_target_list_self_target_fails; [ | exact Hin | exact Hanno | exact Htid | ].
  - rewrite self_get_targets_info_run with (d := d') by (rewrite Hdata; exact Hpt).
    rewrite (get_targets_info_same_target _ _ Htarget), Hinfo. reflexivity.
  - rewrite Hself. apply py_eqb_str_refl.
Qed.

Lemma add_annotation_es_self_target_fails fuel w :
  pt w l d ->
  is_Ok (fst (add_annotation_es fuel l w)) = false.
Proof.
  intros Hpt. unfold add_annotation_es.
  rewrite run_bind, (Annotation_init_run _ _ _ Hpt). cbv zeta.
  destruct (validate (JObj (with_defaults (ticks w) d)) None); [ | reflexivity ].
  set (d4 := dict_del "target_list"
               (dict_del "permissions" (with_defaults (ticks w) d))).
  set (w2 := set_obj l d4 _).
  assert (Hpt2 : pt w2 l d4).
  { subst w2. eapply pt_set_obj, pt_set_obj, pt_after_draws, Hpt. }
  assert (Hhas_id : dict_has "id" d = true)
    by (rewrite dict_has_get, Hid; reflexivity).
  assert (Hid4 : dict_get "id" d4 = Some (JStr s)).
  { subst d4. rewrite stripped_defaults_get; [ exact Hid | exact Hhas_id | | ];
      discriminate. }
  assert (Htarget4 : dict_get "target" d4 = dict_get "target" d).
  { subst d4. apply stripped_defaults_get; [ | discriminate | discriminate ].
    eapply get_targets_info_Ok_has_target; eassumption. }
  rewrite run_bind, (obj_in_run _ _ _ _ Hpt2), run_bind.
  set (check := if dict_has "id" d4 then _ else _).
  assert (Hcheck : preserves unchanged check)
    by (subst check; destruct (dict_has "id" d4); frame).
  rewrite (run_unchanged check w2 Hcheck).
  destruct (fst (check w2)) as [ok | e]; [ | reflexivity ].
  rewrite run_bind.
  match goal with
  | |- context [ get_target_list fuel ?a w2 ] =>
      pose proof (closure_of_self_target_fails fuel a w2 d4 Hpt2 Htarget4
                    eq_refl) as Hfails
  end.
  assert (Hself : default JNull (dict_get "id" (with_defaults (ticks w) d))
                  = JStr s)
    by (rewrite with_defaults_get; cbn; rewrite Hid; reflexivity).
  specialize (Hfails Hself).
  match goal with
  | |- context [ get_target_list fuel ?a w2 ] =>
      destruct (get_target_list fuel a w2) as [[r | e] w3]
  end; [ discriminate | reflexivity ].
Qed.

Lemma update_annotation_es_self_target_fails fuel w :
  pt w l d ->
  is_Ok (fst (update_annotation_es fuel l w)) = false.
Proof.
  intros Hpt. destruct fuel as [ | fuel ]; [ reflexivity | ].
  cbn [update_annotation_es].
  rewrite run_bind, (obj_getitem_run _ _ _ _ Hpt). cbn [py_getitem].
  rewrite Hid, run_bind.
  destruct (get_from_index (JStr s) (JStr "Annotation") w)
    as [[l2 | e] w2] eqn:Hget; [ | reflexivity ].
  apply get_from_index_new in Hget as (Hl2 & Hkept).
  assert (Hne : l <> l2).
  { rewrite Hl2. apply Nat.lt_neq. eapply lookup_lt_Some, Hpt. }
  assert (Hpt2 : pt w2 l d) by (apply Hkept, Hpt).
  rewrite run_bind, (run_unchanged (obj_getitem l2 "target_list") w2)
    by frame.
  destruct (fst (obj_getitem l2 "target_list" w2)) as [old | e];
    [ | reflexivity ].
  rewrite run_bind.
  pose proof (Annotation_init_heap_kept_at l l2 Hne w2) as Hkept3.
  destruct (Annotation_init l2 w2) as [[annotation | e] w3]; [ | reflexivity ].
  assert (Hpt3 : pt w3 l d) by (apply Hkept3, Hpt2).
  rewrite run_bind, (update_run _ _ _ _ Hpt3), Hid.
  destruct (validate (JObj d) None); [ | reflexivity ].
  destruct (py_eqb (self_id annotation) (JStr s)) eqn:Heq; [ | reflexivity ].
  apply py_eqb_str in Heq.
  rewrite run_bind.
  match goal with
  | |- context [ get_target_list fuel ?a ?w5 ] =>
      pose proof (closure_of_self_target_fails fuel a w5
                    (dict_set "modified" (JStr (now_isoformat (ticks w3))) d))
        as Hfails;
      destruct (get_target_list fuel a w5) as [[r | e] w6]
  end; [ | reflexivity ].
  cbn in Hfails. discriminate Hfails.
  - eapply pt_set_obj, Hpt3.
  - rewrite dict_get_set. reflexivity.
  - reflexivity.
  - exact Heq.
Qed.

End SelfTargeting.

(** ** Chain propagation *)

Lemma closure_run_emits w w' : closure_run w w' -> emits not_chain_start w w'.
Proof.
  intros (_ & He). eapply emits_weaken; [ | exact He ].
  intros [ | j | j ]; cbn; auto.
Qed.

Lemma run_emits {A} P (m : M A) w r w' :
  preserves (emits P) m -> m w = (r, w') ->
  exists evs, trace w' = trace w ++ evs /\ Forall P evs.
Proof. intros Hm Hrun. specialize (Hm w). rewrite Hrun in Hm. exact Hm. Qed.

#[local] Hint Extern 5 (preserves (emits _) _) =>
  (eapply preserves_weaken; [ apply heap_only_emits | ]) : frame.

Lemma es_index_emits P ty i body : preserves (emits P) (es_index ty i body).
Proof. intros w. exists []. split; [ symmetry; apply app_nil_r | constructor ]. Qed.
Lemma put_needs_refresh_emits P b : preserves (emits P) (put_needs_refresh b).
Proof. intros w. exists []. split; [ symmetry; apply app_nil_r | constructor ]. Qed.
Lemma log_call_emits (P : event -> Prop) ev : P ev -> preserves (emits P) (log_call ev).
Proof. intros HP w. exists [ev]. split; [ reflexivity | repeat constructor; exact HP ]. Qed.
Lemma es_indices_refresh_emits (P : event -> Prop) :
  P EsIndicesRefresh -> preserves (emits P) es_indices_refresh.
Proof. intros HP w. exists [EsIndicesRefresh]. split; [ reflexivity | repeat constructor; exact HP ]. Qed.
#[local] Hint Resolve es_index_emits put_needs_refresh_emits log_call_emits
  es_indices_refresh_emits : frame.

Lemma update_in_index_emits P annotation ty :
  preserves (emits P) (update_in_index annotation ty).
Proof. unfold update_in_index. frame. Qed.
Lemma set_index_needs_refresh_emits P : preserves (emits P) set_index_needs_refresh.
Proof. unfold set_index_needs_refresh. frame. Qed.
Lemma get_target_list_emits fuel annotation :
  preserves (emits not_chain_start) (get_target_list fuel annotation).
Proof.
  eapply preserves_weaken; [ apply closure_run_emits | ].
  apply get_target_list_closure_run.
Qed.
Lemma get_target_list_grows fuel annotation :
  preserves (emits any_event) (get_target_list fuel annotation).
Proof.
  eapply preserves_weaken; [ | apply get_target_list_emits ].
  intros w w'. apply emits_weaken. intros ev _. exact I.
Qed.
#[local] Hint Resolve update_in_index_emits set_index_needs_refresh_emits
  get_target_list_emits get_target_list_grows : frame.

Lemma chain_loop_grows update closure annotation_id chain_annotations :
  (forall l, preserves (emits any_event) (update l)) ->
  (forall a, preserves (emits any_event) (closure a)) ->
  preserves (emits any_event)
    (chain_loop update closure annotation_id chain_annotations).
Proof.
  intros Hupdate Hclosure.
  induction chain_annotations as [ | chain_annotation rest IH ];
    cbn [chain_loop]; frame.
Qed.

Lemma any_event_holds ev : any_event ev.
Proof. exact I. Qed.
#[local] Hint Resolve any_event_holds chain_loop_grows : frame.

(** Whatever [update_annotation_es] and [update_chained_annotations] do,
    the trace only grows. *)
Lemma update_grows fuel :
  (forall l, preserves (emits any_event) (update_annotation_es fuel l)) /\
  (forall i, preserves (emits any_event) (update_chained_annotations fuel i)).
Proof.
  induction fuel as [ | fuel [IHu IHc] ]; split; intros x;
    cbn [update_annotation_es update_chained_annotations]; frame.
Qed.

Lemma update_chained_annotations_starts fuel i w u w' :
  update_chained_annotations fuel i w = (Ok u, w') ->
  exists evs, trace w' = trace w ++ CallUpdateChained i :: evs.
Proof.
  destruct fuel as [ | fuel ]; cbn [update_chained_annotations];
    [ discriminate | ].
  intros Hrun. apply bind_Ok in Hrun as (u1 & w1 & Hlog & Hrun).
  unfold log_call in Hlog. injection Hlog as _ <-.
  pose proof (update_grows fuel) as [Hu Hc].
  apply (run_emits any_event) in Hrun as (evs & Htrace & _); [ | frame ].
  exists evs. rewrite Htrace. cbn. rewrite <- app_assoc. reflexivity.
Qed.

Lemma target_list_changed_Ok list1 list2 changed :
  target_list_changed list1 list2 = Ok changed ->
  exists ids1 ids2, id_set list1 = Ok ids1 /\ id_set list2 = Ok ids2.
Proof.
  unfold target_list_changed.
  destruct (id_set list1) as [ids1 | ]; [ | discriminate ].
  destruct (id_set list2) as [ids2 | ]; [ | discriminate ].
  eauto.
Qed.

(** Turns a step of a run into what it did to the trace. *)
Lemma step_emits {A} P (m : M A) w r w' :
  m w = (r, w') -> preserves (emits P) m -> emits P w w'.
Proof. intros Hrun Hm. specialize (Hm w). rewrite Hrun in Hm. exact Hm. Qed.

Lemma step_unchanged {A} (m : M A) w r w' :
  m w = (r, w') -> preserves unchanged m -> w' = w.
Proof. intros Hrun Hm. specialize (Hm w). rewrite Hrun in Hm. exact Hm. Qed.

(** The stored document that [get_from_index] copies. *)
Lemma get_from_index_source i ty w l2 w2 :
  get_from_index i ty w = (Ok l2, w2) ->
  exists source,
    fst (es_get ty i w) = Ok source /\ heap w2 !! l2 = Some source.
Proof.
  unfold get_from_index. intros Hrun.
  apply bind_Ok in Hrun as (ok & w1 & Hexist & Hrun).
  apply step_unchanged in Hexist as ->; [ | frame ].
  apply bind_Ok in Hrun as (source & w1 & Hget & Hrun).
  pose proof Hget as Hw1. apply step_unchanged in Hw1 as ->; [ | frame ].
  unfold alloc in Hrun. injection Hrun as <- <-.
  exists source. rewrite Hget. split; [ reflexivity | ].
  cbn. rewrite lookup_app_r by reflexivity. rewrite Nat.sub_diag. reflexivity.
Qed.

Lemma not_chain_start_not_in evs j :
  Forall not_chain_start evs -> ~ In (CallUpdateChained j) evs.
Proof.
  intros Hall Hin. rewrite List.Forall_forall in Hall.
  apply (Hall _ Hin).
Qed.

Lemma update_Ok_data self l w self' w' :
  update self l w = (Ok self', w') -> self_data self' = l.
Proof.
  unfold update. intros Hrun.
  apply bind_Ok in Hrun as (document & w1 & _ & Hrun).
  apply bind_Ok in Hrun as (ok & w2 & _ & Hrun).
  apply bind_Ok in Hrun as (i & w3 & _ & Hrun).
  destruct (py_eqb (self_id self) i); [ | discriminate ].
  apply bind_Ok in Hrun as (stamp & w4 & _ & Hrun).
  apply bind_Ok in Hrun as (u & w5 & _ & Hrun).
  injection Hrun as <- _. reflexivity.
Qed.

(** One more step of a run that returned: the value it bound, the world
    it reached, and the fact that it started no chain update. *)
Ltac run_step Hrun x w' H T :=
  apply bind_Ok in Hrun as (x & w' & H & Hrun);
  pose proof (step_emits not_chain_start _ _ _ _ H ltac:(frame)) as T.

(** C6: on update, chain propagation starts if and only if the set of ids
    of the new closure differs from the set of ids of the closure that was
    stored.  When [update_annotation_es] returns on the payload at [l] in
    the world [w], its run went through the following steps, each in the
    world the one before it ended in: the payload's id [i] was read; the
    document stored under [i] was fetched into a new dictionary [stored],
    whose "target_list" is [old], the one of the document in the index;
    an entity was built on [stored] and updated with the payload, which
    gave [annotation]; the closure [new] was computed for [annotation].
    For these [old], [new] and [annotation], and for no others:
    [target_list_changed new old] is true exactly when the id sets of
    [new] and [old] are unequal; when they are unequal the first chain
    update that the run starts is the one on [annotation]'s id; and when
    they are equal the run starts no chain update at all. *)
Theorem update_propagates_iff_id_sets_differ fuel l w r w' :
  update_annotation_es fuel l w = (Ok r, w') ->
  exists i stored wa source old entity wb annotation w1 new w2
         ids_new ids_old evs,
    obj_getitem l "id" w = (Ok i, w) /\
    get_from_index i (JStr "Annotation") w = (Ok stored, wa) /\
    fst (es_get (JStr "Annotation") i w) = Ok source /\
    py_getitem source "target_list" = Ok old /\
    obj_getitem stored "target_list" wa = (Ok old, wa) /\
    Annotation_init stored wa = (Ok entity, wb) /\
    update entity l wb = (Ok annotation, w1) /\
    self_data annotation = l /\
    get_target_list (Nat.pred fuel) annotation w1 = (Ok new, w2) /\
    id_set (JList new) = Ok ids_new /\
    id_set old = Ok ids_old /\
    target_list_changed (JList new) old =
      Ok (bool_decide (ids_new <> ids_old)) /\
    trace w' = trace w ++ evs /\
    (ids_new <> ids_old ->
     In (CallUpdateChained (self_id annotation)) evs /\
     exists before after,
       evs = before ++ CallUpdateChained (self_id annotation) :: after /\
       Forall not_chain_start before) /\
    (ids_new = ids_old -> forall j, ~ In (CallUpdateChained j) evs).
Proof.
  destruct fuel as [ | fuel ]; [ discriminate | ].
  cbn [update_annotation_es Nat.pred]. intros Hrun.
  run_step Hrun i w1 H1 T1.
  run_step Hrun l2 w2 H2 T2.
  run_step Hrun old w3 H3 T3.
  run_step Hrun annotation0 w4 H4 T4.
  run_step Hrun annotation w5 H5 T5.
  run_step Hrun new w6 H6 T6.
  run_step Hrun u7 w7 H7 T7.
  run_step Hrun data w8 H8 T8.
  run_step Hrun ty w9 H9 T9.
  run_step Hrun u10 w10 H10 T10.
  run_step Hrun changed w11 H11 T11.
  apply bind_Ok in Hrun as (u12 & w12 & H12 & Hrun).
  run_step Hrun u13 w13 H13 T13.
  run_step Hrun u14 w14 H14 T14.
  injection Hrun as _ <-.
  (* the stored document and its target list *)
  pose proof H1 as E1. apply step_unchanged in E1 as ->; [ | frame ].
  pose proof H3 as E3. apply step_unchanged in E3 as ->; [ | frame ].
  destruct (get_from_index_source _ _ _ _ _ H2) as (source & Hsource & Hl2).
  pose proof H3 as Hold.
  unfold obj_getitem in Hold. rewrite run_bind in Hold. unfold deref in Hold.
  rewrite Hl2 in Hold. cbn [default] in Hold. unfold lift in Hold.
  injection Hold as Hold.
  pose proof (update_Ok_data _ _ _ _ _ H5) as Hdata.
  (* the decision *)
  unfold lift in H11. injection H11 as Hchanged <-.
  destruct (target_list_changed_Ok _ _ _ Hchanged)
    as (ids_new & ids_old & Hnew & Hids_old).
  pose proof (target_list_changed_decides _ _ _ _ Hnew Hids_old) as Hdec.
  rewrite Hchanged in Hdec. injection Hdec as ->.
  (* the trace before and after the decision *)
  assert (Tpre : emits not_chain_start w w10).
  { etransitivity; [ exact T2 | ]. etransitivity; [ exact T3 | ].
    etransitivity; [ exact T4 | ]. etransitivity; [ exact T5 | ].
    etransitivity; [ exact T6 | ]. etransitivity; [ exact T7 | ].
    etransitivity; [ exact T8 | ]. etransitivity; [ exact T9 | ].
    exact T10. }
  assert (Tpost : emits not_chain_start w12 w14)
    by (etransitivity; eassumption).
  destruct Tpre as (pre & Hpre & Hpre_ok).
  destruct Tpost as (post & Hpost & Hpost_ok).
  destruct (decide (ids_new = ids_old)) as [Heq | Hne].
  - rewrite bool_decide_eq_false_2 in H12 by (intros Hne; apply Hne, Heq).
    injection H12 as _ <-.
    exists i, l2, w2, source, old, annotation0, w4, annotation, w5, new, w6,
      ids_new, ids_old, (pre ++ post).
    do 12 (split; [ first [ reflexivity | assumption ] | ]).
    split; [ | split ].
    + rewrite Hpost, Hpre, app_assoc. reflexivity.
    + intros Hne. destruct (Hne Heq).
    + intros _ j. apply not_chain_start_not_in, Forall_app. auto.
  - rewrite bool_decide_eq_true_2 in H12 by exact Hne.
    apply update_chained_annotations_starts in H12 as (mid & Hmid).
    exists i, l2, w2, source, old, annotation0, w4, annotation, w5, new, w6,
      ids_new, ids_old,
      (pre ++ CallUpdateChained (self_id annotation) :: mid ++ post).
    do 12 (split; [ first [ reflexivity | assumption ] | ]).
    split; [ | split ].
    + rewrite Hpost, Hmid, Hpre, <- !app_assoc. reflexivity.
    + intros _. split.
      * apply in_or_app. right. left. reflexivity.
      * exists pre, (mid ++ post). split; [ reflexivity | exact Hpre_ok ].
    + intros Heq. destruct (Hne Heq).
Qed.

(** C2 (amended): what makes closure computation fail is a direct
    descriptor of type Annotation that carries the annotation's own id.
    For a payload with a string id, one of whose resolved direct
    descriptors is of type Annotation and has that id: closure
    computation never returns, for any entity on that payload with that
    id; it raises "Annotation cannot target itself" unless expanding the
    descriptors before that one raises first; and neither
    [add_annotation_es] nor [update_annotation_es] returns on that
    payload. *)
Theorem self_targeting_annotation_is_rejected
    fuel l w d s target_list target :
  pt w l d ->
  dict_get "id" d = Some (JStr s) ->
  fst (get_targets_info (JObj d)) = Ok target_list ->
  In target target_list ->
  is_annotation target = Ok true ->
  py_getitem target "id" = Ok (JStr s) ->
  (forall annotation,
     self_data annotation = l ->
     self_id annotation = JStr s ->
     is_Ok (fst (get_target_list fuel annotation w)) = false /\
     forall pre post,
       target_list = pre ++ target :: post ->
       get_target_list (S fuel) annotation w =
       match
         expand_targets (get_target_list fuel) annotation pre []
           (snd (self_get_targets_info annotation w))
       with
       | (Ok _, w2) => (Raise self_targeting, w2)
       | (Raise e, w2) => (Raise e, w2)
       end) /\
  is_Ok (fst (add_annotation_es fuel l w)) = false /\
  is_Ok (fst (update_annotation_es fuel l w)) = false.
Proof.
  intros Hpt Hid Hinfo Hin Hanno Htid.
  split; [ | split ].
  - intros annotation Hdata Hself. split.
    + eapply closure_of_self_target_fails; eauto.
    + intros pre post ->.
      apply (get_target_list_at_self fuel annotation w _ pre target (JStr s) post);
        [ | exact Hanno | exact Htid | rewrite Hself; apply py_eqb_str_refl ].
      rewrite self_get_targets_info_run with (d := d)
        by (rewrite Hdata; exact Hpt).
      rewrite Hinfo. reflexivity.
  - eapply add_annotation_es_self_target_fails; eauto.
  - eapply update_annotation_es_self_target_fails; eauto.
Qed.

(** ** The flag after a removal *)

#[local] Instance flag_kept_preorder : PreOrder flag_kept.
Proof.
  split; [ intros w; reflexivity | ].
  intros w1 w2 w3 H1 H2. unfold flag_kept in *. congruence.
Qed.

Lemma heap_only_flag_kept w w' : heap_only w w' -> flag_kept w w'.
Proof. intros (_ & Hf & _). exact Hf. Qed.

#[local] Hint Extern 5 (preserves flag_kept _) =>
  (eapply preserves_weaken; [ apply heap_only_flag_kept | ]) : frame.

Lemma es_index_flag_kept ty i body : preserves flag_kept (es_index ty i body).
Proof. intros w. reflexivity. Qed.
Lemma es_delete_flag_kept ty i : preserves flag_kept (es_delete ty i).
Proof.
  intros w. unfold es_delete.
  destruct (existsb (doc_matches ty i) (es_docs w)); reflexivity.
Qed.
#[local] Hint Resolve es_index_flag_kept es_delete_flag_kept : frame.

Lemma check_index_is_fresh_clears w :
  needs_refresh (snd (check_index_is_fresh w)) = false.
Proof.
  unfold check_index_is_fresh, index_needs_refresh. rewrite run_bind.
  destruct (needs_refresh w) eqn:Hflag; [ reflexivity | exact Hflag ].
Qed.

(** A computation that starts with [check_index_is_fresh] and then keeps
    the flag ends with the flag unset. *)
Lemma fresh_then_kept {A} (m : M A) w :
  preserves flag_kept m ->
  needs_refresh (snd ((check_index_is_fresh;; m) w)) = false.
Proof.
  intros Hm. rewrite run_bind.
  pose proof (check_index_is_fresh_clears w) as Hclear.
  destruct (check_index_is_fresh w) as [[u | e] w1]; cbn [snd] in *;
    [ | exact Hclear ].
  rewrite (Hm w1). exact Hclear.
Qed.

(** Whatever the store and the arguments, and whether they return or
    raise, the two removals end with the flag unset. *)
Lemma removals_never_set_the_flag w annotation_id collection_id :
  needs_refresh
    (snd (remove_annotation_from_collection_es annotation_id collection_id w))
    = false /\
  needs_refresh (snd (remove_collection_es collection_id w)) = false.
Proof using Type.
  split.
  - unfold remove_annotation_from_collection_es. apply fresh_then_kept.
    unfold update_in_index. frame.
  - unfold remove_collection_es. apply fresh_then_kept.
    unfold remove_from_index, add_to_index. frame.
Qed.

(** ** Validation of targets *)

(** A target object without "id" and "source" leaves [target_id] at
    [None], and [parse_iri] raises a [TypeError] that the [try] does not
    catch. *)
Lemma validate_target_without_identifier d :
  dict_has "id" d = false ->
  dict_has "source" d = false ->
  validate_target (JObj d) = Raise TypeError.
Proof.
  intros Hid Hsource. unfold validate_target, target_identifier.
  cbn [is_str is_dict py_in]. rewrite Hid. cbn. rewrite Hsource. reflexivity.
Qed.

(** A string target that is not an IRI is refused with an
    [AnnotationError]. *)
Lemma validate_target_not_an_iri s :
  is_iri s = false ->
  validate_target (JStr s) =
  Raise (AnnotationError400 "annotation target id MUST be an IRI").
Proof. intros H. unfold validate_target. cbn. rewrite H. reflexivity. Qed.

(** C7, at the failing input: the Annotation document whose target is
    the object [{"type": "Text"}] makes [validate] raise [TypeError], not
    an [AnnotationError]. *)
Theorem validate_raises_TypeError_on_target_without_identifier :
  validate
    (JObj [("@context", JStr anno_context); ("type", JStr "Annotation");
           ("target", JObj [("type", JStr "Text")])])
    None
  = Raise TypeError.
Proof. reflexivity. Qed.

(** ** The merge of deeper targets *)

(** A descriptor is a dictionary and an id is a string, so that the
    membership test of the second loop never finds the one among the
    others: every deeper target is appended. *)
Lemma merge_targets_appends_all deeper_targets :
  forall target_list target_ids,
    Forall (fun i => is_str i = true) target_ids ->
    Forall (fun t => exists d s, t = JObj d /\ dict_get "id" d = Some (JStr s))
           deeper_targets ->
    merge_targets deeper_targets target_list target_ids =
    Ok (target_list ++ deeper_targets).
Proof.
  induction deeper_targets as [ | target rest IH ];
    intros target_list target_ids Hids Hdeeper; cbn [merge_targets].
  - rewrite app_nil_r. reflexivity.
  - inversion Hdeeper as [ | ? ? (d & s & -> & Hid) Hrest ]; subst.
    assert (Hnotin : existsb (py_eqb (JObj d)) target_ids = false).
    { clear -Hids. induction Hids as [ | i ids Hi _ IHids ]; [ reflexivity | ].
      cbn [existsb]. rewrite IHids. destruct i; try discriminate. reflexivity. }
    rewrite Hnotin. cbn [negb py_getitem]. rewrite Hid. cbn.
    rewrite IH; [ | | exact Hrest ].
    + rewrite <- app_assoc. reflexivity.
    + apply Forall_app. split; [ exact Hids | ]. repeat constructor.
Qed.

(** * Further properties *)

(** ** The validator: what it accepts and how it fails *)

Lemma validate_generic_raises annotation e :
  validate_generic annotation = Raise e -> exists m, e = AnnotationError m 400.
Proof.
  unfold validate_generic, AnnotationError400.
  destruct annotation as [ | | | | | d ]; cbn [is_dict negb];
    try (intros [= <-]; eauto).
  cbn [py_in mbind res_bind py_getitem]. rewrite !dict_has_get.
  destruct (dict_get "@context" d) as [c | ]; cbn [negb mbind res_bind py_getitem];
    [ | intros [= <-]; eauto ].
  destruct (py_eqb c (JStr anno_context)); cbn [negb mbind res_bind py_getitem];
    [ | intros [= <-]; eauto ].
  destruct (dict_get "type" d); cbn [negb]; [ discriminate | intros [= <-]; eauto ].
Qed.

Lemma validate_generic_Ok annotation :
  validate_generic annotation = Ok tt <->
  exists d c,
    annotation = JObj d /\ dict_get "@context" d = Some c /\
    py_eqb c (JStr anno_context) = true /\ dict_has "type" d = true.
Proof.
  unfold validate_generic. split.
  - destruct annotation as [ | | | | | d ]; cbn [is_dict negb]; try discriminate.
    cbn [py_in mbind res_bind py_getitem]. rewrite !dict_has_get.
    destruct (dict_get "@context" d) as [c | ] eqn:Hctx;
      cbn [negb mbind res_bind]; [ | discriminate ].
    destruct (py_eqb c (JStr anno_context)) eqn:Hc; cbn [negb mbind res_bind]; [ | discriminate ].
    destruct (dict_get "type" d) eqn:Ht; cbn [negb]; [ | discriminate ].
    intros _. exists d, c. rewrite dict_has_get, Ht. repeat split; assumption.
  - intros (d & c & -> & Hctx & Hc & Ht). cbn [is_dict negb].
    cbn [py_in mbind res_bind py_getitem]. rewrite !dict_has_get, Hctx.
    cbn [negb mbind res_bind]. rewrite Hc. cbn [negb mbind res_bind]. rewrite dict_has_get in Ht.
    destruct (dict_get "type" d); [ reflexivity | discriminate ].
Qed.

Lemma has_valid_type_raises d e :
  dict_has "type" d = true ->
  has_valid_type (JObj d) = Raise e -> exists m, e = AnnotationError m 400.
Proof.
  unfold has_valid_type, AnnotationError400. cbn [py_getitem].
  rewrite dict_has_get. destruct (dict_get "type" d) as [ty | ]; [ | discriminate ].
  intros _. cbn [mbind res_bind].
  destruct (List.filter _ (as_list ty)) as [ | t [ | t' types ] ];
    [ | discriminate | ]; intros [= <-]; eauto.
Qed.

(** The type that [has_valid_type] returns is one of the three, and one
    of the document's types. *)
Lemma has_valid_type_Ok d t :
  has_valid_type (JObj d) = Ok t ->
  exists ty,
    dict_get "type" d = Some ty /\
    List.filter (fun x => existsb (py_eqb x) accepted_types) (as_list ty) = [t] /\
    In t (as_list ty) /\ In t accepted_types.
Proof.
  unfold has_valid_type. cbn [py_getitem].
  destruct (dict_get "type" d) as [ty | ]; [ | discriminate ].
  cbn [mbind res_bind].
  destruct (List.filter _ (as_list ty)) as [ | t0 [ | t' types ] ] eqn:Hf;
    try discriminate.
  intros [= ->]. exists ty. split; [ reflexivity | ]. split; [ exact Hf | ].
  assert (Hin : In t [t]) by (left; reflexivity).
  rewrite <- Hf in Hin. apply filter_In in Hin as [Hin Hacc].
  split; [ exact Hin | ].
  cbn [existsb accepted_types] in Hacc.
  repeat (apply orb_true_iff in Hacc as [Hacc | Hacc]);
    try discriminate; apply py_eqb_str in Hacc; subst; cbn; auto.
Qed.

(** What one round of the target loop does. *)
Lemma validate_target_Ok target :
  validate_target target = Ok tt <->
  exists s, target_identifier target = Ok (JStr s) /\ is_iri s = true.
Proof.
  unfold validate_target. split.
  - destruct (target_identifier target) as [v | e]; [ | discriminate ].
    cbn [mbind res_bind].
    destruct v as [ | | | s | | ]; cbn [parse_iri]; try discriminate.
    destruct (is_iri s) eqn:Hs; [ eauto | discriminate ].
  - intros (s & -> & Hs). cbn [mbind res_bind parse_iri]. rewrite Hs.
    reflexivity.
Qed.

Lemma validate_target_raises target e :
  validate_target target = Raise e ->
  (exists m, e = AnnotationError m 400) \/
  (e = TypeError /\
   exists v, target_identifier target = Ok v /\ is_str v = false).
Proof.
  unfold validate_target.
  destruct (target_identifier target) as [v | e0] eqn:Hid.
  - cbn [mbind res_bind].
    destruct v as [ | | | s | | ]; cbn [parse_iri];
      try (intros [= <-]; right; split; [ reflexivity | ];
           eexists; split; [ reflexivity | reflexivity ]).
    destruct (is_iri s); [ discriminate | ].
    intros [= <-]. left. unfold AnnotationError400. eauto.
  - cbn [mbind res_bind]. intros [= <-]. left.
    unfold target_identifier in Hid.
    destruct target as [ | | | s | | d ]; cbn [is_str is_dict] in Hid;
      try (injection Hid as <-; unfold AnnotationError400; eauto);
      try discriminate.
    cbn [py_in mbind res_bind py_getitem] in Hid. rewrite !dict_has_get in Hid.
    destruct (dict_get "id" d); [ discriminate | ].
    destruct (dict_get "source" d); discriminate.
Qed.

Lemma validate_targets_Ok targets :
  validate_targets targets = Ok tt <->
  Forall (fun target =>
            exists s, target_identifier target = Ok (JStr s) /\ is_iri s = true)
         targets.
Proof.
  induction targets as [ | target rest IH ]; cbn [validate_targets].
  - split; [ constructor | reflexivity ].
  - rewrite Forall_cons, <- IH, <- validate_target_Ok.
    destruct (validate_target target) as [[] | e]; cbn [mbind res_bind].
    + split; [ intros H; split; [ reflexivity | exact H ] | intros [_ H]; exact H ].
    + split; [ discriminate | intros [? _]; discriminate ].
Qed.

Lemma validate_targets_raises targets e :
  validate_targets targets = Raise e ->
  (exists m, e = AnnotationError m 400) \/
  (e = TypeError /\
   exists target v,
     In target targets /\ target_identifier target = Ok v /\ is_str v = false).
Proof.
  induction targets as [ | target rest IH ]; cbn [validate_targets];
    [ discriminate | ].
  destruct (validate_target target) as [[] | e0] eqn:Ht; cbn [mbind res_bind].
  - intros H. destruct (IH H) as [Hl | (-> & t & v & Hin & Hv)]; [ auto | ].
    right. split; [ reflexivity | ]. exists t, v. split; [ right | ]; auto.
  - intros [= <-].
    destruct (validate_target_raises _ _ Ht) as [Hl | (-> & v & Hv)]; [ auto | ].
    right. split; [ reflexivity | ]. exists target, v. split; [ left | ]; auto.
Qed.

Lemma validate_annotation_raises d e :
  validate_annotation (JObj d) = Raise e ->
  dict_has "type" d = true ->
  (exists m, e = AnnotationError m 400) \/
  (e = TypeError /\
   exists t target v,
     dict_get "target" d = Some t /\ In target (as_list t) /\
     target_identifier target = Ok v /\ is_str v = false).
Proof.
  unfold validate_annotation, AnnotationError400. cbn [py_getitem py_in].
  rewrite !dict_has_get.
  destruct (dict_get "type" d) as [ty | ]; [ | discriminate ].
  cbn [mbind res_bind].
  destruct (existsb _ (as_list ty)); cbn [negb];
    [ | intros [= <-]; eauto ].
  destruct (dict_get "target" d) as [t | ]; cbn [negb mbind res_bind];
    [ | intros [= <-]; eauto ].
  intros H _. apply validate_targets_raises in H as [Hl | (-> & target & v & H)];
    [ auto | ].
  right. split; [ reflexivity | ]. exists t, target, v.
  split; [ reflexivity | exact H ].
Qed.

Lemma validate_annotation_page_raises d e :
  validate_annotation_page (JObj d) = Raise e ->
  dict_has "type" d = true ->
  exists m, e = AnnotationError m 400.
Proof.
  unfold validate_annotation_page, AnnotationError400. cbn [py_getitem py_in].
  rewrite !dict_has_get.
  destruct (dict_get "type" d) as [ty | ]; [ | discriminate ].
  cbn [mbind res_bind].
  destruct (existsb _ (as_list ty)); cbn [negb];
    [ | intros [= <-]; eauto ].
  destruct (dict_get "items" d) as [items | ]; cbn [negb mbind res_bind];
    [ | intros [= <-]; eauto ].
  destruct items as [ | | | | [ | item items ] | ];
    try discriminate; intros [= <-]; eauto.
Qed.

Lemma validate_annotation_collection_raises d e :
  validate_annotation_collection (JObj d) = Raise e ->
  dict_has "type" d = true ->
  exists m, e = AnnotationError m 400.
Proof.
  unfold validate_annotation_collection, AnnotationError400.
  cbn [py_getitem py_in]. rewrite !dict_has_get.
  destruct (dict_get "type" d) as [ty | ]; [ | discriminate ].
  cbn [mbind res_bind].
  destruct (existsb _ (as_list ty)); cbn [negb];
    [ | intros [= <-]; eauto ].
  destruct (dict_get "label" d) as [label | ]; cbn [negb mbind res_bind];
    [ | intros [= <-]; eauto ].
  destruct (is_str label); cbn [negb]; [ | intros [= <-]; eauto ].
  destruct (dict_get "total" d); [ | discriminate ].
  destruct (dict_get "first" d); cbn [negb]; [ | intros [= <-]; eauto ].
  destruct (dict_get "last" d); cbn [negb]; [ discriminate | intros [= <-]; eauto ].
Qed.

(** X1: [validate] either returns [True] or raises; what it raises is an
    [AnnotationError] with status 400, or else the [TypeError] that
    [parse_iri] raises on an identifier that is not a string: in that case
    the document has a target whose identifier (its "id", else its
    "source", else [None]) is not a string.  No [KeyError] and no
    [ValueError] leaves the validator. *)
Theorem validate_raises_AnnotationError_or_TypeError
    annotation annotation_type e :
  validate annotation annotation_type = Raise e ->
  (exists m, e = AnnotationError m 400) \/
  (e = TypeError /\
   exists d t target v,
     annotation = JObj d /\ dict_get "target" d = Some t /\
     In target (as_list t) /\
     target_identifier target = Ok v /\ is_str v = false).
Proof.
  unfold validate.
  destruct (validate_generic annotation) as [[] | e0] eqn:Hg;
    cbn [mbind res_bind].
  2: { intros [= <-]. left. eapply validate_generic_raises, Hg. }
  apply validate_generic_Ok in Hg as (d & c & -> & _ & _ & Hty).
  destruct (validate_type (JObj d) annotation_type) as [[] | e0] eqn:Hv;
    cbn [mbind res_bind]; [ discriminate | ].
  intros [= <-]. revert Hv. unfold validate_type.
  destruct (has_valid_type (JObj d)) as [anno_type | e1] eqn:Hvalid;
    cbn [mbind res_bind].
  2: { intros [= <-]. left. eapply has_valid_type_raises; eauto. }
  cbn [py_getitem]. rewrite dict_has_get in Hty.
  destruct (dict_get "type" d) as [ty | ] eqn:Hd; [ | discriminate ].
  cbn [mbind res_bind].
  destruct (existsb _ (as_list ty)); cbn [negb]; [ | intros [= <-]; eauto ].
  assert (Hty' : dict_has "type" d = true) by (rewrite dict_has_get, Hd; reflexivity).
  destruct (if py_eqb (default anno_type annotation_type) (JStr "Annotation")
            then validate_annotation (JObj d) else Ok tt) as [[] | e1] eqn:H1;
    cbn [mbind res_bind].
  2: { intros [= <-].
       destruct (py_eqb (default anno_type annotation_type) (JStr "Annotation"));
         [ | discriminate ].
       destruct (validate_annotation_raises _ _ H1 Hty')
         as [Hl | (-> & t & target & v & H)]; [ auto | ].
       right. split; [ reflexivity | ]. exists d, t, target, v.
       split; [ reflexivity | exact H ]. }
  destruct (if py_eqb (default anno_type annotation_type) (JStr "AnnotationPage")
            then validate_annotation_page (JObj d) else Ok tt)
    as [[] | e1] eqn:H2; cbn [mbind res_bind].
  2: { intros [= <-].
       destruct (py_eqb (default anno_type annotation_type)
                        (JStr "AnnotationPage")); [ | discriminate ].
       left. eapply validate_annotation_page_raises; eauto. }
  destruct (py_eqb (default anno_type annotation_type)
                   (JStr "AnnotationCollection")); [ | discriminate ].
  intros H3. left. eapply validate_annotation_collection_raises; eauto.
Qed.

Lemma validate_annotation_Ok d ty :
  dict_get "type" d = Some ty ->
  existsb (py_eqb (JStr "Annotation")) (as_list ty) = true ->
  validate_annotation (JObj d) = Ok tt <->
  exists t,
    dict_get "target" d = Some t /\
    Forall (fun target =>
              exists s, target_identifier target = Ok (JStr s) /\ is_iri s = true)
           (as_list t).
Proof.
  intros Hd Hty. unfold validate_annotation. cbn [py_getitem py_in].
  rewrite Hd. cbn [mbind res_bind]. rewrite Hty. cbn [negb].
  rewrite dict_has_get.
  destruct (dict_get "target" d) as [t | ]; cbn [negb mbind res_bind].
  - rewrite validate_targets_Ok. split.
    + intros H. exists t. auto.
    + intros (t' & [= <-] & H). exact H.
  - split; [ discriminate | intros (t & Ht & _); discriminate ].
Qed.

(** X2: for a document whose one accepted type is "Annotation",
    [validate] returns [True] exactly when the "@context" is the Web
    Annotation context, there is a "target", and every target (the value
    itself, or each element when it is a list) has a string identifier
    that is an IRI: the target itself when it is a string, else its "id",
    else its "source". *)
Theorem validate_accepts_exactly_the_annotations_with_IRI_targets d :
  has_valid_type (JObj d) = Ok (JStr "Annotation") ->
  validate (JObj d) None = Ok true <->
  (exists c, dict_get "@context" d = Some c /\
             py_eqb c (JStr anno_context) = true) /\
  exists t,
    dict_get "target" d = Some t /\
    Forall (fun target =>
              exists s, target_identifier target = Ok (JStr s) /\ is_iri s = true)
           (as_list t).
Proof.
  intros Hvalid.
  destruct (has_valid_type_Ok _ _ Hvalid) as (ty & Hd & _ & Hin & _).
  assert (Hty : existsb (py_eqb (JStr "Annotation")) (as_list ty) = true).
  { apply existsb_exists. exists (JStr "Annotation").
    split; [ exact Hin | apply py_eqb_str_refl ]. }
  assert (Hhas : dict_has "type" d = true)
    by (rewrite dict_has_get, Hd; reflexivity).
  rewrite <- (validate_annotation_Ok _ _ Hd Hty).
  unfold validate, validate_type. rewrite Hvalid.
  cbn [mbind res_bind default py_getitem]. rewrite Hd.
  cbn [mbind res_bind]. rewrite Hty. cbn [negb].
  change (py_eqb (JStr "Annotation") (JStr "Annotation")) with true.
  change (py_eqb (JStr "Annotation") (JStr "AnnotationPage")) with false.
  change (py_eqb (JStr "Annotation") (JStr "AnnotationCollection")) with false.
  cbv iota.
  destruct (validate_generic (JObj d)) as [[] | e] eqn:Hg; cbn [mbind res_bind].
  - apply validate_generic_Ok in Hg as (d' & c & [= <-] & Hc & Hc' & _).
    destruct (validate_annotation (JObj d)) as [[] | e]; cbn [mbind res_bind].
    + split; [ | reflexivity ]. intros _. split; [ exists c | ]; auto.
    + split; [ discriminate | intros [_ ?]; discriminate ].
  - split; [ discriminate | ]. intros [(c & Hc & Hc') _].
    assert (Hok : validate_generic (JObj d) = Ok tt)
      by (apply validate_generic_Ok; exists d, c; auto).
    congruence.
Qed.


(** X3: for a document whose one accepted type is "AnnotationCollection",
    [validate] returns [True] exactly when the "@context" is the Web
    Annotation context, "label" is a string, and a document that has
    "total" also has "first" and "last".  A collection without "total"
    needs neither. *)
Theorem validate_accepts_exactly_the_well_formed_collections d :
  has_valid_type (JObj d) = Ok (JStr "AnnotationCollection") ->
  validate (JObj d) None = Ok true <->
  (exists c, dict_get "@context" d = Some c /\
             py_eqb c (JStr anno_context) = true) /\
  (exists s, dict_get "label" d = Some (JStr s)) /\
  (dict_has "total" d = true ->
   dict_has "first" d = true /\ dict_has "last" d = true).
Proof.
  intros Hvalid.
  destruct (has_valid_type_Ok _ _ Hvalid) as (ty & Hd & _ & Hin & _).
  assert (Hty : existsb (py_eqb (JStr "AnnotationCollection")) (as_list ty) = true).
  { apply existsb_exists. exists (JStr "AnnotationCollection").
    split; [ exact Hin | apply py_eqb_str_refl ]. }
  assert (Hhas : dict_has "type" d = true)
    by (rewrite dict_has_get, Hd; reflexivity).
  unfold validate, validate_type. rewrite Hvalid.
  cbn [mbind res_bind default py_getitem]. rewrite Hd.
  cbn [mbind res_bind]. rewrite Hty. cbn [negb].
  change (py_eqb (JStr "AnnotationCollection") (JStr "Annotation")) with false.
  change (py_eqb (JStr "AnnotationCollection") (JStr "AnnotationPage")) with false.
  change (py_eqb (JStr "AnnotationCollection") (JStr "AnnotationCollection"))
    with true.
  cbv iota. cbn [mbind res_bind].
  assert (Hcoll :
    validate_annotation_collection (JObj d) = Ok tt <->
    (exists s, dict_get "label" d = Some (JStr s)) /\
    (dict_has "total" d = true ->
     dict_has "first" d = true /\ dict_has "last" d = true)).
  { unfold validate_annotation_collection. cbn [py_getitem py_in].
    rewrite Hd. cbn [mbind res_bind]. rewrite Hty. cbn [negb].
    rewrite (dict_has_get "label").
    destruct (dict_get "label" d) as [label | ]; cbn [negb mbind res_bind].
    2: { split; [ discriminate | intros [(s & Hs) _]; discriminate ]. }
    destruct label as [ | | | s | | ]; cbn [is_str negb];
      try (split; [ discriminate | intros [(s & Hs) _]; discriminate ]).
    destruct (dict_has "total" d).
    - destruct (dict_has "first" d); cbn [negb].
      + destruct (dict_has "last" d); cbn [negb].
        * split; [ intros _; split; [ exists s | ]; auto | reflexivity ].
        * split; [ discriminate | ]. intros [_ H].
          destruct (H eq_refl); discriminate.
      + split; [ discriminate | ]. intros [_ H].
        destruct (H eq_refl); discriminate.
    - split; [ | reflexivity ]. intros _.
      split; [ exists s; reflexivity | discriminate ]. }
  rewrite <- Hcoll. clear Hcoll.
  destruct (validate_generic (JObj d)) as [[] | e] eqn:Hg; cbn [mbind res_bind].
  - apply validate_generic_Ok in Hg as (d' & c & [= <-] & Hc & Hc' & _).
    destruct (validate_annotation_collection (JObj d)) as [[] | e];
      cbn [mbind res_bind].
    + split; [ | reflexivity ]. intros _. split; [ exists c | ]; auto.
    + split; [ discriminate | intros [_ ?]; discriminate ].
  - split; [ discriminate | ]. intros [(c & Hc & Hc') _].
    assert (Hok : validate_generic (JObj d) = Ok tt)
      by (apply validate_generic_Ok; exists d, c; auto).
    congruence.
Qed.


(** ** [has_target] *)

(** X4: [has_target] on an entity whose first target is an object with a
    string "id" and no "selector" answers from that target alone, whatever
    the other targets are: [True] when the id equals [target_id] and has
    "id" as a substring (the chained comparison ['id' in target['id'] ==
    target_id]), [False] otherwise, also when the id equals
    [target_id]. *)
Theorem has_target_answers_from_the_first_object data d rest s t :
  get_targets data = Ok (JObj d :: rest) ->
  dict_get "id" d = Some (JStr s) ->
  dict_has "selector" d = false ->
  has_target data (JStr t) = Ok (is_substring "id" s && String.eqb s t).
Proof.
  intros Hget Hid Hsel. unfold has_target. rewrite Hget.
  cbn [mbind res_bind py_truthy negb has_target_loop py_eqb py_getitem].
  rewrite Hid.
  cbn [mbind res_bind py_in py_eqb]. rewrite Hsel.
  destruct (is_substring "id" s && String.eqb s t); reflexivity.
Qed.

(** X5: a target that is a bare string is compared with [target_id]; when
    they differ, [target['id']] indexes a string and [has_target] raises
    [TypeError] instead of going on to the next target. *)
Theorem has_target_raises_TypeError_on_another_string data rest s t :
  get_targets data = Ok (JStr s :: rest) ->
  has_target data (JStr t) =
  if String.eqb s t then Ok true else Raise TypeError.
Proof.
  intros Hget. unfold has_target. rewrite Hget.
  cbn [mbind res_bind py_truthy negb has_target_loop py_eqb py_getitem].
  destruct (String.eqb s t); reflexivity.
Qed.


(** ** The two resolvers side by side *)

Lemma get_subresource_ids_unfold d :
  get_subresource_ids (JObj d) =
  i ← py_getitem (JObj d) "id";
  match dict_get "subresource" d with
  | None => Ok [i]
  | Some v => more ← get_subresource_ids v; Ok (i :: more)
  end.
Proof.
  cbn [get_subresource_ids].
  destruct (py_getitem (JObj d) "id") as [i | e]; [ | reflexivity ].
  cbn [mbind res_bind]. clear.
  assert (H : (fix nested (fields : dict) : option (res (list json)) :=
                 match fields with
                 | [] => None
                 | (k, v) :: fields' =>
                     if String.eqb "subresource" k
                     then Some (get_subresource_ids v)
                     else nested fields'
                 end) d
              = get_subresource_ids <$> dict_get "subresource" d).
  { induction d as [ | [k v] d IH ]; [ reflexivity | ].
    cbn [dict_get]. destruct (String.eqb "subresource" k); [ reflexivity | exact IH ]. }
  rewrite H. destruct (dict_get "subresource" d); reflexivity.
Qed.

(** The ids of a subresource are the ids of its descriptors. *)
Lemma get_subresource_ids_of_info subresource :
  forall info,
    get_subresource_info subresource = Ok info ->
    get_subresource_ids subresource = ids_of info.
Proof.
  induction subresource as [ | b | n | s | l _ | d IH ] using json_nested_ind;
    try discriminate.
  intros info. rewrite get_subresource_info_unfold, get_subresource_ids_unfold.
  destruct (py_getitem (JObj d) "id") as [i | e]; [ | discriminate ].
  destruct (py_getitem (JObj d) "type") as [t | e]; [ | discriminate ].
  cbn [mbind res_bind].
  destruct (dict_get "subresource" d) as [v | ] eqn:Hv.
  - destruct (get_subresource_info v) as [more | e] eqn:Hmore; [ | discriminate ].
    cbn [mbind res_bind]. intros [= <-].
    pose proof
      (dict_get_Forall
         (fun j => forall info, get_subresource_info j = Ok info ->
                                get_subresource_ids j = ids_of info)
         _ _ _ IH Hv) as Hrec.
    cbn beta in Hrec. rewrite (Hrec _ Hmore). reflexivity.
  - intros [= <-]. reflexivity.
Qed.

Lemma ids_of_app l1 l2 :
  ids_of (l1 ++ l2) = ids1 ← ids_of l1; ids2 ← ids_of l2; Ok (ids1 ++ ids2).
Proof.
  induction l1 as [ | x l1 IH ]; cbn [ids_of app].
  - cbn [mbind res_bind]. destruct (ids_of l2); reflexivity.
  - destruct (py_getitem x "id") as [i | e]; [ | reflexivity ].
    cbn [mbind res_bind]. rewrite IH.
    destruct (ids_of l1) as [ids1 | e]; [ | reflexivity ].
    cbn [mbind res_bind]. destruct (ids_of l2); reflexivity.
Qed.

(** The descriptors the selector loop returns do not depend on what it
    tracks about the stored lists. *)
Lemma selector_loop_fst_step selector todo :
  forall i alias stored info,
    fst (selector_loop (selector :: todo) i alias stored info) =
    ty ← py_getitem selector "type";
    info1 ← (if py_eqb ty (JStr "SubresourceSelector") then
               value ← py_getitem selector "value";
               subresource ← py_getitem value "subresource";
               more ← get_subresource_info subresource;
               py_iadd_list info more
             else Ok info);
    info2 ← (if py_eqb ty (JStr "NestedPIDSelector")
             then py_getitem selector "value" else Ok info1);
    fst (selector_loop todo 0 None [] info2).
Proof.
  assert (Hindep : forall todo info i alias stored i' alias' stored',
             fst (selector_loop todo i alias stored info) =
             fst (selector_loop todo i' alias' stored' info)).
  { clear. induction todo as [ | selector todo IH ];
      intros info i alias stored i' alias' stored'; [ reflexivity | ].
    cbn [selector_loop].
    destruct (py_getitem selector "type") as [ty | e]; [ | reflexivity ].
    destruct (py_eqb ty (JStr "SubresourceSelector")).
    - destruct (py_getitem selector "value") as [value | e]; [ | reflexivity ].
      cbn [mbind res_bind].
      destruct (py_getitem value "subresource") as [sr | e]; [ | reflexivity ].
      cbn [mbind res_bind].
      destruct (get_subresource_info sr) as [more | e]; [ | reflexivity ].
      cbn [mbind res_bind].
      destruct (py_iadd_list info more) as [info' | e]; [ | reflexivity ].
      cbn [mbind res_bind].
      destruct (py_eqb ty (JStr "NestedPIDSelector")); apply IH.
    - destruct (py_eqb ty (JStr "NestedPIDSelector")); [ | apply IH ].
      destruct (py_getitem selector "value") as [value | e]; [ | reflexivity ].
      apply IH. }
  intros i alias stored info. cbn [selector_loop].
  destruct (py_getitem selector "type") as [ty | e]; [ | reflexivity ].
  cbn [mbind res_bind].
  destruct (py_eqb ty (JStr "SubresourceSelector")).
  - destruct (py_getitem selector "value") as [value | e]; [ | reflexivity ].
    cbn [mbind res_bind].
    destruct (py_getitem value "subresource") as [sr | e]; [ | reflexivity ].
    cbn [mbind res_bind].
    destruct (get_subresource_info sr) as [more | e]; [ | reflexivity ].
    cbn [mbind res_bind].
    destruct (py_iadd_list info more) as [info' | e]; [ | reflexivity ].
    cbn [mbind res_bind].
    destruct (py_eqb ty (JStr "NestedPIDSelector")); cbn [mbind res_bind];
      apply Hindep.
  - cbn [mbind res_bind].
    destruct (py_eqb ty (JStr "NestedPIDSelector")); [ | apply Hindep ].
    destruct (py_getitem selector "value") as [value | e]; [ | reflexivity ].
    cbn [mbind res_bind]. apply Hindep.
Qed.

(** The two selector loops, run on the same selectors: the ids collected
    so far always end with the ids of the descriptors collected so far,
    and what comes before grows at a [NestedPIDSelector] only. *)
Lemma selector_loops_agree base todo :
  forall info ids_acc r ids' pre own i alias stored,
    fst (selector_loop todo i alias stored info) = Ok r ->
    selector_ids_loop todo ids_acc = Ok ids' ->
    base ++ ids_acc = pre ++ own ->
    py_iter info ≫= ids_of = Ok own ->
    exists pre' own',
      base ++ ids' = pre' ++ own' /\
      py_iter r ≫= ids_of = Ok own' /\
      (pre' = pre \/
       exists selector,
         In selector todo /\
         py_getitem selector "type" = Ok (JStr "NestedPIDSelector")).
Proof.
  induction todo as [ | selector todo IH ];
    intros info ids_acc r ids' pre own i alias stored Hinfo Hids Hsplit Hown.
  - cbn in Hinfo, Hids. injection Hinfo as <-. injection Hids as <-.
    exists pre, own. auto.
  - rewrite selector_loop_fst_step in Hinfo. cbn [selector_ids_loop] in Hids.
    destruct (py_getitem selector "type") as [ty | e] eqn:Hty; [ | discriminate ].
    cbn [mbind res_bind] in Hinfo, Hids.
    destruct (py_eqb ty (JStr "SubresourceSelector")) eqn:Hsub.
    + apply py_eqb_str in Hsub. subst ty.
      change (py_eqb (JStr "SubresourceSelector") (JStr "NestedPIDSelector"))
        with false in Hinfo, Hids.
      destruct (py_getitem selector "value") as [value | e]; [ | discriminate ].
      cbn [mbind res_bind] in Hinfo, Hids.
      destruct (py_getitem value "subresource") as [sr | e]; [ | discriminate ].
      cbn [mbind res_bind] in Hinfo, Hids.
      destruct (get_subresource_info sr) as [more | e] eqn:Hmore;
        [ | discriminate ].
      rewrite (get_subresource_ids_of_info _ _ Hmore) in Hids.
      cbn [mbind res_bind] in Hinfo, Hids.
      destruct info as [ | | | | l | ]; try discriminate.
      cbn [py_iadd_list mbind res_bind] in Hinfo.
      destruct (ids_of more) as [more_ids | e] eqn:Hmore_ids; [ | discriminate ].
      cbn [mbind res_bind] in Hids. cbn [py_iter mbind res_bind] in Hown.
      destruct (IH (JList (l ++ more)) (ids_acc ++ more_ids) r ids' pre
                   (own ++ more_ids) 0%nat None [] Hinfo Hids)
        as (pre' & own' & H1 & H2 & H3).
      * rewrite !app_assoc, Hsplit. reflexivity.
      * cbn [py_iter mbind res_bind]. rewrite ids_of_app, Hown, Hmore_ids.
        reflexivity.
      * exists pre', own'. split; [ exact H1 | ]. split; [ exact H2 | ].
        destruct H3 as [H3 | (sel & Hin & Hsel)]; [ auto | ].
        right. exists sel. split; [ right | ]; assumption.
    + cbn [mbind res_bind] in Hinfo, Hids.
      destruct (py_eqb ty (JStr "NestedPIDSelector")) eqn:Hnested.
      * apply py_eqb_str in Hnested. subst ty.
        destruct (py_getitem selector "value") as [value | e]; [ | discriminate ].
        cbn [mbind res_bind] in Hinfo, Hids.
        destruct (py_iter value) as [resources | e] eqn:Hiter; [ | discriminate ].
        cbn [mbind res_bind] in Hids.
        destruct (ids_of resources) as [more | e] eqn:Hmore; [ | discriminate ].
        cbn [mbind res_bind] in Hids.
        destruct (IH value (ids_acc ++ more) r ids' (base ++ ids_acc) more
                     0%nat None [] Hinfo Hids)
          as (pre' & own' & H1 & H2 & _).
        -- rewrite app_assoc. reflexivity.
        -- rewrite Hiter. exact Hmore.
        -- exists pre', own'. split; [ exact H1 | ]. split; [ exact H2 | ].
           right. exists selector. split; [ left; reflexivity | exact Hty ].
      * cbn [mbind res_bind] in Hinfo, Hids.
        destruct (IH info ids_acc r ids' pre own 0%nat None [] Hinfo Hids
                     Hsplit Hown) as (pre' & own' & H1 & H2 & H3).
        exists pre', own'. split; [ exact H1 | ]. split; [ exact H2 | ].
        destruct H3 as [H3 | (sel & Hin & Hsel)]; [ auto | ].
        right. exists sel. split; [ right | ]; assumption.
Qed.

Lemma get_selector_info_fst selectors info :
  fst (get_selector_info selectors info) =
  if negb (py_truthy selectors) then Ok info
  else fst (selector_loop (as_list selectors) 0 None (as_list selectors) info).
Proof.
  unfold get_selector_info.
  destruct (negb (py_truthy selectors)); [ reflexivity | ].
  destruct selectors as [ | b | n | s | l | d ]; cbn [as_list];
    match goal with
    | |- context [selector_loop ?t 0 None ?t info] =>
        destruct (selector_loop t 0 None t info); reflexivity
    end.
Qed.

(** X6: when both resolvers return a list for the same target, the ids
    that [get_target_id] returns end with the ids of the descriptors that
    [get_target_info] returns, in the same order.  The two lists of ids
    are equal unless one of the target's selectors is a
    [NestedPIDSelector]: there [get_target_info] starts over from the
    selector's value while [get_target_id] keeps the ids it had. *)
Theorem get_target_id_ends_with_the_ids_of_get_target_info target info ids :
  fst (get_target_info target) = Ok (JList info) ->
  get_target_id target = Ok (JList ids) ->
  exists kept own,
    ids = kept ++ own /\
    ids_of info = Ok own /\
    (kept = [] \/
     exists selectors selector,
       py_getitem target "selector" = Ok selectors /\
       In selector (as_list selectors) /\
       py_getitem selector "type" = Ok (JStr "NestedPIDSelector")).
Proof.
  unfold get_target_info, get_target_id.
  destruct (is_str target) eqn:Hstr.
  { cbn [fst]. intros [= <-] [= <-]. exists [], [target].
    cbn. auto. }
  destruct (py_in (JStr "id") target) as [[ | ] | e]; cbn [fst mbind res_bind];
    [ | | discriminate ].
  { destruct (py_in (JStr "type") target) as [[ | ] | e];
      cbn [mbind res_bind negb]; try discriminate.
    destruct (py_getitem target "id") as [i | e]; cbn [mbind res_bind];
      [ | discriminate ].
    destruct (py_getitem target "type") as [t | e]; cbn [mbind res_bind];
      [ | discriminate ].
    intros [= <-] [= <-]. exists [], [i]. cbn. auto. }
  destruct (py_in (JStr "source") target) as [has_source | e];
    cbn [fst mbind res_bind]; [ | discriminate ].
  destruct (if has_source then py_in (JStr "selector") target else Ok false)
    as [[ | ] | e]; cbn [fst mbind res_bind]; try discriminate.
  destruct (py_in (JStr "type") target) as [[ | ] | e];
    cbn [mbind res_bind negb fst]; try discriminate.
  destruct (py_getitem target "source") as [source | e]; cbn [mbind res_bind fst];
    [ | discriminate ].
  destruct (py_getitem target "type") as [t | e]; cbn [mbind res_bind fst];
    [ | discriminate ].
  destruct (py_getitem target "selector") as [selector | e];
    cbn [mbind res_bind fst]; [ | discriminate ].
  pose proof (get_selector_info_fst selector (JList [descriptor source t]))
    as Hfst.
  destruct (get_selector_info selector (JList [descriptor source t]))
    as [r selector'].
  cbn [fst] in Hfst |- *. intros ->. unfold get_selector_ids.
  destruct (negb (py_truthy selector)).
  { injection Hfst as ->. cbn [mbind res_bind]. intros [= <-].
    exists [], [source]. cbn. auto. }
  destruct (selector_ids_loop (as_list selector) []) as [more | e] eqn:Hmore;
    cbn [mbind res_bind]; [ | discriminate ].
  intros [= <-].
  destruct (selector_loops_agree [source] (as_list selector)
              (JList [descriptor source t]) [] (JList info) more [] [source]
              0%nat None (as_list selector))
    as (kept & own & Hsplit & Hown & Hkept); auto.
  exists kept, own. split; [ exact Hsplit | ]. split; [ exact Hown | ].
  destruct Hkept as [-> | (sel & Hin & Hsel)]; [ auto | ].
  right. exists selector, sel. auto.
Qed.


(** ** What resolving does to the target *)

Lemma dict_set_same k v d : dict_get k d = Some v -> dict_set k v d = d.
Proof.
  induction d as [ | [k' v'] d IH ]; cbn [dict_get dict_set]; [ discriminate | ].
  destruct (String.eqb_spec k k') as [-> | Hne].
  - intros [= ->]. reflexivity.
  - intros H. rewrite (IH H). reflexivity.
Qed.

(** [get_target_info] on a target with "source", "type" and "selector"
    and without "id". *)
Lemma get_target_info_source d source t selector :
  dict_has "id" d = false ->
  dict_get "source" d = Some source ->
  dict_get "type" d = Some t ->
  dict_get "selector" d = Some selector ->
  get_target_info (JObj d) =
  (fst (get_selector_info selector (JList [descriptor source t])),
   JObj (dict_set "selector"
           (snd (get_selector_info selector (JList [descriptor source t]))) d)).
Proof.
  intros Hid Hsource Ht Hsel. unfold get_target_info.
  cbn [is_str py_in py_getitem]. rewrite Hid, !dict_has_get, Hsource, Hsel, Ht.
  cbn [mbind res_bind negb set_selector].
  destruct (get_selector_info selector (JList [descriptor source t])).
  reflexivity.
Qed.

(** X7: resolving a target can change it, and then a second resolution
    gives another result.  For a target with a [NestedPIDSelector]
    followed by a [SubresourceSelector]: [get_target_info] returns the
    selector's value followed by the descriptors of the subresource
    levels; it leaves that longer list as the "value" of the
    [NestedPIDSelector] stored in the target ([info] is the stored list
    itself when [info += ...] runs); and resolving the target again
    returns the levels twice. *)
Theorem get_target_info_extends_the_stored_value
    d source t nested sub v value subresource levels :
  dict_has "id" d = false ->
  dict_get "source" d = Some source ->
  dict_get "type" d = Some t ->
  dict_get "selector" d = Some (JList [nested; sub]) ->
  py_getitem nested "type" = Ok (JStr "NestedPIDSelector") ->
  py_getitem nested "value" = Ok (JList v) ->
  py_getitem sub "type" = Ok (JStr "SubresourceSelector") ->
  py_getitem sub "value" = Ok value ->
  py_getitem value "subresource" = Ok subresource ->
  get_subresource_info subresource = Ok levels ->
  fst (get_target_info (JObj d)) = Ok (JList (v ++ levels)) /\
  py_getitem (snd (get_target_info (JObj d))) "selector" =
    Ok (JList [set_value (JList (v ++ levels)) nested; sub]) /\
  fst (get_target_info (snd (get_target_info (JObj d)))) =
    Ok (JList ((v ++ levels) ++ levels)).
Proof.
  intros Hid Hsource Ht Hsel Hnty Hnvalue Hsty Hsvalue Hsub Hlevels.
  rewrite get_subresource_info_levels in Hlevels.
  assert (Hrun : forall nested0 v0,
            py_getitem nested0 "type" = Ok (JStr "NestedPIDSelector") ->
            py_getitem nested0 "value" = Ok (JList v0) ->
            get_selector_info (JList [nested0; sub]) (JList [descriptor source t])
            = (Ok (JList (v0 ++ levels)),
               JList [set_value (JList (v0 ++ levels)) nested0; sub])).
  { intros nested0 v0 H1 H2. unfold get_selector_info. cbn [py_truthy negb].
    rewrite (selector_loop_nested_pid _ _ _ _ _ _ _ H1 H2).
    rewrite (selector_loop_subresource _ _ _ _ _ _ _ _ _ Hsty Hsvalue Hsub Hlevels).
    reflexivity. }
  rewrite (get_target_info_source _ _ _ _ Hid Hsource Ht Hsel).
  rewrite (Hrun _ _ Hnty Hnvalue). cbn [fst snd].
  split; [ reflexivity | ].
  split; [ cbn [py_getitem]; rewrite dict_get_set; reflexivity | ].
  destruct nested as [ | | | | | dn ]; try discriminate.
  cbn [py_getitem] in Hnty, Hnvalue.
  rewrite (get_target_info_source _ source t
             (JList [set_value (JList (v ++ levels)) (JObj dn); sub])).
  - rewrite (Hrun _ (v ++ levels)); [ reflexivity | | ].
    + cbn [set_value py_getitem]. rewrite dict_get_set.
      change (String.eqb "type" "value") with false. cbv iota. exact Hnty.
    + cbn [set_value py_getitem]. rewrite dict_get_set. reflexivity.
  - rewrite dict_has_set. exact Hid.
  - rewrite dict_get_set. exact Hsource.
  - rewrite dict_get_set. exact Ht.
  - rewrite dict_get_set. reflexivity.
Qed.

Lemma selector_loop_without_alias todo :
  forall i stored info,
    existsb is_nested_pid todo = false ->
    snd (selector_loop todo i None stored info) = stored.
Proof.
  induction todo as [ | selector todo IH ]; intros i stored info Hnone;
    [ reflexivity | ].
  cbn [existsb] in Hnone. apply orb_false_iff in Hnone as [Hsel Htodo].
  unfold is_nested_pid in Hsel. cbn [selector_loop].
  destruct (py_getitem selector "type") as [ty | e]; [ | reflexivity ].
  rewrite Hsel.
  destruct (py_eqb ty (JStr "SubresourceSelector")); [ | apply IH, Htodo ].
  destruct (py_getitem selector "value") as [value | e]; [ | reflexivity ].
  cbn [mbind res_bind].
  destruct (py_getitem value "subresource") as [sr | e]; [ | reflexivity ].
  cbn [mbind res_bind].
  destruct (get_subresource_info sr) as [more | e]; [ | reflexivity ].
  cbn [mbind res_bind].
  destruct (py_iadd_list info more) as [info' | e]; [ | reflexivity ].
  cbn [mbind res_bind]. apply IH, Htodo.
Qed.

Lemma get_selector_info_without_alias selectors info :
  existsb is_nested_pid (as_list selectors) = false ->
  snd (get_selector_info selectors info) = selectors.
Proof.
  intros Hnone. unfold get_selector_info.
  destruct (negb (py_truthy selectors)); [ reflexivity | ].
  destruct selectors as [ | b | n | s | l | d ]; cbn [as_list] in Hnone;
    match goal with
    | |- context [selector_loop ?t 0 None ?t info] =>
        pose proof (selector_loop_without_alias t 0%nat t info Hnone) as Hsnd;
        destruct (selector_loop t 0 None t info) as [r l'];
        cbn [snd] in Hsnd |- *; rewrite Hsnd; reflexivity
    end.
Qed.

Lemma get_target_info_without_alias target :
  existsb is_nested_pid (selectors_of target) = false ->
  snd (get_target_info target) = target.
Proof.
  intros Hnone. unfold get_target_info.
  destruct (is_str target); [ reflexivity | ].
  destruct (py_in (JStr "id") target) as [[ | ] | e]; try reflexivity.
  destruct (py_in (JStr "source") target) as [has_source | e];
    cbn [mbind res_bind]; [ | reflexivity ].
  destruct (if has_source then py_in (JStr "selector") target else Ok false)
    as [[ | ] | e]; try reflexivity.
  destruct (py_in (JStr "type") target) as [[ | ] | e];
    cbn [mbind res_bind negb]; try reflexivity.
  destruct (py_getitem target "source") as [source | e]; cbn [mbind res_bind];
    [ | reflexivity ].
  destruct (py_getitem target "type") as [t | e]; cbn [mbind res_bind];
    [ | reflexivity ].
  unfold selectors_of in Hnone.
  destruct (py_getitem target "selector") as [selector | e] eqn:Hsel;
    cbn [mbind res_bind]; [ | reflexivity ].
  pose proof (get_selector_info_without_alias selector
                (JList [descriptor source t]) Hnone) as Hsnd.
  destruct (get_selector_info selector (JList [descriptor source t]))
    as [r selector'].
  cbn [snd] in Hsnd |- *. subst selector'.
  destruct target as [ | | | | | d ]; try reflexivity.
  cbn [set_selector]. cbn [py_getitem] in Hsel.
  destruct (dict_get "selector" d) as [s | ] eqn:Hd; [ | discriminate ].
  injection Hsel as ->. rewrite (dict_set_same _ _ _ Hd). reflexivity.
Qed.

Lemma targets_info_loop_without_alias targets :
  forallb (fun target => negb (existsb is_nested_pid (selectors_of target)))
          targets = true ->
  snd (targets_info_loop targets) = targets.
Proof.
  induction targets as [ | target rest IH ]; [ reflexivity | ].
  cbn [forallb]. intros H. apply andb_true_iff in H as [Htarget Hrest].
  apply negb_true_iff in Htarget.
  cbn [targets_info_loop].
  pose proof (get_target_info_without_alias target Htarget) as Hsnd.
  destruct (get_target_info target) as [r target']. cbn [snd] in Hsnd. subst target'.
  destruct (r ≫= py_iter) as [info | e]; [ | reflexivity ].
  specialize (IH Hrest).
  destruct (targets_info_loop rest) as [r' rest']. cbn [snd] in IH |- *.
  rewrite IH. reflexivity.
Qed.

(** X8: [get_targets_info] leaves [data] as it was when none of the
    selectors of its targets is a [NestedPIDSelector], whether it returns
    or raises. *)
Theorem get_targets_info_leaves_data_without_NestedPIDSelector data targets :
  get_targets data = Ok targets ->
  forallb (fun target => negb (existsb is_nested_pid (selectors_of target)))
          targets = true ->
  snd (get_targets_info data) = data.
Proof.
  intros Hget Hnone. unfold get_targets_info. rewrite Hget.
  pose proof (targets_info_loop_without_alias targets Hnone) as Hsnd.
  destruct (targets_info_loop targets) as [r targets']. cbn [snd] in Hsnd |- *.
  subst targets'. revert Hget. unfold get_targets, put_targets.
  destruct data as [ | | | | | d ]; try reflexivity.
  cbn [py_in py_getitem mbind res_bind]. rewrite dict_has_get.
  destruct (dict_get "target" d) as [target | ] eqn:Hd; cbn [negb mbind res_bind].
  - intros [= <-].
    destruct target as [ | b | n | s | l | dt ]; cbn [as_list List.hd];
      rewrite (dict_set_same _ _ _ Hd); reflexivity.
  - reflexivity.
Qed.


(** ** The entity: [to_json] and [update] *)

(** Decides the comparisons of two literal keys in the goal. *)
Ltac eqb_lit :=
  repeat match goal with
         | |- context [String.eqb ?a ?b] =>
             let r := eval vm_compute in (String.eqb a b) in
             match r with
             | true => change (String.eqb a b) with true
             | false => change (String.eqb a b) with false
             end
         end;
  cbv iota.

(** [to_json] on an entity whose [data] is the dictionary [d], in one
    equation. *)
Lemma to_json_run self w d :
  pt w (self_data self) d ->
  to_json self w =
  (Ok (length (heap w)),
   set_obj (length (heap w))
     (dict_set "target_list" (self_target_list self)
        (dict_set "permissions" (self_permissions self) d))
     (snd (alloc (JObj d) w))).
Proof.
  intros H. unfold to_json, copy_copy.
  pose proof (alloc_pt w d) as Hnew. unfold alloc in Hnew |- *. cbn [snd] in Hnew |- *.
  rewrite run_bind, run_bind, (deref_run _ _ _ H). cbv beta iota.
  rewrite run_bind. erewrite obj_setitem_run by exact Hnew.
  rewrite run_bind. erewrite obj_setitem_run by (eapply pt_set_obj, Hnew).
  rewrite set_obj_twice. reflexivity.
Qed.

(** X9: the constructor followed by [to_json] gives the caller's
    dictionary back, in a new object.  For an entity built from the
    dictionary [d]: [to_json] returns; the result is not the entity's
    [data]; every key of [d] has the value it had in [d]; "permissions"
    and "target_list" are always there, with [None] when [d] had none;
    and the entity's [data] still has neither. *)
Theorem to_json_restores_what_the_constructor_took l w d a w1 :
  pt w l d ->
  Annotation_init l w = (Ok a, w1) ->
  exists l2 w2 d2 d1,
    to_json a w1 = (Ok l2, w2) /\
    l2 <> l /\
    pt w2 l2 d2 /\
    (forall k v, dict_get k d = Some v -> dict_get k d2 = Some v) /\
    dict_get "permissions" d2 = Some (default JNull (dict_get "permissions" d)) /\
    dict_get "target_list" d2 = Some (default JNull (dict_get "target_list" d)) /\
    pt w2 l d1 /\
    dict_has "permissions" d1 = false /\
    dict_has "target_list" d1 = false.
Proof.
  intros H Hinit.
  destruct (Annotation_init_Ok _ _ _ _ _ H Hinit) as (Ha & _ & Hpt).
  cbv zeta in Ha, Hpt.
  assert (Hdata : self_data a = l) by (rewrite Ha; reflexivity).
  assert (Hlt : (l < length (heap w1))%nat) by (eapply lookup_lt_Some, Hpt).
  rewrite <- Hdata in Hpt.
  do 4 eexists. split; [ apply (to_json_run _ _ _ Hpt) | ].
  split; [ lia | ].
  split; [ eapply pt_set_obj, alloc_pt | ].
  rewrite Ha. cbn [self_permissions self_target_list].
  split; [ | split; [ | split; [ | split ] ] ].
  - intros k v Hk. rewrite !dict_get_set.
    destruct (String.eqb_spec k "target_list") as [-> | Ht];
      [ rewrite with_defaults_get; eqb_lit; rewrite Hk; reflexivity | ].
    destruct (String.eqb_spec k "permissions") as [-> | Hp];
      [ rewrite with_defaults_get; eqb_lit; rewrite Hk; reflexivity | ].
    rewrite !dict_get_del, with_defaults_get.
    destruct (String.eqb_spec k "target_list"); [ congruence | ].
    destruct (String.eqb_spec k "permissions"); [ congruence | ].
    destruct (String.eqb_spec k "id") as [-> | ];
      [ rewrite Hk; reflexivity | ].
    destruct (String.eqb_spec k "created") as [-> | ];
      [ rewrite Hk; reflexivity | exact Hk ].
  - rewrite !dict_get_set. eqb_lit. rewrite with_defaults_get. eqb_lit.
    reflexivity.
  - rewrite !dict_get_set. eqb_lit. rewrite with_defaults_get. eqb_lit.
    reflexivity.
  - unfold pt, set_obj, alloc. cbn [snd heap with_heap].
    rewrite list_lookup_insert_ne by lia.
    rewrite lookup_app_l by exact Hlt.
    rewrite Hdata in Hpt. exact Hpt.
  - split; rewrite !dict_has_del; reflexivity.
Qed.

(** X10: an [update] that raises changes nothing: the payload is not
    stamped with "modified" and no draw is made.  What it raises is what
    [validate] raised on the payload, the [KeyError] of a payload without
    "id", or the [AnnotationError] for a payload whose "id" is not the
    entity's. *)
Theorem update_that_raises_changes_nothing self l w d e w' :
  pt w l d ->
  update self l w = (Raise e, w') ->
  w' = w /\
  (validate (JObj d) None = Raise e \/
   (e = KeyError "id" /\ dict_has "id" d = false) \/
   (e = AnnotationError400
          "ID of updated annotation does not match ID of existing annotation" /\
    exists i, dict_get "id" d = Some i /\ py_eqb (self_id self) i = false)).
Proof.
  intros H. rewrite (update_run _ _ _ _ H).
  destruct (validate (JObj d) None) as [ok | e0].
  - rewrite dict_has_get.
    destruct (dict_get "id" d) as [i | ].
    + destruct (py_eqb (self_id self) i) eqn:Hi; [ discriminate | ].
      intros [= <- <-]. split; [ reflexivity | ]. right. right. eauto.
    + intros [= <- <-]. split; [ reflexivity | ]. right. left. auto.
  - intros [= <- <-]. auto.
Qed.


(** ** The index as a list of documents *)

Lemma existsb_find {A} (f : A -> bool) l :
  existsb f l = match List.find f l with Some _ => true | None => false end.
Proof.
  induction l as [ | x l IH ]; [ reflexivity | ].
  cbn [existsb List.find]. destruct (f x); [ reflexivity | exact IH ].
Qed.

(** Only a string equals a string, from either side. *)
Lemma py_eqb_str_l s b : py_eqb (JStr s) b = true -> b = JStr s.
Proof.
  destruct b; cbn; try discriminate.
  intros H. apply String.eqb_eq in H. congruence.
Qed.

(** A document written under a type and an id is the one found under
    them. *)
Lemma find_put_doc_same ty i body docs :
  doc_matches ty i (EsDoc ty i body) = true ->
  List.find (doc_matches ty i) (put_doc (EsDoc ty i body) docs)
  = Some (EsDoc ty i body).
Proof.
  intros Hself. induction docs as [ | d docs IH ]; cbn [put_doc doc_type doc_id].
  - cbn [List.find]. rewrite Hself. reflexivity.
  - destruct (doc_matches ty i d) eqn:Hd; cbn [List.find].
    + rewrite Hself. reflexivity.
    + rewrite Hd. exact IH.
Qed.

(** Writing under one key leaves what is found under a key that no
    document shares with it. *)
Lemma find_put_doc_other ty i body ty' i' docs :
  (forall d, doc_matches ty i d = true -> doc_matches ty' i' d = false) ->
  doc_matches ty' i' (EsDoc ty i body) = false ->
  List.find (doc_matches ty' i') (put_doc (EsDoc ty i body) docs)
  = List.find (doc_matches ty' i') docs.
Proof.
  intros Hold Hnew.
  induction docs as [ | d docs IH ]; cbn [put_doc doc_type doc_id].
  - cbn [List.find]. rewrite Hnew. reflexivity.
  - destruct (doc_matches ty i d) eqn:Hd; cbn [List.find].
    + rewrite Hnew, (Hold _ Hd). reflexivity.
    + rewrite IH. reflexivity.
Qed.

(** A write under a key that is not in the index adds one document at
    the end. *)
Lemma put_doc_absent new docs :
  existsb (doc_matches (doc_type new) (doc_id new)) docs = false ->
  put_doc new docs = docs ++ [new].
Proof.
  induction docs as [ | d docs IH ]; cbn [put_doc existsb app]; [ reflexivity | ].
  intros H. apply orb_false_iff in H as [Hd Hdocs].
  rewrite Hd, (IH Hdocs). reflexivity.
Qed.

Lemma doc_matches_strings ty i body :
  doc_matches (JStr ty) (JStr i) (EsDoc (JStr ty) (JStr i) body) = true.
Proof.
  unfold doc_matches. cbn [doc_type doc_id].
  rewrite !py_eqb_str_refl, orb_true_r. reflexivity.
Qed.

(** ** Runs that returned *)

Lemma obj_setitem_Ok l k v w u w' :
  obj_setitem l k v w = (Ok u, w') ->
  exists d, pt w l d /\ w' = set_obj l (dict_set k v d) w.
Proof.
  unfold obj_setitem, pt. rewrite run_bind. unfold deref at 1.
  destruct (heap w !! l) as [[ | | | | | d ] | ]; cbn [default id];
    try discriminate.
  intros [= _ <-]. exists d. split; reflexivity.
Qed.

Lemma obj_delitem_Ok l k w u w' :
  obj_delitem l k w = (Ok u, w') ->
  exists d, pt w l d /\ dict_has k d = true /\ w' = set_obj l (dict_del k d) w.
Proof.
  unfold obj_delitem, pt. rewrite run_bind. unfold deref at 1.
  destruct (heap w !! l) as [[ | | | | | d ] | ]; cbn [default id];
    try discriminate.
  destruct (dict_has k d) eqn:Hk; [ | intros Hrun; discriminate Hrun ].
  intros [= _ <-]. exists d. repeat split. exact Hk.
Qed.

Lemma set_target_list_data self w self' :
  fst (set_target_list self w) = Ok self' -> self_data self' = self_data self.
Proof.
  unfold set_target_list. rewrite run_bind.
  destruct (obj_in "target_list" (self_data self) w) as [[[ | ] | e] w1];
    cbn; try discriminate.
  - rewrite run_bind.
    destruct (obj_getitem (self_data self) "target_list" w1) as [[p | e] w2];
      cbn; try discriminate.
    rewrite run_bind.
    destruct (obj_delitem (self_data self) "target_list" w2) as [[u | e] w3];
      cbn; try discriminate.
    intros [= <-]. reflexivity.
  - intros [= <-]. reflexivity.
Qed.

(** The entity the constructor returns refers to the dictionary it was
    given. *)
Lemma Annotation_init_data l w a w' :
  Annotation_init l w = (Ok a, w') -> self_data a = l.
Proof.
  unfold Annotation_init. intros Hrun.
  do 9 (apply bind_Ok in Hrun as (? & ? & _ & Hrun)).
  apply bind_Ok in Hrun as (self & w1 & Hperm & Hrun).
  apply (f_equal fst) in Hperm, Hrun. cbn [fst] in Hperm, Hrun.
  apply set_permissions_data in Hperm. apply set_target_list_data in Hrun.
  cbn [self_data] in Hperm. congruence.
Qed.

(** ** Operations that leave the index alone *)

#[local] Instance index_kept_preorder : PreOrder index_kept.
Proof.
  split; [ intros w; reflexivity | ].
  intros w1 w2 w3 H1 H2. unfold index_kept in *. congruence.
Qed.

Lemma heap_only_index_kept w w' : heap_only w w' -> index_kept w w'.
Proof. intros (Hd & _ & _). exact Hd. Qed.

Lemma closure_run_index_kept w w' : closure_run w w' -> index_kept w w'.
Proof. intros [Hd _]. exact Hd. Qed.

#[local] Hint Extern 5 (preserves index_kept _) =>
  (eapply preserves_weaken; [ apply heap_only_index_kept | ]) : frame.

Lemma get_target_list_index_kept fuel annotation :
  preserves index_kept (get_target_list fuel annotation).
Proof.
  eapply preserves_weaken;
    [ apply closure_run_index_kept | apply get_target_list_closure_run ].
Qed.

Lemma put_needs_refresh_index_kept b : preserves index_kept (put_needs_refresh b).
Proof. intros w. reflexivity. Qed.
Lemma es_indices_refresh_index_kept : preserves index_kept es_indices_refresh.
Proof. intros w. reflexivity. Qed.
Lemma log_call_index_kept ev : preserves index_kept (log_call ev).
Proof. intros w. reflexivity. Qed.
Lemma index_needs_refresh_index_kept : preserves index_kept index_needs_refresh.
Proof. intros w. reflexivity. Qed.
#[local] Hint Resolve get_target_list_index_kept put_needs_refresh_index_kept
  es_indices_refresh_index_kept log_call_index_kept
  index_needs_refresh_index_kept : frame.

Lemma check_index_is_fresh_index_kept : preserves index_kept check_index_is_fresh.
Proof. unfold check_index_is_fresh, index_refresh. frame. Qed.
#[local] Hint Resolve check_index_is_fresh_index_kept : frame.

Lemma step_index_kept {A} (m : M A) w r w' :
  m w = (r, w') -> preserves index_kept m -> es_docs w' = es_docs w.
Proof. intros Hrun Hm. specialize (Hm w). rewrite Hrun in Hm. exact Hm. Qed.

Lemma should_not_exist_Ok i ty w ok w' :
  should_not_exist i ty w = (Ok ok, w') ->
  existsb (doc_matches ty i) (es_docs w) = false /\ w' = w.
Proof.
  unfold should_not_exist. rewrite run_bind. unfold es_exists at 1.
  destruct (existsb (doc_matches ty i) (es_docs w)); [ discriminate | ].
  intros [= _ <-]. split; reflexivity.
Qed.

(** ** Creation *)

(** What a creation that returned has done: [w0] is the world in which
    the closure was computed, [d0] the caller's dictionary in it. *)
Lemma add_annotation_es_Ok fuel l w r w1 :
  add_annotation_es fuel l w = (Ok r, w1) ->
  exists w0 d0 closure i ty,
    r = l /\
    es_docs w0 = es_docs w /\
    pt w0 l d0 /\
    dict_get "id" (dict_set "target_list" (JList closure) d0) = Some i /\
    dict_get "type" (dict_set "target_list" (JList closure) d0) = Some ty /\
    existsb (doc_matches ty i) (es_docs w) = false /\
    w1 = with_needs_refresh true
           (set_obj l (dict_del "target_list"
                         (dict_set "target_list" (JList closure) d0))
              (with_es_docs
                 (put_doc (EsDoc ty i
                             (JObj (dict_set "target_list" (JList closure) d0)))
                          (es_docs w))
                 (set_obj l (dict_set "target_list" (JList closure) d0) w0))).
Proof.
  unfold add_annotation_es. intros Hrun.
  apply bind_Ok in Hrun as (anno & wa & Hinit & Hrun).
  pose proof (Annotation_init_data _ _ _ _ Hinit) as Hdata.
  apply step_index_kept in Hinit; [ | frame ].
  apply bind_Ok in Hrun as (has_id & wb & Hhas & Hrun).
  apply step_unchanged in Hhas as ->; [ | frame ].
  apply bind_Ok in Hrun as (ok & wc & Hnew & Hrun).
  apply step_unchanged in Hnew as ->; [ | frame ].
  apply bind_Ok in Hrun as (closure & w0 & Hclosure & Hrun).
  apply step_index_kept in Hclosure; [ | frame ].
  rewrite Hdata in Hrun.
  apply bind_Ok in Hrun as (u & w2 & Hset & Hrun).
  apply obj_setitem_Ok in Hset as (d0 & Hpt & ->).
  set (body := dict_set "target_list" (JList closure) d0) in *.
  assert (Hbody : pt (set_obj l body w0) l body) by (eapply pt_set_obj, Hpt).
  rewrite run_bind, (deref_run _ _ _ Hbody) in Hrun.
  rewrite run_bind, (obj_getitem_run _ _ _ _ Hbody) in Hrun.
  cbn [py_getitem] in Hrun.
  destruct (dict_get "type" body) as [ty | ] eqn:Hty; [ | discriminate ].
  apply bind_Ok in Hrun as (u1 & w3 & Hadd & Hrun).
  unfold add_to_index in Hadd. rewrite run_bind in Hadd. unfold lift at 1 in Hadd.
  cbn [py_getitem] in Hadd.
  destruct (dict_get "id" body) as [i | ] eqn:Hid; [ | discriminate ].
  apply bind_Ok in Hadd as (ok1 & w4 & Hnot & Hadd).
  apply should_not_exist_Ok in Hnot as [Hnot ->].
  unfold es_index in Hadd. injection Hadd as _ <-.
  apply bind_Ok in Hrun as (u2 & w5 & Hdel & Hrun).
  apply obj_delitem_Ok in Hdel as (d5 & Hpt5 & _ & ->).
  assert (d5 = body) as ->.
  { unfold pt in Hpt5, Hbody. cbn [heap with_es_docs] in Hpt5. congruence. }
  apply bind_Ok in Hrun as (u3 & w6 & Hflag & Hrun).
  unfold set_index_needs_refresh, put_needs_refresh in Hflag.
  injection Hflag as _ <-. injection Hrun as <- <-.
  cbn [es_docs set_obj with_heap] in Hnot.
  exists w0, d0, closure, i, ty.
  rewrite <- Hinit, <- Hclosure.
  repeat split; try assumption; try congruence.
Qed.


Lemma dict_del_set_absent k v d :
  dict_has k d = false -> dict_del k (dict_set k v d) = d.
Proof.
  unfold dict_has, dict_del.
  induction d as [ | [k0 v0] d IH ]; cbn [dict_set dict_get List.filter fst].
  - rewrite String.eqb_refl. reflexivity.
  - destruct (String.eqb k k0) eqn:Hk; [ discriminate | ].
    intros H. cbn [List.filter fst]. rewrite Hk. cbn [negb].
    f_equal. apply IH, H.
Qed.

(** X11: a creation that returns has added exactly one document to the
    index, after the ones that were there, under the type and the id of
    the payload; that document carries a "target_list"; what is returned
    is the caller's own dictionary, which is the stored document without
    "target_list"; and the refresh flag is set. *)
Theorem add_annotation_es_adds_one_document fuel l w r w1 :
  add_annotation_es fuel l w = (Ok r, w1) ->
  exists ty i body,
    r = l /\
    es_docs w1 = es_docs w ++ [EsDoc ty i (JObj body)] /\
    dict_get "type" body = Some ty /\
    dict_get "id" body = Some i /\
    dict_has "target_list" body = true /\
    pt w1 l (dict_del "target_list" body) /\
    needs_refresh w1 = true.
Proof.
  intros Hrun.
  apply add_annotation_es_Ok in Hrun
    as (w0 & d0 & closure & i & ty & -> & Hdocs & Hpt & Hid & Hty & Hnew & ->).
  exists ty, i, (dict_set "target_list" (JList closure) d0).
  split; [ reflexivity | ].
  split; [ apply put_doc_absent; exact Hnew | ].
  split; [ exact Hty | ]. split; [ exact Hid | ].
  split; [ rewrite dict_has_set, String.eqb_refl; reflexivity | ].
  split; [ | reflexivity ].
  unfold pt. cbn [heap with_needs_refresh set_obj with_heap with_es_docs].
  rewrite list_insert_insert_eq.
  apply list_lookup_insert_eq. eapply lookup_lt_Some, Hpt.
Qed.

(** ** Reading a live document *)

Lemma check_index_is_fresh_run w :
  check_index_is_fresh w =
  (Ok tt,
   if needs_refresh w
   then with_needs_refresh false (with_event EsIndicesRefresh w)
   else w).
Proof.
  unfold check_index_is_fresh, index_needs_refresh. rewrite run_bind.
  destruct (needs_refresh w); reflexivity.
Qed.

(** The status test on a document that is found. *)
Lemma deleted_in_found docs i ty d body :
  List.find (doc_matches ty i) docs = Some d ->
  doc_source d = JObj body ->
  deleted_in docs i ty =
  Ok match dict_get "status" body with
     | Some status => py_eqb status (JStr "deleted")
     | None => false
     end.
Proof.
  intros Hfind Hsource. unfold deleted_in.
  rewrite existsb_find, Hfind, Hsource. cbn [py_in py_getitem].
  rewrite dict_has_get.
  destruct (dict_get "status" body); reflexivity.
Qed.

Lemma not_deleted_status body :
  dict_get "status" body <> Some (JStr "deleted") ->
  match dict_get "status" body with
  | Some status => py_eqb status (JStr "deleted")
  | None => false
  end = false.
Proof.
  intros Hlive. destruct (dict_get "status" body) as [status | ];
    [ | reflexivity ].
  destruct (py_eqb status (JStr "deleted")) eqn:Hs; [ | reflexivity ].
  apply py_eqb_str in Hs. congruence.
Qed.

Lemma should_exist_live i ty w :
  existsb (doc_matches ty i) (es_docs w) = true ->
  deleted_in (es_docs w) i ty = Ok false ->
  should_exist i ty w = (Ok true, w).
Proof.
  intros Hex Hlive. unfold should_exist.
  rewrite run_bind. unfold es_exists at 1. rewrite Hex.
  rewrite run_bind, is_deleted_run, Hlive. reflexivity.
Qed.

Lemma get_from_index_live i ty w d :
  List.find (doc_matches ty i) (es_docs w) = Some d ->
  deleted_in (es_docs w) i ty = Ok false ->
  get_from_index i ty w =
  (Ok (length (heap w)), with_heap (heap w ++ [doc_source d]) w).
Proof.
  intros Hfind Hlive. unfold get_from_index.
  rewrite run_bind, should_exist_live;
    [ | rewrite existsb_find, Hfind; reflexivity | exact Hlive ].
  rewrite run_bind. unfold es_get at 1. rewrite Hfind. reflexivity.
Qed.

(** [get_annotation_es] on the id of a live document with a
    "target_list": a new object, the stored body without that key. *)
Lemma get_annotation_es_live i w d body :
  List.find (doc_matches (JStr "Annotation") i) (es_docs w) = Some d ->
  doc_source d = JObj body ->
  dict_get "status" body <> Some (JStr "deleted") ->
  dict_has "target_list" body = true ->
  exists w2,
    get_annotation_es i w = (Ok (length (heap w)), w2) /\
    heap w2 = heap w ++ [JObj (dict_del "target_list" body)] /\
    es_docs w2 = es_docs w /\
    needs_refresh w2 = false.
Proof.
  intros Hfind Hsource Hstatus Htl.
  assert (Hlive : deleted_in (es_docs w) i (JStr "Annotation") = Ok false).
  { rewrite (deleted_in_found _ _ _ _ _ Hfind Hsource).
    rewrite (not_deleted_status _ Hstatus). reflexivity. }
  unfold get_annotation_es.
  rewrite run_bind. unfold log_call at 1. cbv beta iota.
  rewrite run_bind, check_index_is_fresh_run.
  set (wf := if needs_refresh _ then _ else _).
  assert (Hwf : es_docs wf = es_docs w /\ heap wf = heap w /\
                needs_refresh wf = false).
  { subst wf. cbn [needs_refresh with_event].
    destruct (needs_refresh w) eqn:Hflag; cbn; auto. }
  destruct Hwf as (Hdocs & Hheap & Hflag).
  rewrite run_bind, should_exist_live;
    [ | rewrite Hdocs, existsb_find, Hfind; reflexivity
      | rewrite Hdocs; exact Hlive ].
  rewrite run_bind, (get_from_index_live _ _ _ d);
    [ | rewrite Hdocs; exact Hfind | rewrite Hdocs; exact Hlive ].
  rewrite Hsource.
  assert (Hnew : pt (with_heap (heap wf ++ [JObj body]) wf)
                    (length (heap wf)) body) by (apply alloc_pt).
  rewrite run_bind, (obj_delitem_run _ _ _ _ Hnew), Htl.
  eexists. split; [ rewrite Hheap; reflexivity | ].
  cbn [heap es_docs needs_refresh set_obj with_heap].
  split; [ | split; [ exact Hdocs | exact Hflag ] ].
  rewrite <- Hheap.
  rewrite insert_app_r_alt by reflexivity.
  rewrite Nat.sub_diag. reflexivity.
Qed.

(** X12: create, then get.  After a creation that returned the
    dictionary [d1] with the string id [s] and the type "Annotation", and
    whose "status" is not "deleted", [get_annotation_es s] returns a new
    dictionary with exactly the fields of [d1], and leaves the caller's
    dictionary as it is. *)
Theorem get_annotation_es_returns_what_was_created fuel l w r w1 d1 s :
  add_annotation_es fuel l w = (Ok r, w1) ->
  pt w1 r d1 ->
  dict_get "id" d1 = Some (JStr s) ->
  dict_get "type" d1 = Some (JStr "Annotation") ->
  dict_get "status" d1 <> Some (JStr "deleted") ->
  exists l2 w2,
    get_annotation_es (JStr s) w1 = (Ok l2, w2) /\
    l2 <> r /\
    pt w2 l2 d1 /\
    pt w2 r d1.
Proof.
  intros Hrun Hd1 Hid1 Hty1 Hstatus1.
  apply add_annotation_es_Ok in Hrun
    as (w0 & d0 & closure & i & ty & -> & Hdocs & Hpt & Hid & Hty & Hnew & Hw1).
  set (body := dict_set "target_list" (JList closure) d0) in *.
  assert (Hl : pt w1 l (dict_del "target_list" body)).
  { rewrite Hw1. unfold pt.
    cbn [heap with_needs_refresh set_obj with_heap with_es_docs].
    rewrite list_insert_insert_eq.
    apply list_lookup_insert_eq. eapply lookup_lt_Some, Hpt. }
  assert (d1 = dict_del "target_list" body) as -> by (unfold pt in *; congruence).
  rewrite dict_get_del in Hid1, Hty1, Hstatus1.
  change (String.eqb "id" "target_list") with false in Hid1.
  change (String.eqb "type" "target_list") with false in Hty1.
  change (String.eqb "status" "target_list") with false in Hstatus1.
  cbv iota in Hid1, Hty1, Hstatus1.
  assert (i = JStr s) as -> by congruence.
  assert (ty = JStr "Annotation") as -> by congruence.
  destruct (get_annotation_es_live (JStr s) w1
              (EsDoc (JStr "Annotation") (JStr s) (JObj body)) body)
    as (w2 & Hget & Hheap & _ & _).
  - rewrite Hw1. cbn [es_docs with_needs_refresh set_obj with_heap with_es_docs].
    apply find_put_doc_same, doc_matches_strings.
  - reflexivity.
  - exact Hstatus1.
  - subst body. rewrite dict_has_set, String.eqb_refl. reflexivity.
  - exists (length (heap w1)), w2.
    assert (Hlt : (l < length (heap w1))%nat) by (eapply lookup_lt_Some, Hl).
    split; [ exact Hget | ]. split; [ lia | ].
    unfold pt. rewrite Hheap. split.
    + rewrite lookup_app_r by reflexivity. rewrite Nat.sub_diag. reflexivity.
    + rewrite lookup_app_l by exact Hlt. exact Hl.
Qed.


(** ** A creation that fails *)

Lemma bind_Raise {A B} (m : M A) (f : A -> M B) w e w' :
  (m ≫= f) w = (Raise e, w') ->
  m w = (Raise e, w') \/
  exists a w1, m w = (Ok a, w1) /\ f a w1 = (Raise e, w').
Proof.
  rewrite run_bind. destruct (m w) as [[a | e0] w1]; intros H;
    [ right; exists a, w1; auto | left; injection H as -> ->; reflexivity ].
Qed.

(** X13: a creation that raises has written nothing to the index,
    wherever it stopped: at the validation, at the test for an existing
    id, or in the computation of the closure.  Nothing after the write can
    raise. *)
Theorem add_annotation_es_that_raises_writes_nothing fuel l w e w' :
  add_annotation_es fuel l w = (Raise e, w') ->
  es_docs w' = es_docs w.
Proof.
  unfold add_annotation_es. intros Hrun.
  apply bind_Raise in Hrun as [Hrun | (anno & w1 & H1 & Hrun)];
    [ apply step_index_kept in Hrun; [ exact Hrun | frame ] | ].
  pose proof (Annotation_init_data _ _ _ _ H1) as Hdata.
  apply step_index_kept in H1; [ | frame ].
  apply bind_Raise in Hrun as [Hrun | (has_id & w2 & H2 & Hrun)];
    [ apply step_index_kept in Hrun; [ congruence | frame ] | ].
  apply step_index_kept in H2; [ | frame ].
  apply bind_Raise in Hrun as [Hrun | (ok & w3 & H3 & Hrun)];
    [ apply step_index_kept in Hrun; [ congruence | frame ] | ].
  apply step_index_kept in H3; [ | frame ].
  apply bind_Raise in Hrun as [Hrun | (closure & w4 & H4 & Hrun)];
    [ apply step_index_kept in Hrun; [ congruence | frame ] | ].
  apply step_index_kept in H4; [ | frame ].
  rewrite Hdata in Hrun.
  apply bind_Raise in Hrun as [Hrun | (u & w5 & H5 & Hrun)];
    [ apply step_index_kept in Hrun; [ congruence | frame ] | ].
  apply obj_setitem_Ok in H5 as (d0 & Hpt & ->).
  set (body := dict_set "target_list" (JList closure) d0) in *.
  assert (Hbody : pt (set_obj l body w4) l body) by (eapply pt_set_obj, Hpt).
  rewrite run_bind, (deref_run _ _ _ Hbody) in Hrun.
  rewrite run_bind, (obj_getitem_run _ _ _ _ Hbody) in Hrun.
  destruct (py_getitem (JObj body) "type") as [ty | e0];
    [ | injection Hrun as _ <-; cbn; congruence ].
  apply bind_Raise in Hrun as [Hrun | (u1 & w6 & H6 & Hrun)].
  { unfold add_to_index in Hrun.
    apply bind_Raise in Hrun as [Hrun | (i & w7 & H7 & Hrun)];
      [ apply step_index_kept in Hrun; [ cbn in Hrun; congruence | frame ] | ].
    apply step_index_kept in H7; [ | frame ].
    apply bind_Raise in Hrun as [Hrun | (ok1 & w8 & H8 & Hrun)];
      [ apply step_index_kept in Hrun; [ cbn in *; congruence | frame ] | ].
    discriminate Hrun. }
  exfalso.
  assert (H6' : pt w6 l body).
  { unfold add_to_index in H6.
    apply bind_Ok in H6 as (i & w7 & H7 & H6).
    apply step_unchanged in H7 as ->; [ | frame ].
    apply bind_Ok in H6 as (ok1 & w8 & H8 & H6).
    apply step_unchanged in H8 as ->; [ | frame ].
    unfold es_index in H6. injection H6 as _ <-. exact Hbody. }
  rewrite run_bind, (obj_delitem_run _ _ _ _ H6') in Hrun.
  subst body. rewrite dict_has_set, String.eqb_refl in Hrun.
  discriminate Hrun.
Qed.

(** ** What is handed back *)

(** X14: the dictionary that [get_annotation_es] or
    [update_annotation_es] returns has no "target_list": the closure
    stays in the index. *)
Theorem returned_annotation_has_no_target_list fuel l i w r w' :
  update_annotation_es fuel l w = (Ok r, w') \/
  get_annotation_es i w = (Ok r, w') ->
  exists d, pt w' r d /\ dict_has "target_list" d = false.
Proof.
  assert (Hdel : forall d, dict_has "target_list" (dict_del "target_list" d) = false)
    by (intros d; rewrite dict_has_del, String.eqb_refl; reflexivity).
  intros [Hrun | Hrun].
  - destruct fuel as [ | fuel ]; cbn [update_annotation_es] in Hrun;
      [ discriminate | ].
    do 12 (apply bind_Ok in Hrun as (? & ? & _ & Hrun)).
    apply bind_Ok in Hrun as (u & w1 & Hdelitem & Hrun).
    apply obj_delitem_Ok in Hdelitem as (d & Hpt & _ & ->).
    apply bind_Ok in Hrun as (u1 & w2 & Hflag & Hrun).
    unfold set_index_needs_refresh, put_needs_refresh in Hflag.
    injection Hflag as _ <-. injection Hrun as <- <-.
    exists (dict_del "target_list" d). split; [ | apply Hdel ].
    eapply pt_set_obj, Hpt.
  - unfold get_annotation_es in Hrun.
    do 4 (apply bind_Ok in Hrun as (? & ? & _ & Hrun)).
    apply bind_Ok in Hrun as (u & w1 & Hdelitem & Hrun).
    apply obj_delitem_Ok in Hdelitem as (d & Hpt & _ & ->).
    injection Hrun as <- <-.
    exists (dict_del "target_list" d). split; [ | apply Hdel ].
    eapply pt_set_obj, Hpt.
Qed.


(** ** Tombstones *)

(** The status test of [is_deleted] on one document. *)
Lemma deleted_in_find docs i ty :
  deleted_in docs i ty =
  match List.find (doc_matches ty i) docs with
  | Some d =>
      has_status ← py_in (JStr "status") (doc_source d);
      if has_status : bool then
        status ← py_getitem (doc_source d) "status";
        Ok (py_eqb status (JStr "deleted"))
      else Ok false
  | None => Ok false
  end.
Proof.
  unfold deleted_in. rewrite existsb_find.
  destruct (List.find (doc_matches ty i) docs); reflexivity.
Qed.

Lemma deleted_in_exists docs i ty :
  deleted_in docs i ty = Ok true -> existsb (doc_matches ty i) docs = true.
Proof.
  unfold deleted_in. destruct (existsb (doc_matches ty i) docs);
    [ reflexivity | discriminate ].
Qed.

Lemma should_exist_tombstone i ty w :
  deleted_in (es_docs w) i ty = Ok true ->
  should_exist i ty w = (Raise (does_not_exist i), w).
Proof.
  intros Hgone. unfold should_exist.
  rewrite run_bind. unfold es_exists at 1.
  rewrite (deleted_in_exists _ _ _ Hgone).
  rewrite run_bind, is_deleted_run, Hgone. reflexivity.
Qed.

Lemma should_exist_Ok i ty w ok w' :
  should_exist i ty w = (Ok ok, w') ->
  existsb (doc_matches ty i) (es_docs w) = true /\
  deleted_in (es_docs w) i ty = Ok false /\ w' = w.
Proof.
  unfold should_exist. rewrite run_bind. unfold es_exists at 1.
  destruct (existsb (doc_matches ty i) (es_docs w)) eqn:Hex.
  - rewrite run_bind, is_deleted_run.
    destruct (deleted_in (es_docs w) i ty) as [[ | ] | e]; try discriminate.
    intros [= _ <-]. auto.
  - discriminate.
Qed.


#[local] Instance tombstone_kept_preorder s : PreOrder (tombstone_kept s).
Proof.
  split; [ intros w H; exact H | intros w1 w2 w3 H1 H2 H; auto ].
Qed.

Lemma index_kept_tombstone_kept s w w' : index_kept w w' -> tombstone_kept s w w'.
Proof. intros Hd H. rewrite Hd. exact H. Qed.

#[local] Hint Extern 5 (preserves (tombstone_kept _) _) =>
  (eapply preserves_weaken; [ apply index_kept_tombstone_kept | ]) : frame.

(** A write under the key of a live document does not disturb the
    tombstone found under another key: the document it replaces is not
    the tombstone, and it cannot come to stand in front of it. *)
Lemma put_doc_keeps_tombstone docs ty i body s :
  existsb (doc_matches ty i) docs = true ->
  deleted_in docs i ty = Ok false ->
  deleted_in docs (JStr s) (JStr "Annotation") = Ok true ->
  deleted_in (put_doc (EsDoc ty i body) docs) (JStr s) (JStr "Annotation")
  = Ok true.
Proof.
  rewrite !deleted_in_find.
  induction docs as [ | d docs IH ]; [ discriminate | ].
  cbn [existsb put_doc doc_type doc_id List.find].
  destruct (doc_matches ty i d) eqn:Hd.
  - intros _ Hlive Hgone. cbn [List.find].
    destruct (doc_matches (JStr "Annotation") (JStr s) d) eqn:Hs;
      [ congruence | ].
    destruct (doc_matches (JStr "Annotation") (JStr s) (EsDoc ty i body))
      eqn:Hnew; [ | exact Hgone ].
    exfalso. unfold doc_matches in Hnew. cbn [doc_type doc_id] in Hnew.
    apply andb_true_iff in Hnew as [Hty Hi].
    apply py_eqb_str_l in Hi. subst i.
    change (py_eqb (JStr "Annotation") (JStr "_all")) with false in Hty.
    cbn [orb] in Hty. apply py_eqb_str_l in Hty. subst ty.
    congruence.
  - cbn [orb]. intros Hex Hlive Hgone. cbn [List.find].
    destruct (doc_matches (JStr "Annotation") (JStr s) d);
      [ exact Hgone | apply IH; assumption ].
Qed.

Lemma update_in_index_tombstone_kept s annotation ty :
  preserves (tombstone_kept s) (update_in_index annotation ty).
Proof.
  intros w. unfold update_in_index. rewrite run_bind. unfold lift at 1.
  destruct (py_getitem annotation "id") as [i | e]; [ | intros H; exact H ].
  rewrite run_bind.
  destruct (should_exist i ty w) as [[ok | e] w1] eqn:Hexist.
  - apply should_exist_Ok in Hexist as (Hex & Hlive & ->).
    intros Hgone. cbn [snd es_index es_docs with_es_docs].
    apply put_doc_keeps_tombstone; assumption.
  - apply step_unchanged in Hexist as ->; [ | frame ]. intros H. exact H.
Qed.
Lemma set_index_needs_refresh_index_kept :
  preserves index_kept set_index_needs_refresh.
Proof. intros w. reflexivity. Qed.
#[local] Hint Resolve update_in_index_tombstone_kept
  set_index_needs_refresh_index_kept : frame.

Lemma chain_loop_tombstone_kept s update closure annotation_id chain_annotations :
  (forall l, preserves (tombstone_kept s) (update l)) ->
  (forall a, preserves (tombstone_kept s) (closure a)) ->
  preserves (tombstone_kept s)
    (chain_loop update closure annotation_id chain_annotations).
Proof.
  intros Hupdate Hclosure.
  induction chain_annotations as [ | chain_annotation rest IH ];
    cbn [chain_loop]; frame.
Qed.
#[local] Hint Resolve chain_loop_tombstone_kept : frame.

(** Updates, and the chain updates they start, leave a tombstone in
    place. *)
Lemma update_keeps_tombstone s fuel :
  (forall l, preserves (tombstone_kept s) (update_annotation_es fuel l)) /\
  (forall i, preserves (tombstone_kept s) (update_chained_annotations fuel i)).
Proof.
  induction fuel as [ | fuel [IHu IHc] ]; split; intros x;
    cbn [update_annotation_es update_chained_annotations]; frame.
Qed.

Lemma get_annotation_es_tombstone i w :
  deleted_in (es_docs w) i (JStr "Annotation") = Ok true ->
  fst (get_annotation_es i w) = Raise (does_not_exist i).
Proof.
  intros Hgone. unfold get_annotation_es.
  rewrite run_bind. unfold log_call at 1. cbv beta iota.
  rewrite run_bind, check_index_is_fresh_run.
  rewrite run_bind, should_exist_tombstone; [ reflexivity | ].
  cbn [needs_refresh with_event]. destruct (needs_refresh w); exact Hgone.
Qed.

(** X16: a deletion that returns leaves a tombstone.  When
    [remove_annotation_es] returns for a string id: what it returns is the
    record [{id, type: Annotation, status: deleted}]; the index holds a
    tombstone under that id, also after the chain updates that the
    deletion started; and [get_annotation_es] of that id raises the 404
    "does not exist". *)
Theorem remove_annotation_es_leaves_a_tombstone fuel s w t w' :
  remove_annotation_es fuel (JStr s) w = (Ok t, w') ->
  t = deleted_record (JStr s) "Annotation" /\
  deleted_in (es_docs w') (JStr s) (JStr "Annotation") = Ok true /\
  fst (get_annotation_es (JStr s) w') = Raise (does_not_exist (JStr s)).
Proof.
  unfold remove_annotation_es. intros Hrun.
  apply bind_Ok in Hrun as (u1 & w1 & _ & Hrun).
  apply bind_Ok in Hrun as (ok & w2 & _ & Hrun).
  apply bind_Ok in Hrun as (u3 & w3 & _ & Hrun).
  apply bind_Ok in Hrun as (u4 & w4 & Hadd & Hrun).
  apply bind_Ok in Hrun as (u5 & w5 & Hchain & Hrun).
  injection Hrun as <- <-.
  assert (Hgone : deleted_in (es_docs w4) (JStr s) (JStr "Annotation") = Ok true).
  { unfold add_to_index in Hadd. rewrite run_bind in Hadd.
    unfold lift at 1 in Hadd. cbn [deleted_record py_getitem dict_get] in Hadd.
    change (String.eqb "id" "id") with true in Hadd. cbv iota in Hadd.
    apply bind_Ok in Hadd as (ok1 & w6 & Hnot & Hadd).
    apply should_not_exist_Ok in Hnot as [_ ->].
    unfold es_index in Hadd. injection Hadd as _ <-.
    cbn [es_docs with_es_docs].
    erewrite deleted_in_found;
      [ | apply find_put_doc_same, doc_matches_strings | reflexivity ].
    reflexivity. }
  pose proof (update_keeps_tombstone s fuel) as [_ Hkept].
  specialize (Hkept (JStr s) w4). rewrite Hchain in Hkept. cbn [snd] in Hkept.
  specialize (Hkept Hgone).
  split; [ reflexivity | ]. split; [ exact Hkept | ].
  apply get_annotation_es_tombstone, Hkept.
Qed.


(** ** Members of a collection *)

Lemma obj_getitem_Ok l k w v w' :
  obj_getitem l k w = (Ok v, w') ->
  exists d, pt w l d /\ dict_get k d = Some v /\ w' = w.
Proof.
  unfold obj_getitem, pt. rewrite run_bind. unfold deref at 1, lift.
  destruct (heap w !! l) as [[ | | | | | d ] | ]; cbn [default id py_getitem];
    try discriminate.
  destruct (dict_get k d) as [v0 | ] eqn:Hk; [ | discriminate ].
  intros [= <- <-]. exists d. repeat split. exact Hk.
Qed.

Lemma find_Some_of_existsb {A} (f : A -> bool) l :
  existsb f l = true -> exists x, List.find f l = Some x.
Proof.
  rewrite existsb_find. destruct (List.find f l) as [x | ]; [ eauto | discriminate ].
Qed.

(** What an addition to a collection that returned has done. *)
Lemma add_annotation_to_collection_es_Ok a c w r w1 :
  add_annotation_to_collection_es a c w = (Ok r, w1) ->
  exists d body items i,
    existsb (doc_matches (JStr "Annotation") a) (es_docs w) = true /\
    deleted_in (es_docs w) a (JStr "Annotation") = Ok false /\
    List.find (doc_matches (JStr "AnnotationCollection") c) (es_docs w) = Some d /\
    deleted_in (es_docs w) c (JStr "AnnotationCollection") = Ok false /\
    doc_source d = JObj body /\
    dict_get "items" body = Some (JList items) /\
    existsb (py_eqb a) items = false /\
    dict_get "id" body = Some i /\
    existsb (doc_matches (JStr "AnnotationCollection") i) (es_docs w) = true /\
    deleted_in (es_docs w) i (JStr "AnnotationCollection") = Ok false /\
    r = length (heap w) /\
    w1 = with_needs_refresh true
           (with_es_docs
              (put_doc
                 (EsDoc (JStr "AnnotationCollection") i
                    (JObj (dict_set "total"
                             (JNum (Z.of_nat (length (items ++ [a]))))
                             (dict_set "items" (JList (items ++ [a])) body))))
                 (es_docs w))
              (with_heap
                 (heap w ++
                  [JObj (dict_set "total"
                           (JNum (Z.of_nat (length (items ++ [a]))))
                           (dict_set "items" (JList (items ++ [a])) body))])
                 w)).
Proof.
  unfold add_annotation_to_collection_es. intros Hrun.
  apply bind_Ok in Hrun as (ok1 & w2 & Ha & Hrun).
  apply should_exist_Ok in Ha as (Ha_ex & Ha_live & ->).
  apply bind_Ok in Hrun as (ok2 & w2 & Hc & Hrun).
  apply should_exist_Ok in Hc as (Hc_ex & Hc_live & ->).
  destruct (find_Some_of_existsb _ _ Hc_ex) as (d & Hfind).
  rewrite run_bind, (get_from_index_live _ _ _ d Hfind Hc_live) in Hrun.
  apply bind_Ok in Hrun as (items_json & w3 & Hitems & Hrun).
  apply obj_getitem_Ok in Hitems as (body & Hbody & Hitems & ->).
  assert (Hsource : doc_source d = JObj body).
  { unfold pt in Hbody. cbn [heap with_heap] in Hbody.
    rewrite lookup_app_r in Hbody by reflexivity.
    rewrite Nat.sub_diag in Hbody. cbn in Hbody. congruence. }
  rewrite run_bind in Hrun. unfold lift at 1 in Hrun.
  destruct (py_in a items_json) as [[ | ] | e] eqn:Hin; try discriminate.
  rewrite run_bind in Hrun. unfold lift at 1 in Hrun.
  destruct items_json as [ | | | | items | ]; try discriminate.
  cbn [py_iadd_list] in Hrun. cbn [py_in] in Hin. injection Hin as Hin.
  rewrite run_bind in Hrun. erewrite obj_setitem_run in Hrun by exact Hbody.
  rewrite run_bind in Hrun. unfold lift at 1 in Hrun. cbn [py_len] in Hrun.
  rewrite run_bind in Hrun.
  erewrite obj_setitem_run in Hrun by (eapply pt_set_obj, Hbody).
  rewrite set_obj_twice in Hrun.
  set (body1 := dict_set "total" _ (dict_set "items" _ body)) in *.
  assert (Hbody1 : pt (set_obj (length (heap w)) body1
                         (with_heap (heap w ++ [doc_source d]) w))
                      (length (heap w)) body1) by (eapply pt_set_obj, Hbody).
  rewrite run_bind, (deref_run _ _ _ Hbody1) in Hrun.
  apply bind_Ok in Hrun as (u & w4 & Hupdate & Hrun).
  apply bind_Ok in Hrun as (u1 & w5 & Hflag & Hrun).
  unfold set_index_needs_refresh, put_needs_refresh in Hflag.
  injection Hflag as _ <-. injection Hrun as <- <-.
  unfold update_in_index in Hupdate. rewrite run_bind in Hupdate.
  unfold lift at 1 in Hupdate. cbn [py_getitem] in Hupdate.
  destruct (dict_get "id" body1) as [i | ] eqn:Hi; [ | discriminate ].
  apply bind_Ok in Hupdate as (ok3 & w6 & Hi_exist & Hupdate).
  apply should_exist_Ok in Hi_exist as (Hi_ex & Hi_live & ->).
  unfold es_index in Hupdate. injection Hupdate as _ <-.
  cbn [es_docs set_obj with_heap] in Hi_ex, Hi_live.
  assert (Hi' : dict_get "id" body = Some i).
  { subst body1. rewrite !dict_get_set in Hi.
    change (String.eqb "id" "total") with false in Hi.
    change (String.eqb "id" "items") with false in Hi. exact Hi. }
  exists d, body, items, i.
  repeat (split; [ assumption | ]).
  split; [ reflexivity | ].
  unfold set_obj, with_heap, with_es_docs, with_needs_refresh. cbn.
  rewrite Hsource.
  rewrite insert_app_r_alt by reflexivity. rewrite Nat.sub_diag. reflexivity.
Qed.

(** X17: an addition to a collection that returns has appended the
    annotation id to the members stored in the index, where it was not
    yet, and has set "total" to the new number of members; the other
    fields of the collection are as stored; the refresh flag is set. *)
Theorem add_annotation_to_collection_es_appends a c w r w1 :
  add_annotation_to_collection_es a c w = (Ok r, w1) ->
  exists source items d1,
    fst (es_get (JStr "AnnotationCollection") c w) = Ok source /\
    py_getitem source "items" = Ok (JList items) /\
    existsb (py_eqb a) items = false /\
    pt w1 r d1 /\
    dict_get "items" d1 = Some (JList (items ++ [a])) /\
    dict_get "total" d1 = Some (JNum (Z.of_nat (S (length items)))) /\
    (forall k, k <> "items" -> k <> "total" ->
               py_getitem (JObj d1) k = py_getitem source k) /\
    needs_refresh w1 = true.
Proof.
  intros Hrun.
  apply add_annotation_to_collection_es_Ok in Hrun
    as (d & body & items & i & _ & _ & Hfind & _ & Hsource & Hitems & Hnew
        & _ & _ & _ & -> & ->).
  exists (JObj body), items. eexists.
  split; [ unfold es_get; rewrite Hfind, Hsource; reflexivity | ].
  split; [ cbn [py_getitem]; rewrite Hitems; reflexivity | ].
  split; [ exact Hnew | ].
  split.
  { unfold pt. cbn [heap with_needs_refresh with_es_docs with_heap].
    rewrite lookup_app_r by reflexivity. rewrite Nat.sub_diag. reflexivity. }
  split; [ rewrite !dict_get_set; reflexivity | ].
  split.
  { rewrite dict_get_set, String.eqb_refl, length_app. cbn [length].
    repeat f_equal. lia. }
  split; [ | reflexivity ].
  intros k Hk1 Hk2. cbn [py_getitem]. rewrite !dict_get_set.
  destruct (String.eqb_spec k "total"); [ congruence | ].
  destruct (String.eqb_spec k "items"); [ congruence | reflexivity ].
Qed.

(** [l.remove(x)] takes back what [l += [x]] added, when [x] was not in
    [l]. *)
Lemma list_remove_app_new s items :
  existsb (py_eqb (JStr s)) items = false ->
  list_remove (JStr s) (items ++ [JStr s]) = Ok items.
Proof.
  induction items as [ | y items IH ]; cbn [existsb app list_remove].
  - intros _. rewrite py_eqb_str_refl. reflexivity.
  - intros H. apply orb_false_iff in H as [Hy Hitems].
    destruct (py_eqb y (JStr s)) eqn:Hys.
    + apply py_eqb_str in Hys. subst y. rewrite py_eqb_str_refl in Hy.
      discriminate.
    + rewrite (IH Hitems). reflexivity.
Qed.

(** A removal from a collection, run forward. *)
Lemma remove_annotation_from_collection_es_run a c w d body items items' i :
  existsb (doc_matches (JStr "Annotation") a) (es_docs w) = true ->
  deleted_in (es_docs w) a (JStr "Annotation") = Ok false ->
  List.find (doc_matches (JStr "AnnotationCollection") c) (es_docs w) = Some d ->
  deleted_in (es_docs w) c (JStr "AnnotationCollection") = Ok false ->
  doc_source d = JObj body ->
  dict_get "items" body = Some (JList items) ->
  list_remove a items = Ok items' ->
  dict_get "id" body = Some i ->
  existsb (doc_matches (JStr "AnnotationCollection") i) (es_docs w) = true ->
  deleted_in (es_docs w) i (JStr "AnnotationCollection") = Ok false ->
  exists w2,
    remove_annotation_from_collection_es a c w = (Ok (length (heap w)), w2) /\
    heap w2 = heap w ++
              [JObj (dict_set "total" (JNum (Z.of_nat (length items')))
                       (dict_set "items" (JList items') body))] /\
    es_docs w2 =
      put_doc (EsDoc (JStr "AnnotationCollection") i
                 (JObj (dict_set "total" (JNum (Z.of_nat (length items')))
                          (dict_set "items" (JList items') body))))
              (es_docs w).
Proof.
  intros Ha_ex Ha_live Hfind Hc_live Hsource Hitems Hremove Hi Hi_ex Hi_live.
  unfold remove_annotation_from_collection_es.
  rewrite run_bind, check_index_is_fresh_run.
  set (wf := if needs_refresh _ then _ else _).
  assert (Hwf : es_docs wf = es_docs w /\ heap wf = heap w).
  { subst wf. destruct (needs_refresh w); cbn; auto. }
  destruct Hwf as (Hdocs & Hheap).
  rewrite run_bind, should_exist_live by (rewrite Hdocs; assumption).
  rewrite run_bind, should_exist_live;
    [ | rewrite Hdocs, existsb_find, Hfind; reflexivity
      | rewrite Hdocs; assumption ].
  rewrite run_bind, (get_from_index_live _ _ _ d)
    by (rewrite Hdocs; assumption).
  rewrite Hsource.
  assert (Hnew : pt (with_heap (heap wf ++ [JObj body]) wf)
                    (length (heap wf)) body) by (apply alloc_pt).
  rewrite run_bind, (obj_getitem_run _ _ _ _ Hnew). cbn [py_getitem].
  rewrite Hitems, Hremove.
  rewrite run_bind. erewrite obj_setitem_run by exact Hnew.
  rewrite run_bind. erewrite obj_setitem_run by (eapply pt_set_obj, Hnew).
  rewrite set_obj_twice.
  set (body2 := dict_set "total" _ (dict_set "items" _ body)).
  assert (Hbody2 : pt (set_obj (length (heap wf)) body2
                         (with_heap (heap wf ++ [JObj body]) wf))
                      (length (heap wf)) body2) by (eapply pt_set_obj, Hnew).
  rewrite run_bind, (deref_run _ _ _ Hbody2).
  assert (Hi2 : dict_get "id" body2 = Some i).
  { subst body2. rewrite !dict_get_set.
    change (String.eqb "id" "total") with false.
    change (String.eqb "id" "items") with false. exact Hi. }
  unfold update_in_index. rewrite run_bind, run_bind. unfold lift at 1.
  cbn [py_getitem]. rewrite Hi2.
  rewrite run_bind, should_exist_live
    by (cbn [es_docs set_obj with_heap]; rewrite Hdocs; assumption).
  unfold es_index. cbv beta iota.
  eexists. split; [ rewrite Hheap; reflexivity | ].
  cbn [heap es_docs with_es_docs set_obj with_heap].
  split; [ | rewrite Hdocs; reflexivity ].
  rewrite <- Hheap. rewrite insert_app_r_alt by reflexivity.
  rewrite Nat.sub_diag. reflexivity.
Qed.

(** Documents of two different types never answer to the same key. *)
Lemma doc_matches_other_type ty ty' i i' d :
  ty <> ty' -> ty' <> "_all" ->
  doc_matches (JStr ty) i d = true ->
  ty <> "_all" ->
  doc_matches (JStr ty') i' d = false.
Proof.
  intros Hne Hall' H Hall. unfold doc_matches in *.
  apply andb_true_iff in H as [Hty _].
  apply orb_true_iff in Hty as [Hty | Hty].
  - cbn in Hty. apply String.eqb_eq in Hty. congruence.
  - apply py_eqb_str_l in Hty. rewrite Hty. cbn [py_eqb].
    destruct (String.eqb_spec ty' "_all"); [ congruence | ].
    destruct (String.eqb_spec ty' ty); [ congruence | reflexivity ].
Qed.

(** X18: removing a member undoes adding it.  After
    [add_annotation_to_collection_es a c] returned a collection whose
    "id" is [c], [remove_annotation_from_collection_es a c] returns a
    collection whose members are the ones that were stored before the
    addition, with "total" their number and every other field as it was
    stored; and that collection is what the index now holds under [c]. *)
Theorem removing_a_member_undoes_adding_it a c w r w1 d1 :
  add_annotation_to_collection_es (JStr a) (JStr c) w = (Ok r, w1) ->
  pt w1 r d1 ->
  dict_get "id" d1 = Some (JStr c) ->
  exists source items l2 w2 d2,
    fst (es_get (JStr "AnnotationCollection") (JStr c) w) = Ok source /\
    py_getitem source "items" = Ok (JList items) /\
    remove_annotation_from_collection_es (JStr a) (JStr c) w1 = (Ok l2, w2) /\
    pt w2 l2 d2 /\
    dict_get "items" d2 = Some (JList items) /\
    dict_get "total" d2 = Some (JNum (Z.of_nat (length items))) /\
    (forall k, k <> "items" -> k <> "total" ->
               py_getitem (JObj d2) k = py_getitem source k) /\
    fst (es_get (JStr "AnnotationCollection") (JStr c) w2) = Ok (JObj d2).
Proof.
  intros Hrun Hd1 Hid1.
  apply add_annotation_to_collection_es_Ok in Hrun
    as (d & body & items & i & Ha_ex & Ha_live & Hfind & Hc_live & Hsource
        & Hitems & Hnew & Hi & _ & _ & -> & ->).
  set (body1 := dict_set "total" _ (dict_set "items" _ body)) in *.
  assert (d1 = body1) as ->.
  { unfold pt in Hd1. cbn [heap with_needs_refresh with_es_docs with_heap] in Hd1.
    rewrite lookup_app_r in Hd1 by reflexivity.
    rewrite Nat.sub_diag in Hd1. cbn in Hd1. congruence. }
  assert (i = JStr c) as ->.
  { subst body1. rewrite !dict_get_set in Hid1.
    change (String.eqb "id" "total") with false in Hid1.
    change (String.eqb "id" "items") with false in Hid1. congruence. }
  set (new := EsDoc (JStr "AnnotationCollection") (JStr c) (JObj body1)) in *.
  set (w1 := with_needs_refresh true _).
  assert (Hdocs1 : es_docs w1 = put_doc new (es_docs w)) by reflexivity.
  assert (Hheap1 : heap w1 = heap w ++ [JObj body1]) by reflexivity.
  (* the annotation is where it was *)
  assert (Hother : List.find (doc_matches (JStr "Annotation") (JStr a))
                     (es_docs w1)
                   = List.find (doc_matches (JStr "Annotation") (JStr a))
                       (es_docs w)).
  { rewrite Hdocs1. apply find_put_doc_other.
    - intros d0 Hd0.
      eapply (doc_matches_other_type "AnnotationCollection" "Annotation");
        [ discriminate | discriminate | exact Hd0 | discriminate ].
    - reflexivity. }
  (* the collection is the new document *)
  assert (Hfind1 : List.find (doc_matches (JStr "AnnotationCollection") (JStr c))
                     (es_docs w1) = Some new).
  { rewrite Hdocs1. apply find_put_doc_same, doc_matches_strings. }
  assert (Hstatus : dict_get "status" body1 = dict_get "status" body).
  { subst body1. rewrite !dict_get_set. reflexivity. }
  assert (Hc_live1 : deleted_in (es_docs w1) (JStr c)
                       (JStr "AnnotationCollection") = Ok false).
  { rewrite (deleted_in_found _ _ _ _ body1 Hfind1) by reflexivity.
    rewrite Hstatus.
    rewrite <- (deleted_in_found _ _ _ _ body Hfind Hsource). exact Hc_live. }
  destruct (remove_annotation_from_collection_es_run
              (JStr a) (JStr c) w1 new body1 (items ++ [JStr a]) items (JStr c))
    as (w2 & Hremove & Hheap2 & Hdocs2).
  - rewrite existsb_find, Hother, <- existsb_find. exact Ha_ex.
  - rewrite deleted_in_find, Hother, <- deleted_in_find. exact Ha_live.
  - exact Hfind1.
  - exact Hc_live1.
  - reflexivity.
  - subst body1. rewrite !dict_get_set. reflexivity.
  - apply list_remove_app_new, Hnew.
  - exact Hid1.
  - rewrite existsb_find, Hfind1. reflexivity.
  - exact Hc_live1.
  - set (body2 := dict_set "total" (JNum (Z.of_nat (length items)))
                    (dict_set "items" (JList items) body1)) in *.
    exists (JObj body), items, (length (heap w1)), w2, body2.
    split; [ unfold es_get; rewrite Hfind, Hsource; reflexivity | ].
    split; [ cbn [py_getitem]; rewrite Hitems; reflexivity | ].
    split; [ exact Hremove | ].
    split.
    { unfold pt. rewrite Hheap2, lookup_app_r by reflexivity.
      rewrite Nat.sub_diag. reflexivity. }
    split; [ subst body2; rewrite !dict_get_set; reflexivity | ].
    split; [ subst body2; rewrite dict_get_set, String.eqb_refl; reflexivity | ].
    split.
    { intros k Hk1 Hk2. cbn [py_getitem]. subst body2 body1.
      rewrite !dict_get_set.
      destruct (String.eqb_spec k "total"); [ congruence | ].
      destruct (String.eqb_spec k "items"); [ congruence | reflexivity ]. }
    unfold es_get. rewrite Hdocs2.
    rewrite find_put_doc_same by apply doc_matches_strings. reflexivity.
Qed.


(** ** Annotations that target each other *)

Lemma get_annotation_es_index_kept i : preserves index_kept (get_annotation_es i).
Proof. unfold get_annotation_es. frame. Qed.

(** What [get_annotation_es] returns is the stored body without its
    "target_list". *)
Lemma get_annotation_es_Ok i w l2 w2 :
  get_annotation_es i w = (Ok l2, w2) ->
  exists d body,
    List.find (doc_matches (JStr "Annotation") i) (es_docs w) = Some d /\
    doc_source d = JObj body /\
    pt w2 l2 (dict_del "target_list" body) /\
    es_docs w2 = es_docs w.
Proof.
  intros Hrun.
  pose proof (step_index_kept _ _ _ _ Hrun (get_annotation_es_index_kept i))
    as Hdocs.
  unfold get_annotation_es in Hrun.
  apply bind_Ok in Hrun as (u1 & w3 & Hlog & Hrun).
  apply step_index_kept in Hlog; [ | frame ].
  apply bind_Ok in Hrun as (u2 & w4 & Hfresh & Hrun).
  apply step_index_kept in Hfresh; [ | frame ].
  apply bind_Ok in Hrun as (ok & w5 & Hexist & Hrun).
  apply step_unchanged in Hexist as ->; [ | frame ].
  apply bind_Ok in Hrun as (l3 & w6 & Hget & Hrun).
  destruct (get_from_index_source _ _ _ _ _ Hget) as (source & Hsource & Hl3).
  apply bind_Ok in Hrun as (u3 & w7 & Hdel & Hrun).
  injection Hrun as <- <-.
  apply obj_delitem_Ok in Hdel as (body & Hbody & _ & ->).
  unfold es_get in Hsource. rewrite Hfresh, Hlog in Hsource.
  destruct (List.find (doc_matches (JStr "Annotation") i) (es_docs w))
    as [d | ]; [ | discriminate ].
  cbn [fst] in Hsource. injection Hsource as Hsource.
  exists d, body. split; [ reflexivity | ].
  split; [ unfold pt in Hbody; congruence | ].
  split; [ eapply pt_set_obj, Hbody | exact Hdocs ].
Qed.

(** The first loop does not return when one of the targets is an
    annotation whose id is in the index, not tombstoned, and whose closure
    does not return. *)
Lemma expand_targets_fails closure annotation docs z target :
  (forall referenced, preserves index_kept (closure referenced)) ->
  is_annotation target = Ok true ->
  py_getitem target "id" = Ok (JStr z) ->
  deleted_in docs (JStr z) (JStr "_all") = Ok false ->
  (forall w0 l2 w2 referenced w3,
     es_docs w0 = docs ->
     get_annotation_es (JStr z) w0 = (Ok l2, w2) ->
     Annotation_init l2 w2 = (Ok referenced, w3) ->
     is_Ok (fst (closure referenced w3)) = false) ->
  forall targets deeper_targets w,
    In target targets ->
    es_docs w = docs ->
    is_Ok (fst (expand_targets closure annotation targets deeper_targets w))
    = false.
Proof.
  intros Hclosure Hanno Hid Hlive Hfails.
  induction targets as [ | head rest IH ]; intros deeper w Hin Hdocs;
    [ destruct Hin | ].
  cbn [expand_targets]. rewrite run_bind. unfold lift at 1.
  destruct Hin as [-> | Hin].
  - rewrite Hanno. rewrite run_bind. unfold lift at 1. rewrite Hid.
    destruct (py_eqb (JStr z) (self_id annotation)); [ reflexivity | ].
    rewrite run_bind, is_deleted_run, Hdocs, Hlive.
    rewrite run_bind.
    destruct (get_annotation_es (JStr z) w) as [[l2 | e] w2] eqn:Hget;
      [ | reflexivity ].
    rewrite run_bind.
    destruct (Annotation_init l2 w2) as [[referenced | e] w3] eqn:Hinit;
      [ | reflexivity ].
    rewrite run_bind.
    pose proof (Hfails _ _ _ _ _ Hdocs Hget Hinit) as Hnot.
    destruct (closure referenced w3) as [[more | e] w4];
      [ discriminate | reflexivity ].
  - destruct (is_annotation head) as [[ | ] | e];
      [ | apply IH; assumption | reflexivity ].
    rewrite run_bind. unfold lift at 1.
    destruct (py_getitem head "id") as [i | e]; [ | reflexivity ].
    destruct (py_eqb i (self_id annotation)); [ reflexivity | ].
    rewrite run_bind, is_deleted_run.
    destruct (deleted_in (es_docs w) i (JStr "_all")) as [[ | ] | e];
      [ apply IH; assumption | | reflexivity ].
    rewrite run_bind.
    destruct (get_annotation_es i w) as [[l2 | e] w2] eqn:Hget;
      [ | reflexivity ].
    apply step_index_kept in Hget; [ | apply get_annotation_es_index_kept ].
    rewrite run_bind.
    destruct (Annotation_init l2 w2) as [[referenced | e] w3] eqn:Hinit;
      [ | reflexivity ].
    apply step_index_kept in Hinit; [ | frame ].
    rewrite run_bind.
    destruct (closure referenced w3) as [[more | e] w4] eqn:Hmore;
      [ | reflexivity ].
    apply step_index_kept in Hmore; [ | apply Hclosure ].
    apply IH; [ exact Hin | congruence ].
Qed.

(** The entity built on a fetched document has the targets of the
    stored body. *)
Lemma fetched_entity_targets n body :
  dict_get "target"
    (dict_del "target_list"
       (dict_del "permissions"
          (with_defaults n (dict_del "target_list" body))))
  = dict_get "target" body.
Proof.
  rewrite !dict_get_del. eqb_lit. rewrite with_defaults_get. eqb_lit.
  rewrite dict_get_del. eqb_lit. reflexivity.
Qed.

(** X19: two annotations that target each other.  When the index holds
    live annotations [x] and [y], a resolved target of the stored [x] is
    an annotation descriptor with the id [y], and a resolved target of the
    stored [y] is one with the id [x], then the closure computation of an
    entity with the targets of the stored [x] does not return, whatever
    the depth of recursion that is allowed: it ends in an exception. *)
Theorem closure_of_annotations_that_target_each_other_never_returns
    docs x y d_x b_x tl_x t_x d_y b_y tl_y t_y fuel annotation w da :
  List.find (doc_matches (JStr "Annotation") (JStr x)) docs = Some d_x ->
  doc_source d_x = JObj b_x ->
  List.find (doc_matches (JStr "Annotation") (JStr y)) docs = Some d_y ->
  doc_source d_y = JObj b_y ->
  deleted_in docs (JStr x) (JStr "_all") = Ok false ->
  deleted_in docs (JStr y) (JStr "_all") = Ok false ->
  fst (get_targets_info (JObj b_x)) = Ok tl_x ->
  In t_x tl_x ->
  is_annotation t_x = Ok true ->
  py_getitem t_x "id" = Ok (JStr y) ->
  fst (get_targets_info (JObj b_y)) = Ok tl_y ->
  In t_y tl_y ->
  is_annotation t_y = Ok true ->
  py_getitem t_y "id" = Ok (JStr x) ->
  es_docs w = docs ->
  pt w (self_data annotation) da ->
  dict_get "target" da = dict_get "target" b_x ->
  is_Ok (fst (get_target_list fuel annotation w)) = false.
Proof.
  intros Hfx Hsx Hfy Hsy Hlx Hly Hix Hinx Hax Hidx Hiy Hiny Hay Hidy.
  assert (Hstep : forall d_z b_z tl t z' b_z',
    List.find (doc_matches (JStr "Annotation") (JStr z')) docs = Some d_z ->
    doc_source d_z = JObj b_z' ->
    deleted_in docs (JStr z') (JStr "_all") = Ok false ->
    fst (get_targets_info (JObj b_z)) = Ok tl ->
    In t tl -> is_annotation t = Ok true ->
    py_getitem t "id" = Ok (JStr z') ->
    forall fuel,
      (forall a w da,
         es_docs w = docs -> pt w (self_data a) da ->
         dict_get "target" da = dict_get "target" b_z' ->
         is_Ok (fst (get_target_list fuel a w)) = false) ->
      forall a w da,
        es_docs w = docs -> pt w (self_data a) da ->
        dict_get "target" da = dict_get "target" b_z ->
        is_Ok (fst (get_target_list (S fuel) a w)) = false).
  { clear. intros d_z b_z tl t z' b_z' Hfind Hsource Hlive Hinfo Hin Hanno Hid
      fuel IH a w da Hdocs Hpt Htarget.
    cbn [get_target_list].
    rewrite run_bind, (self_get_targets_info_run _ _ _ Hpt).
    rewrite (get_targets_info_same_target _ _ Htarget), Hinfo.
    rewrite run_bind.
    match goal with
    | |- context [expand_targets ?c ?a ?ts ?dt ?w1] =>
        pose proof (expand_targets_fails c a docs z' t
                      (get_target_list_index_kept fuel) Hanno Hid Hlive)
          as Hexp;
        destruct (expand_targets c a ts dt w1) as [[deeper | e] w2] eqn:Hrun;
        [ | reflexivity ]
    end.
    exfalso.
    match type of Hrun with
    | expand_targets ?c ?a ?ts ?dt ?w1 = _ =>
        specialize (fun H => Hexp H ts dt w1 Hin Hdocs)
    end.
    rewrite Hrun in Hexp. cbn [fst is_Ok] in Hexp.
    assert (Hgoal : true = false); [ apply Hexp | discriminate ].
    intros w0 l2 w3 referenced w4 Hdocs0 Hget Hinit.
    apply get_annotation_es_Ok in Hget as (d & body & Hd & Hbody & Hpt2 & Hdocs2).
    rewrite Hdocs0, Hfind in Hd. injection Hd as <-.
    rewrite Hsource in Hbody. injection Hbody as <-.
    destruct (Annotation_init_Ok _ _ _ _ _ Hpt2 Hinit) as (Href & _ & Hpt4).
    cbv zeta in Href, Hpt4.
    apply step_index_kept in Hinit; [ | frame ].
    eapply IH.
    - congruence.
    - rewrite Href. cbn [self_data]. exact Hpt4.
    - apply fetched_entity_targets. }
  assert (Hboth : forall n,
    (forall a w da,
       es_docs w = docs -> pt w (self_data a) da ->
       dict_get "target" da = dict_get "target" b_x ->
       is_Ok (fst (get_target_list n a w)) = false) /\
    (forall a w da,
       es_docs w = docs -> pt w (self_data a) da ->
       dict_get "target" da = dict_get "target" b_y ->
       is_Ok (fst (get_target_list n a w)) = false)).
  { intros n. induction n as [ | n [IHx IHy] ].
    - split; intros; reflexivity.
    - split.
      + eapply (Hstep d_y b_x tl_x t_x y b_y); eassumption.
      + eapply (Hstep d_x b_y tl_y t_y x b_x); eassumption. }
  intros Hdocs Hpt Htarget.
  destruct (Hboth fuel) as [Hx _]. eapply Hx; eassumption.
Qed.


(** ** Search by target *)

Lemma alloc_all_run sources :
  forall w,
    alloc_all sources w =
    (Ok (seq (length (heap w)) (length sources)),
     with_heap (heap w ++ sources) w).
Proof.
  induction sources as [ | source rest IH ]; intros w; cbn [alloc_all].
  - cbn. rewrite app_nil_r. destruct w; reflexivity.
  - rewrite run_bind. unfold alloc at 1. cbv beta iota.
    rewrite run_bind, IH. cbn [heap with_heap length seq mret M_ret].
    rewrite length_app. cbn [length]. rewrite Nat.add_1_r, <- app_assoc.
    reflexivity.
Qed.

(** The loop of [get_annotations_by_target_es] on consecutive new
    objects that all have a "target_list". *)
Lemma strip_target_lists_run bodies :
  forall pre w,
    heap w = pre ++ map JObj bodies ->
    Forall (fun body => dict_has "target_list" body = true) bodies ->
    strip_target_lists (seq (length pre) (length bodies)) w =
    (Ok tt,
     with_heap (pre ++ map (fun body => JObj (dict_del "target_list" body))
                           bodies) w).
Proof.
  induction bodies as [ | body rest IH ]; intros pre w Hheap Hall;
    cbn [length seq strip_target_lists map].
  - cbn [map] in Hheap. rewrite <- Hheap. destruct w; reflexivity.
  - inversion Hall as [ | ? ? Hbody Hrest ]; subst.
    assert (Hpt : pt w (length pre) body).
    { unfold pt. rewrite Hheap, lookup_app_r by reflexivity.
      rewrite Nat.sub_diag. reflexivity. }
    rewrite run_bind, (obj_delitem_run _ _ _ _ Hpt), Hbody.
    assert (Hheap' : heap (set_obj (length pre) (dict_del "target_list" body) w)
                     = (pre ++ [JObj (dict_del "target_list" body)])
                       ++ map JObj rest).
    { cbn [heap set_obj with_heap]. rewrite Hheap. cbn [map].
      rewrite insert_app_r_alt by reflexivity. rewrite Nat.sub_diag.
      cbn. rewrite <- app_assoc. reflexivity. }
    specialize (IH _ _ Hheap' Hrest).
    rewrite length_app in IH. cbn [length] in IH. rewrite Nat.add_1_r in IH.
    rewrite IH. unfold set_obj, with_heap. cbn. rewrite <- app_assoc.
    reflexivity.
Qed.

(** Every hit of a search on "target_list" is a dictionary with that
    key. *)
Lemma es_search_target_list_hits ty field value w :
  exists bodies,
    fst (es_search_target_list ty field value w) = Ok (map JObj bodies) /\
    Forall (fun body => dict_has "target_list" body = true) bodies.
Proof.
  unfold es_search_target_list. cbn [fst].
  generalize 10%nat. intros n. revert n.
  induction (es_docs w) as [ | d docs IH ]; intros n.
  - exists []. cbn [List.filter map]. rewrite take_nil.
    split; [ reflexivity | constructor ].
  - cbn [List.filter].
    destruct (py_eqb ty (doc_type d) && target_list_has field value (doc_source d))
      eqn:Hd; [ | apply IH ].
    destruct n as [ | n ]; [ exists []; split; [ reflexivity | constructor ] | ].
    destruct (IH n) as (bodies & Hbodies & Hall).
    apply andb_true_iff in Hd as [_ Hhas]. unfold target_list_has in Hhas.
    destruct (doc_source d) as [ | | | | | body ] eqn:Hsource;
      try discriminate.
    exists (body :: bodies). cbn [map take]. rewrite Hsource.
    injection Hbodies as Hbodies. rewrite Hbodies.
    split; [ reflexivity | ]. constructor; [ | exact Hall ].
    cbn [py_getitem] in Hhas. rewrite dict_has_get.
    destruct (dict_get "target_list" body); [ reflexivity | discriminate ].
Qed.

(** X20: for a target with at least one field, the search by target
    returns: one new dictionary for each hit of the index search, in
    order, each the body of the hit without its "target_list".  The
    deletion in its loop never raises, since every hit of that search has
    the key; the index is left as it was. *)
Theorem get_annotations_by_target_es_strips_every_hit target field value w :
  make_target_list_query target = Ok (field, value) ->
  exists bodies annotations w',
    get_annotations_by_target_es target w = (Ok annotations, w') /\
    (forall w0, es_docs w0 = es_docs w ->
       fst (es_search_target_list (JStr "Annotation") field value w0)
       = Ok (map JObj bodies)) /\
    length annotations = length bodies /\
    (forall n annotation body,
       annotations !! n = Some annotation ->
       bodies !! n = Some body ->
       dict_has "target_list" body = true /\
       pt w' annotation (dict_del "target_list" body)) /\
    es_docs w' = es_docs w.
Proof.
  intros Hquery. unfold get_annotations_by_target_es.
  rewrite run_bind, check_index_is_fresh_run.
  set (wf := if needs_refresh _ then _ else _).
  assert (Hdocs : es_docs wf = es_docs w)
    by (subst wf; destruct (needs_refresh w); reflexivity).
  destruct (es_search_target_list_hits (JStr "Annotation") field value wf)
    as (bodies & Hhits & Hall).
  unfold get_from_index_by_target_list.
  rewrite run_bind, run_bind. unfold lift at 1. rewrite Hquery.
  rewrite run_bind.
  assert (Hsearch : es_search_target_list (JStr "Annotation") field value wf
                    = (Ok (map JObj bodies), wf)).
  { unfold es_search_target_list in Hhits |- *. cbn [fst] in Hhits.
    rewrite Hhits. reflexivity. }
  rewrite Hsearch, alloc_all_run. rewrite run_bind.
  rewrite length_map.
  rewrite (strip_target_lists_run bodies (heap wf)) by (reflexivity || exact Hall).
  exists bodies. do 2 eexists. split; [ reflexivity | ].
  split.
  { intros w0 Hw0. unfold es_search_target_list in Hhits |- *.
    cbn [fst] in Hhits |- *. rewrite Hw0, <- Hdocs. exact Hhits. }
  split; [ apply length_seq | ].
  split; [ | exact Hdocs ].
  intros n annotation body Hn Hbody.
  split.
  { rewrite Forall_lookup in Hall. apply (Hall _ _ Hbody). }
  apply lookup_seq in Hn as [-> _].
  unfold pt. cbn [heap with_heap].
  rewrite lookup_app_r by lia.
  replace (length (heap wf) + n - length (heap wf))%nat with n by lia.
  rewrite list_lookup_fmap. unfold dict in Hbody |- *. rewrite Hbody.
  reflexivity.
Qed.

End Server.

(** * Scenarios

    Concrete runs of the store.  The identifiers used below are IRIs;
    [iri_like] stands for the IRI grammar and agrees with it on them. *)

Definition iri_like (s : string) : bool := is_substring ":" s.
Definition urn_number (n : nat) : string := "urn:uuid:" +:+ pretty n.
Definition clock (n : nat) : string := "2019-05-01T12:00:0" +:+ pretty n +:+ "+00:00".

(** A configured store with an empty index. *)
Definition empty_store : world := World [] [] false [] 0.

Definition annotation_doc (i : string) (target : json) : json :=
  JObj [("@context", JStr anno_context); ("type", JStr "Annotation");
        ("id", JStr i); ("target", target)].

(** [POST]: the payload becomes a dictionary, which is handed to
    [add_annotation_es]. *)
Definition post_annotation (payload : json) : M loc :=
  l ← alloc payload; add_annotation_es iri_like urn_number clock 100 l.

(** The closure of a payload as an entity built on it would get it. *)
Definition closure_of (payload : json) : M (list json) :=
  l ← alloc payload;
  annotation ← Annotation_init iri_like urn_number clock l;
  get_target_list iri_like urn_number clock 100 annotation.

Definition after {A} (m : M A) (w : world) : world := snd (m w).

(** *** A resource reached twice *)

(** B targets the resource r; A targets B, as an annotation, and r. *)
Definition doc_B : json := annotation_doc "urn:B" (JStr "urn:r").
Definition doc_A : json :=
  annotation_doc "urn:A"
    (JList [descriptor (JStr "urn:B") (JStr "Annotation"); JStr "urn:r"]).

Definition store_with_B : world := after (post_annotation doc_B) empty_store.

(** C1, at the failing input: the closure of A holds the descriptor of r
    twice, once as a direct target and once merged from the closure of
    B. *)
Theorem closure_repeats_an_id :
  fst (closure_of doc_A store_with_B) =
  Ok [descriptor (JStr "urn:B") (JStr "Annotation");
      bare_descriptor (JStr "urn:r");
      bare_descriptor (JStr "urn:r")].
Proof. vm_compute. reflexivity. Qed.

(** *** An annotation that names itself by a bare string *)

Definition doc_self_string : json := annotation_doc "urn:A" (JStr "urn:A").

(** C2, as stated, fails here: the only direct target resolves to the
    annotation's own id, and yet closure computation returns and the
    annotation is created. *)
Lemma bare_self_target_is_accepted :
  get_target_ids doc_self_string = Ok [JStr "urn:A"] /\
  py_getitem doc_self_string "id" = Ok (JStr "urn:A") /\
  fst (closure_of doc_self_string empty_store) =
    Ok [bare_descriptor (JStr "urn:A")] /\
  is_Ok (fst (post_annotation doc_self_string empty_store)) = true.
Proof. vm_compute. repeat split. Qed.

(** *** Removing from and of a collection *)

Definition doc_collection : json :=
  JObj [("@context", JStr anno_context); ("type", JStr "AnnotationCollection");
        ("id", JStr "urn:C"); ("label", JStr "shelf");
        ("items", JList [JStr "urn:B"]); ("total", JNum 1)].

(** The store after B was posted, the collection C was indexed with B as
    its member, and a read refreshed the index. *)
Definition store_with_collection : world :=
  World [] (es_docs store_with_B ++
            [EsDoc (JStr "AnnotationCollection") (JStr "urn:C") doc_collection])
        false [] 1.

Definition removed_member : world :=
  after (remove_annotation_from_collection_es (JStr "urn:B") (JStr "urn:C"))
        store_with_collection.
Definition removed_collection : world :=
  after (remove_collection_es (JStr "urn:C")) store_with_collection.
Definition added_member : world :=
  after (add_annotation_to_collection_es (JStr "urn:B") (JStr "urn:C"))
        removed_member.

(** The field [k] of the document stored under the type [ty] and the id
    [i]. *)
Definition stored_field (ty i k : string) (w : world) : res json :=
  fst (es_get (JStr ty) (JStr i) w) ≫= fun source => py_getitem source k.

(** C5, at the failing input: whatever the store,
    [remove_annotation_from_collection_es] and [remove_collection_es] end
    with [needs_refresh] at [False]; here they write to the index and
    return, so that the read that follows does not refresh; [add_annotation_to_collection_es] does set the flag, and the
    read that follows refreshes.  With the flag set, the listing
    [get_collections_es] searches without a refresh and leaves the flag
    set, where [get_annotations_es] refreshes first. *)
Theorem removals_leave_the_flag_unset :
  (forall w annotation_id collection_id,
     needs_refresh
       (after (remove_annotation_from_collection_es annotation_id collection_id)
              w) = false /\
     needs_refresh (after (remove_collection_es collection_id) w) = false)
  /\
  (stored_field "AnnotationCollection" "urn:C" "items" store_with_collection
     = Ok (JList [JStr "urn:B"]) /\
   stored_field "AnnotationCollection" "urn:C" "items" removed_member
     = Ok (JList []) /\
   needs_refresh removed_member = false /\
   trace (after (get_collection_es (JStr "urn:C")) removed_member) = [])
  /\
  (stored_field "AnnotationCollection" "urn:C" "status" removed_collection
     = Ok (JStr "deleted") /\
   needs_refresh removed_collection = false /\
   trace (after (get_annotation_es (JStr "urn:B")) removed_collection)
     = [CallGetAnnotation (JStr "urn:B")])
  /\
  (stored_field "AnnotationCollection" "urn:C" "items" added_member
     = Ok (JList [JStr "urn:B"]) /\
   needs_refresh added_member = true /\
   trace (after (get_collection_es (JStr "urn:C")) added_member)
     = [EsIndicesRefresh])
  /\
  (trace (after (get_collections_es 10 0) added_member) = [] /\
   needs_refresh (after (get_collections_es 10 0) added_member) = true /\
   trace (after (get_annotations_es 10 0) added_member) = [EsIndicesRefresh] /\
   needs_refresh (after (get_annotations_es 10 0) added_member) = false).
Proof.
  split; [ intros w a c; apply removals_never_set_the_flag | ].
  vm_compute. repeat split.
Qed.

(** *** A target with a source and no selector *)

Definition target_source_only : dict :=
  [("source", JStr "urn:s"); ("type", JStr "Text")].

Lemma source_without_selector_witness :
  get_target_id (JObj target_source_only) = Ok JNull /\
  fst (get_target_info (JObj target_source_only)) =
    Raise (AnnotationError400 "target requires an id or source property").
Proof.
  apply (source_without_selector_splits_the_resolvers target_source_only);
    reflexivity.
Defined.

(** *** Selectors *)

(** A page with a line in it, a list of two persistent identifiers, and a
    single word. *)
Definition selector_page_line : json :=
  JObj [("type", JStr "SubresourceSelector");
        ("value",
         JObj [("subresource",
                JObj [("id", JStr "urn:page"); ("type", JStr "Page");
                      ("subresource",
                       JObj [("id", JStr "urn:line"); ("type", JStr "Line")])])])].
Definition selector_pids : json :=
  JObj [("type", JStr "NestedPIDSelector");
        ("value", JList [descriptor (JStr "urn:p1") (JStr "Text");
                         descriptor (JStr "urn:p2") (JStr "Text")])].
Definition selector_word : json :=
  JObj [("type", JStr "SubresourceSelector");
        ("value",
         JObj [("subresource",
                JObj [("id", JStr "urn:word"); ("type", JStr "Word")])])].




(** *** Construction and update of an entity *)

(** The entity a run of the constructor returned. *)
Definition entity_of (run : res Annotation * world) : Annotation :=
  match fst run with
  | Ok a => a
  | Raise _ => MkAnnotation 0%nat EmptyString JNull JNull [] JNull JNull
  end.

(** A payload without "id" and "created", with "permissions" and a
    "target_list". *)
Definition payload_new : dict :=
  [("@context", JStr anno_context); ("type", JStr "Annotation");
   ("target", JStr "urn:r");
   ("permissions", JObj [("owner", JStr "urn:u")]);
   ("target_list", JList [])].

Definition caller : world := World [JObj payload_new] [] false [] 0.
Definition built : res Annotation * world :=
  Annotation_init iri_like urn_number clock 0%nat caller.

Lemma Annotation_init_witness :
  pt caller 0%nat payload_new /\
  is_Ok (fst built) = true /\
  self_data (entity_of built) = 0%nat /\
  exists d',
    pt (snd built) 0%nat d' /\
    dict_get "id" d' = Some (JStr "urn:uuid:0") /\
    dict_get "created" d' = Some (JStr "2019-05-01T12:00:01+00:00") /\
    dict_has "permissions" d' = false /\
    dict_has "target_list" d' = false /\
    forall k,
      k <> "id" -> k <> "created" ->
      k <> "permissions" -> k <> "target_list" ->
      dict_get k d' = dict_get k payload_new.
Proof.
  split; [ reflexivity | ]. split; [ reflexivity | ].
  apply (Annotation_init_changes_the_callers_dictionary
           iri_like urn_number clock 0%nat caller payload_new
           (entity_of built) (snd built)).
  - reflexivity.
  - vm_compute. reflexivity.
Defined.

(** A stored document that an entity is built on, and an update payload
    for it that carries "permissions". *)
Definition stored_A : dict :=
  [("@context", JStr anno_context); ("type", JStr "Annotation");
   ("id", JStr "urn:A"); ("created", JStr "2019-04-30T08:00:00+00:00");
   ("target", JStr "urn:r");
   ("permissions", JObj [("owner", JStr "urn:u")])].
Definition update_payload : dict :=
  [("@context", JStr anno_context); ("type", JStr "Annotation");
   ("id", JStr "urn:A"); ("target", JStr "urn:r2");
   ("permissions", JObj [("owner", JStr "urn:v")])].

Definition before_update : world :=
  World [JObj stored_A; JObj update_payload] [] false [] 0.
Definition built_A : res Annotation * world :=
  Annotation_init iri_like urn_number clock 0%nat before_update.
Definition updated_A : res Annotation * world :=
  update iri_like clock (entity_of built_A) 1%nat (snd built_A).

Lemma update_keeps_permissions_witness :
  (exists d0', pt (snd built_A) (self_data (entity_of built_A)) d0' /\
               dict_has "permissions" d0' = false) /\
  (exists d1, pt (snd updated_A) (self_data (entity_of updated_A)) d1 /\
              dict_get "permissions" d1 = Some (JObj [("owner", JStr "urn:v")])) /\
  (exists l2 w2 d2,
     to_clean_json (entity_of updated_A) JNull (snd updated_A) = (Ok l2, w2) /\
     pt w2 l2 d2 /\
     dict_get "permissions" d2 = Some (JObj [("owner", JStr "urn:v")])).
Proof.
  apply (update_keeps_permissions_in_data
           iri_like urn_number clock
           0%nat before_update stored_A (entity_of built_A) (snd built_A)
           1%nat update_payload (JObj [("owner", JStr "urn:v")])
           (entity_of updated_A) (snd updated_A) JNull).
  - reflexivity.
  - vm_compute. reflexivity.
  - vm_compute. reflexivity.
  - reflexivity.
  - vm_compute. reflexivity.
  - reflexivity.
Defined.

(** *** A tombstoned target *)

(** B was posted and then deleted; A, which targets B and r, is about to
    get its closure. *)
Definition store_with_tombstone : world :=
  after (remove_annotation_es iri_like urn_number clock 100 (JStr "urn:B"))
        store_with_B.
Definition built_on_tombstone : res Annotation * world :=
  (l ← alloc doc_A; Annotation_init iri_like urn_number clock l)
    store_with_tombstone.
Definition closure_on_tombstone : res (list json) * world :=
  get_target_list iri_like urn_number clock 100
    (entity_of built_on_tombstone) (snd built_on_tombstone).

Lemma tombstoned_target_witness :
  fst closure_on_tombstone =
    Ok [descriptor (JStr "urn:B") (JStr "Annotation");
        bare_descriptor (JStr "urn:r")] /\
  fst (is_deleted (JStr "urn:B") (JStr "_all") (snd built_on_tombstone))
    = Ok true /\
  In (descriptor (JStr "urn:B") (JStr "Annotation"))
     [descriptor (JStr "urn:B") (JStr "Annotation");
      bare_descriptor (JStr "urn:r")] /\
  (forall closure rest deeper_targets w0,
     es_docs w0 = es_docs (snd built_on_tombstone) ->
     expand_targets iri_like urn_number clock closure
       (entity_of built_on_tombstone)
       (descriptor (JStr "urn:B") (JStr "Annotation") :: rest)
       deeper_targets w0 =
     expand_targets iri_like urn_number clock closure
       (entity_of built_on_tombstone) rest deeper_targets w0) /\
  exists evs,
    trace (snd closure_on_tombstone)
      = trace (snd built_on_tombstone) ++ evs /\
    ~ In (CallGetAnnotation (JStr "urn:B")) evs /\
    forall j, In (CallGetAnnotation j) evs ->
              fst (is_deleted j (JStr "_all") (snd built_on_tombstone))
              = Ok false.
Proof.
  split; [ vm_compute; reflexivity | ].
  split; [ vm_compute; reflexivity | ].
  apply (tombstoned_targets_stay_leaves
           iri_like urn_number clock 100%nat
           (entity_of built_on_tombstone) (snd built_on_tombstone)
           [descriptor (JStr "urn:B") (JStr "Annotation");
            bare_descriptor (JStr "urn:r")]
           (snd closure_on_tombstone)
           [descriptor (JStr "urn:B") (JStr "Annotation");
            bare_descriptor (JStr "urn:r")]
           (snd (self_get_targets_info (entity_of built_on_tombstone)
                   (snd built_on_tombstone)))
           (descriptor (JStr "urn:B") (JStr "Annotation")) (JStr "urn:B")).
  - vm_compute. reflexivity.
  - vm_compute. reflexivity.
  - left. reflexivity.
  - reflexivity.
  - reflexivity.
  - vm_compute. reflexivity.
Defined.

(** *** An annotation that names itself as an annotation *)

Definition self_typed : dict :=
  [("@context", JStr anno_context); ("type", JStr "Annotation");
   ("id", JStr "urn:A");
   ("target", descriptor (JStr "urn:A") (JStr "Annotation"))].
Definition self_typed_store : world := World [JObj self_typed] [] false [] 0.

Lemma self_targeting_witness :
  fst (get_targets_info (JObj self_typed))
    = Ok [descriptor (JStr "urn:A") (JStr "Annotation")] /\
  is_Ok (fst (add_annotation_es iri_like urn_number clock 100 0%nat
                self_typed_store)) = false /\
  is_Ok (fst (update_annotation_es iri_like urn_number clock 100 0%nat
                self_typed_store)) = false.
Proof.
  split; [ reflexivity | ].
  refine (proj2 (self_targeting_annotation_is_rejected
                   iri_like urn_number clock 100%nat 0%nat self_typed_store
                   self_typed "urn:A"
                   [descriptor (JStr "urn:A") (JStr "Annotation")]
                   (descriptor (JStr "urn:A") (JStr "Annotation"))
                   _ _ _ _ _ _)).
  - reflexivity.
  - reflexivity.
  - reflexivity.
  - left. reflexivity.
  - reflexivity.
  - reflexivity.
Defined.

(** *** An update that changes the closure *)

Definition store_with_A : world :=
  after (post_annotation (annotation_doc "urn:A" (JStr "urn:r"))) empty_store.

(** The payload of the update is allocated, then handed over. *)
Definition retargeting : world :=
  after (alloc (annotation_doc "urn:A" (JStr "urn:r2"))) store_with_A.
Definition retargeted : res loc * world :=
  update_annotation_es iri_like urn_number clock 100
    (length (heap store_with_A)) retargeting.

Lemma update_propagates_witness :
  retargeted = (Ok (length (heap store_with_A)), snd retargeted) /\
  trace (snd retargeted) = [CallUpdateChained (JStr "urn:A"); EsIndicesRefresh] /\
  exists i stored wa source old entity wb annotation w1 new w2
         ids_new ids_old evs,
    obj_getitem (length (heap store_with_A)) "id" retargeting
      = (Ok i, retargeting) /\
    get_from_index i (JStr "Annotation") retargeting = (Ok stored, wa) /\
    fst (es_get (JStr "Annotation") i retargeting) = Ok source /\
    py_getitem source "target_list" = Ok old /\
    obj_getitem stored "target_list" wa = (Ok old, wa) /\
    Annotation_init iri_like urn_number clock stored wa = (Ok entity, wb) /\
    update iri_like clock entity (length (heap store_with_A)) wb
      = (Ok annotation, w1) /\
    self_data annotation = length (heap store_with_A) /\
    get_target_list iri_like urn_number clock (Nat.pred 100) annotation w1
      = (Ok new, w2) /\
    id_set (JList new) = Ok ids_new /\
    id_set old = Ok ids_old /\
    target_list_changed (JList new) old =
      Ok (bool_decide (ids_new <> ids_old)) /\
    trace (snd retargeted) = trace retargeting ++ evs /\
    (ids_new <> ids_old ->
     In (CallUpdateChained (self_id annotation)) evs /\
     exists before after,
       evs = before ++ CallUpdateChained (self_id annotation) :: after /\
       Forall not_chain_start before) /\
    (ids_new = ids_old -> forall j, ~ In (CallUpdateChained j) evs).
Proof.
  split; [ vm_compute; reflexivity | ].
  split; [ vm_compute; reflexivity | ].
  apply (update_propagates_iff_id_sets_differ
           iri_like urn_number clock 100%nat
           (length (heap store_with_A)) retargeting
           (length (heap store_with_A)) (snd retargeted)).
  vm_compute. reflexivity.
Defined.

(** ** Further scenarios *)

(** *** The validator *)

(** A target whose "id" is a number. *)
Definition numbered_target : dict :=
  [("@context", JStr anno_context); ("type", JStr "Annotation");
   ("target", JObj [("id", JNum 5); ("type", JStr "Text")])].

Lemma validate_raises_witness :
  validate iri_like (JObj numbered_target) None = Raise TypeError /\
  ((exists m, TypeError = AnnotationError m 400) \/
   (TypeError = TypeError /\
    exists d t target v,
      JObj numbered_target = JObj d /\ dict_get "target" d = Some t /\
      In target (as_list t) /\
      target_identifier target = Ok v /\ is_str v = false)).
Proof.
  split; [ vm_compute; reflexivity | ].
  apply (validate_raises_AnnotationError_or_TypeError
           iri_like (JObj numbered_target) None TypeError).
  vm_compute. reflexivity.
Defined.

(** An annotation of a plain resource and of a part of another. *)
Definition two_targets : dict :=
  [("@context", JStr anno_context); ("type", JList [JStr "Annotation"; JStr "Note"]);
   ("target",
    JList [JStr "urn:r";
           JObj [("source", JStr "urn:doc"); ("type", JStr "Text")]])].

Lemma validate_accepts_witness :
  has_valid_type (JObj two_targets) = Ok (JStr "Annotation") /\
  (validate iri_like (JObj two_targets) None = Ok true <->
   (exists c, dict_get "@context" two_targets = Some c /\
              py_eqb c (JStr anno_context) = true) /\
   exists t,
     dict_get "target" two_targets = Some t /\
     Forall (fun target =>
               exists s, target_identifier target = Ok (JStr s) /\
                         iri_like s = true)
            (as_list t)).
Proof.
  split; [ vm_compute; reflexivity | ].
  apply (validate_accepts_exactly_the_annotations_with_IRI_targets
           iri_like two_targets).
  vm_compute. reflexivity.
Defined.


(** A collection that counts its members but names no pages. *)
Definition counted_collection : dict :=
  [("@context", JStr anno_context); ("type", JStr "AnnotationCollection");
   ("label", JStr "notes"); ("total", JNum 0)].

Lemma validate_collection_witness :
  has_valid_type (JObj counted_collection) = Ok (JStr "AnnotationCollection") /\
  (validate iri_like (JObj counted_collection) None = Ok true <->
   (exists c, dict_get "@context" counted_collection = Some c /\
              py_eqb c (JStr anno_context) = true) /\
   (exists s, dict_get "label" counted_collection = Some (JStr s)) /\
   (dict_has "total" counted_collection = true ->
    dict_has "first" counted_collection = true /\
    dict_has "last" counted_collection = true)).
Proof.
  split; [ vm_compute; reflexivity | ].
  apply (validate_accepts_exactly_the_well_formed_collections
           iri_like counted_collection).
  vm_compute. reflexivity.
Defined.


(** *** [has_target] *)

(** An annotation of two resources that are named by objects. *)
Definition two_objects : json :=
  JObj [("id", JStr "urn:A"); ("type", JStr "Annotation");
        ("target", JList [JObj [("id", JStr "urn:r"); ("type", JStr "Text")];
                          JObj [("id", JStr "urn:s"); ("type", JStr "Text")]])].

Lemma has_target_object_witness :
  (get_targets two_objects =
     Ok [JObj [("id", JStr "urn:r"); ("type", JStr "Text")];
         JObj [("id", JStr "urn:s"); ("type", JStr "Text")]] /\
   dict_get "id" [("id", JStr "urn:r"); ("type", JStr "Text")]
     = Some (JStr "urn:r") /\
   dict_has "selector" [("id", JStr "urn:r"); ("type", JStr "Text")] = false) /\
  has_target two_objects (JStr "urn:r")
    = Ok (is_substring "id" "urn:r" && String.eqb "urn:r" "urn:r") /\
  has_target two_objects (JStr "urn:r") = Ok false.
Proof.
  split; [ repeat split | ].
  split; [ | vm_compute; reflexivity ].
  apply (has_target_answers_from_the_first_object
           two_objects [("id", JStr "urn:r"); ("type", JStr "Text")]
           [JObj [("id", JStr "urn:s"); ("type", JStr "Text")]]);
    reflexivity.
Defined.

Definition two_strings : json :=
  JObj [("id", JStr "urn:A"); ("type", JStr "Annotation");
        ("target", JList [JStr "urn:r"; JStr "urn:s"])].

Lemma has_target_string_witness :
  get_targets two_strings = Ok [JStr "urn:r"; JStr "urn:s"] /\
  has_target two_strings (JStr "urn:s") =
    (if String.eqb "urn:r" "urn:s" then Ok true else Raise TypeError) /\
  has_target two_strings (JStr "urn:s") = Raise TypeError.
Proof.
  split; [ reflexivity | ].
  split; [ | vm_compute; reflexivity ].
  apply (has_target_raises_TypeError_on_another_string
           two_strings [JStr "urn:s"] "urn:r" "urn:s").
  reflexivity.
Defined.


(** *** The two resolvers on one target *)

(** A part of a document, named by a page and a line, then by two
    persistent identifiers, then by a word. *)
Definition target_on_pids : json :=
  JObj [("source", JStr "urn:doc"); ("type", JStr "Document");
        ("selector",
         JList [selector_page_line; selector_pids; selector_word])].

Lemma resolvers_witness :
  (fst (get_target_info target_on_pids) =
     Ok (JList [descriptor (JStr "urn:p1") (JStr "Text");
                descriptor (JStr "urn:p2") (JStr "Text");
                descriptor (JStr "urn:word") (JStr "Word")]) /\
   get_target_id target_on_pids =
     Ok (JList [JStr "urn:doc"; JStr "urn:page"; JStr "urn:line";
                JStr "urn:p1"; JStr "urn:p2"; JStr "urn:word"])) /\
  exists kept own,
    [JStr "urn:doc"; JStr "urn:page"; JStr "urn:line";
     JStr "urn:p1"; JStr "urn:p2"; JStr "urn:word"] = kept ++ own /\
    ids_of [descriptor (JStr "urn:p1") (JStr "Text");
            descriptor (JStr "urn:p2") (JStr "Text");
            descriptor (JStr "urn:word") (JStr "Word")] = Ok own /\
    (kept = [] \/
     exists selectors selector,
       py_getitem target_on_pids "selector" = Ok selectors /\
       In selector (as_list selectors) /\
       py_getitem selector "type" = Ok (JStr "NestedPIDSelector")).
Proof.
  split; [ split; vm_compute; reflexivity | ].
  apply (get_target_id_ends_with_the_ids_of_get_target_info target_on_pids);
    vm_compute; reflexivity.
Defined.


(** *** Resolving twice *)

(** The two persistent identifiers, then the word. *)
Definition target_pids_word : dict :=
  [("source", JStr "urn:doc"); ("type", JStr "Document");
   ("selector", JList [selector_pids; selector_word])].

Lemma get_target_info_extends_witness :
  (dict_has "id" target_pids_word = false /\
   get_subresource_info
     (JObj [("id", JStr "urn:word"); ("type", JStr "Word")])
   = Ok [descriptor (JStr "urn:word") (JStr "Word")]) /\
  fst (get_target_info (JObj target_pids_word)) =
    Ok (JList ([descriptor (JStr "urn:p1") (JStr "Text");
                descriptor (JStr "urn:p2") (JStr "Text")] ++
               [descriptor (JStr "urn:word") (JStr "Word")])) /\
  py_getitem (snd (get_target_info (JObj target_pids_word))) "selector" =
    Ok (JList [set_value
                 (JList ([descriptor (JStr "urn:p1") (JStr "Text");
                          descriptor (JStr "urn:p2") (JStr "Text")] ++
                         [descriptor (JStr "urn:word") (JStr "Word")]))
                 selector_pids;
               selector_word]) /\
  fst (get_target_info (snd (get_target_info (JObj target_pids_word)))) =
    Ok (JList (([descriptor (JStr "urn:p1") (JStr "Text");
                 descriptor (JStr "urn:p2") (JStr "Text")] ++
                [descriptor (JStr "urn:word") (JStr "Word")]) ++
               [descriptor (JStr "urn:word") (JStr "Word")])).
Proof.
  split; [ split; reflexivity | ].
  apply (get_target_info_extends_the_stored_value
           target_pids_word (JStr "urn:doc") (JStr "Document")
           selector_pids selector_word
           [descriptor (JStr "urn:p1") (JStr "Text");
            descriptor (JStr "urn:p2") (JStr "Text")]
           (JObj [("subresource",
                   JObj [("id", JStr "urn:word"); ("type", JStr "Word")])])
           (JObj [("id", JStr "urn:word"); ("type", JStr "Word")])
           [descriptor (JStr "urn:word") (JStr "Word")]);
    reflexivity.
Defined.

(** The page and the line, then the word: no list of identifiers. *)
Definition data_page_word : json :=
  JObj [("id", JStr "urn:A"); ("type", JStr "Annotation");
        ("target",
         JObj [("source", JStr "urn:doc"); ("type", JStr "Document");
               ("selector", JList [selector_page_line; selector_word])])].

Lemma get_targets_info_leaves_data_witness :
  (get_targets data_page_word =
     Ok [JObj [("source", JStr "urn:doc"); ("type", JStr "Document");
               ("selector", JList [selector_page_line; selector_word])]] /\
   forallb (fun target => negb (existsb is_nested_pid (selectors_of target)))
     [JObj [("source", JStr "urn:doc"); ("type", JStr "Document");
            ("selector", JList [selector_page_line; selector_word])]] = true) /\
  snd (get_targets_info data_page_word) = data_page_word.
Proof.
  split; [ split; reflexivity | ].
  apply (get_targets_info_leaves_data_without_NestedPIDSelector data_page_word
           [JObj [("source", JStr "urn:doc"); ("type", JStr "Document");
                  ("selector", JList [selector_page_line; selector_word])]]);
    reflexivity.
Defined.


(** *** [to_json] after construction, and a refused update *)

Lemma to_json_restores_witness :
  (pt caller 0%nat payload_new /\
   built = (Ok (entity_of built), snd built)) /\
  exists l2 w2 d2 d1,
    to_json (entity_of built) (snd built) = (Ok l2, w2) /\
    l2 <> 0%nat /\
    pt w2 l2 d2 /\
    (forall k v, dict_get k payload_new = Some v -> dict_get k d2 = Some v) /\
    dict_get "permissions" d2 =
      Some (default JNull (dict_get "permissions" payload_new)) /\
    dict_get "target_list" d2 =
      Some (default JNull (dict_get "target_list" payload_new)) /\
    pt w2 0%nat d1 /\
    dict_has "permissions" d1 = false /\
    dict_has "target_list" d1 = false.
Proof.
  split; [ split; [ reflexivity | vm_compute; reflexivity ] | ].
  apply (to_json_restores_what_the_constructor_took
           iri_like urn_number clock 0%nat caller payload_new
           (entity_of built) (snd built)).
  - reflexivity.
  - vm_compute. reflexivity.
Defined.

(** An update payload that names another annotation. *)
Definition payload_for_B : dict :=
  [("@context", JStr anno_context); ("type", JStr "Annotation");
   ("id", JStr "urn:B"); ("target", JStr "urn:r2")].

Definition before_refused_update : world :=
  World [JObj stored_A; JObj payload_for_B] [] false [] 0.
Definition built_for_refusal : res Annotation * world :=
  Annotation_init iri_like urn_number clock 0%nat before_refused_update.
Definition refused_update : res Annotation * world :=
  update iri_like clock (entity_of built_for_refusal) 1%nat
    (snd built_for_refusal).

Lemma update_that_raises_witness :
  (pt (snd built_for_refusal) 1%nat payload_for_B /\
   refused_update =
     (Raise (AnnotationError400
        "ID of updated annotation does not match ID of existing annotation"),
      snd refused_update)) /\
  snd refused_update = snd built_for_refusal /\
  (validate iri_like (JObj payload_for_B) None =
     Raise (AnnotationError400
        "ID of updated annotation does not match ID of existing annotation") \/
   (AnnotationError400
      "ID of updated annotation does not match ID of existing annotation"
    = KeyError "id" /\ dict_has "id" payload_for_B = false) \/
   (AnnotationError400
      "ID of updated annotation does not match ID of existing annotation"
    = AnnotationError400
        "ID of updated annotation does not match ID of existing annotation" /\
    exists i, dict_get "id" payload_for_B = Some i /\
              py_eqb (self_id (entity_of built_for_refusal)) i = false)).
Proof.
  split; [ split; vm_compute; reflexivity | ].
  apply (update_that_raises_changes_nothing
           iri_like clock (entity_of built_for_refusal) 1%nat
           (snd built_for_refusal) payload_for_B).
  - vm_compute. reflexivity.
  - vm_compute. reflexivity.
Defined.


(** *** Creation, and reading back *)

(** The payload of annotation urn:B as a dictionary of the caller, and
    its creation in the empty store. *)
Definition posted_B : world := World [doc_B] [] false [] 0.
Definition created_B : res loc * world :=
  add_annotation_es iri_like urn_number clock 100 0%nat posted_B.

Definition returned_B : dict :=
  [("@context", JStr anno_context); ("type", JStr "Annotation");
   ("id", JStr "urn:B"); ("target", JStr "urn:r");
   ("created", JStr "2019-05-01T12:00:00+00:00")].

Lemma add_annotation_es_adds_one_document_witness :
  created_B = (Ok 0%nat, snd created_B) /\
  exists ty i body,
    0%nat = 0%nat /\
    es_docs (snd created_B) = es_docs posted_B ++ [EsDoc ty i (JObj body)] /\
    dict_get "type" body = Some ty /\
    dict_get "id" body = Some i /\
    dict_has "target_list" body = true /\
    pt (snd created_B) 0%nat (dict_del "target_list" body) /\
    needs_refresh (snd created_B) = true.
Proof.
  split; [ vm_compute; reflexivity | ].
  apply (add_annotation_es_adds_one_document
           iri_like urn_number clock 100 0%nat posted_B 0%nat (snd created_B)).
  vm_compute. reflexivity.
Defined.

Lemma get_annotation_es_round_trip_witness :
  (created_B = (Ok 0%nat, snd created_B) /\
   pt (snd created_B) 0%nat returned_B /\
   dict_get "id" returned_B = Some (JStr "urn:B") /\
   dict_get "type" returned_B = Some (JStr "Annotation") /\
   dict_get "status" returned_B <> Some (JStr "deleted")) /\
  exists l2 w2,
    get_annotation_es (JStr "urn:B") (snd created_B) = (Ok l2, w2) /\
    l2 <> 0%nat /\
    pt w2 l2 returned_B /\
    pt w2 0%nat returned_B.
Proof.
  split.
  { split; [ vm_compute; reflexivity | ].
    split; [ vm_compute; reflexivity | ].
    split; [ reflexivity | ]. split; [ reflexivity | discriminate ]. }
  apply (get_annotation_es_returns_what_was_created
           iri_like urn_number clock 100 0%nat posted_B 0%nat (snd created_B)
           returned_B "urn:B").
  - vm_compute. reflexivity.
  - vm_compute. reflexivity.
  - reflexivity.
  - reflexivity.
  - discriminate.
Defined.


(** The same payload posted a second time. *)
Definition reposted_B : world := after (alloc doc_B) (snd created_B).
Definition created_B_again : res loc * world :=
  add_annotation_es iri_like urn_number clock 100 1%nat reposted_B.

Lemma add_annotation_es_that_raises_witness :
  created_B_again =
    (Raise (AnnotationError
              (MsgFmt "Annotation with id " (JStr "urn:B") " already exists")
              400),
     snd created_B_again) /\
  es_docs (snd created_B_again) = es_docs reposted_B.
Proof.
  split; [ vm_compute; reflexivity | ].
  apply (add_annotation_es_that_raises_writes_nothing
           iri_like urn_number clock 100 1%nat reposted_B
           (AnnotationError
              (MsgFmt "Annotation with id " (JStr "urn:B") " already exists")
              400)
           (snd created_B_again)).
  vm_compute. reflexivity.
Defined.

Definition fetched_B : res loc * world :=
  get_annotation_es (JStr "urn:B") (snd created_B).

Lemma returned_annotation_witness :
  fetched_B = (Ok 1%nat, snd fetched_B) /\
  exists d, pt (snd fetched_B) 1%nat d /\ dict_has "target_list" d = false.
Proof.
  split; [ vm_compute; reflexivity | ].
  apply (returned_annotation_has_no_target_list
           iri_like urn_number clock 0%nat 0%nat (JStr "urn:B")
           (snd created_B) 1%nat (snd fetched_B)).
  right. vm_compute. reflexivity.
Defined.


(** *** Tombstones *)


Definition removed_B : res json * world :=
  remove_annotation_es iri_like urn_number clock 100 (JStr "urn:B") store_with_B.

Lemma remove_annotation_es_witness :
  removed_B = (Ok (deleted_record (JStr "urn:B") "Annotation"), snd removed_B) /\
  deleted_record (JStr "urn:B") "Annotation"
    = deleted_record (JStr "urn:B") "Annotation" /\
  deleted_in (es_docs (snd removed_B)) (JStr "urn:B") (JStr "Annotation")
    = Ok true /\
  fst (get_annotation_es (JStr "urn:B") (snd removed_B))
    = Raise (does_not_exist (JStr "urn:B")).
Proof.
  split; [ vm_compute; reflexivity | ].
  apply (remove_annotation_es_leaves_a_tombstone
           iri_like urn_number clock 100 "urn:B" store_with_B
           (deleted_record (JStr "urn:B") "Annotation") (snd removed_B)).
  vm_compute. reflexivity.
Defined.


(** *** Members of a collection *)

(** B is put back into the collection it was removed from. *)
Definition readded_member : res loc * world :=
  add_annotation_to_collection_es (JStr "urn:B") (JStr "urn:C") removed_member.

Definition collection_with_B : dict :=
  [("@context", JStr anno_context); ("type", JStr "AnnotationCollection");
   ("id", JStr "urn:C"); ("label", JStr "shelf");
   ("items", JList [JStr "urn:B"]); ("total", JNum 1)].

Lemma add_annotation_to_collection_es_witness :
  readded_member = (Ok 1%nat, snd readded_member) /\
  exists source items d1,
    fst (es_get (JStr "AnnotationCollection") (JStr "urn:C") removed_member)
      = Ok source /\
    py_getitem source "items" = Ok (JList items) /\
    existsb (py_eqb (JStr "urn:B")) items = false /\
    pt (snd readded_member) 1%nat d1 /\
    dict_get "items" d1 = Some (JList (items ++ [JStr "urn:B"])) /\
    dict_get "total" d1 = Some (JNum (Z.of_nat (S (length items)))) /\
    (forall k, k <> "items" -> k <> "total" ->
               py_getitem (JObj d1) k = py_getitem source k) /\
    needs_refresh (snd readded_member) = true.
Proof.
  split; [ vm_compute; reflexivity | ].
  apply (add_annotation_to_collection_es_appends
           (JStr "urn:B") (JStr "urn:C") removed_member 1%nat
           (snd readded_member)).
  vm_compute. reflexivity.
Defined.

Lemma removing_a_member_witness :
  (readded_member = (Ok 1%nat, snd readded_member) /\
   pt (snd readded_member) 1%nat collection_with_B /\
   dict_get "id" collection_with_B = Some (JStr "urn:C")) /\
  exists source items l2 w2 d2,
    fst (es_get (JStr "AnnotationCollection") (JStr "urn:C") removed_member)
      = Ok source /\
    py_getitem source "items" = Ok (JList items) /\
    remove_annotation_from_collection_es (JStr "urn:B") (JStr "urn:C")
      (snd readded_member) = (Ok l2, w2) /\
    pt w2 l2 d2 /\
    dict_get "items" d2 = Some (JList items) /\
    dict_get "total" d2 = Some (JNum (Z.of_nat (length items))) /\
    (forall k, k <> "items" -> k <> "total" ->
               py_getitem (JObj d2) k = py_getitem source k) /\
    fst (es_get (JStr "AnnotationCollection") (JStr "urn:C") w2) = Ok (JObj d2).
Proof.
  split; [ repeat split; vm_compute; reflexivity | ].
  apply (removing_a_member_undoes_adding_it
           "urn:B" "urn:C" removed_member 1%nat (snd readded_member)
           collection_with_B).
  - vm_compute. reflexivity.
  - vm_compute. reflexivity.
  - reflexivity.
Defined.


(** *** Two annotations that target each other *)

Definition body_cycle (i other : string) : dict :=
  [("@context", JStr anno_context); ("type", JStr "Annotation");
   ("id", JStr i);
   ("target", descriptor (JStr other) (JStr "Annotation"));
   ("created", JStr "2019-05-01T12:00:00+00:00");
   ("target_list", JList [descriptor (JStr other) (JStr "Annotation")])].

Definition doc_cycle (i other : string) : es_doc :=
  EsDoc (JStr "Annotation") (JStr i) (JObj (body_cycle i other)).

(** The index holds A, which targets B, and B, which targets A; the
    caller holds a copy of A. *)
Definition store_with_cycle : world :=
  World [JObj (body_cycle "urn:A" "urn:B")]
        [doc_cycle "urn:A" "urn:B"; doc_cycle "urn:B" "urn:A"] false [] 0.

Definition entity_A : Annotation :=
  MkAnnotation 0%nat "Annotation" (JStr "urn:A") JNull [] JNull JNull.

Lemma closure_of_a_cycle_witness :
  fst (get_target_list iri_like urn_number clock 50 entity_A store_with_cycle)
    = Raise RecursionError /\
  is_Ok (fst (get_target_list iri_like urn_number clock 50 entity_A
                store_with_cycle)) = false.
Proof.
  split; [ vm_compute; reflexivity | ].
  apply (closure_of_annotations_that_target_each_other_never_returns
           iri_like urn_number clock
           (es_docs store_with_cycle) "urn:A" "urn:B"
           (doc_cycle "urn:A" "urn:B") (body_cycle "urn:A" "urn:B")
           [descriptor (JStr "urn:B") (JStr "Annotation")]
           (descriptor (JStr "urn:B") (JStr "Annotation"))
           (doc_cycle "urn:B" "urn:A") (body_cycle "urn:B" "urn:A")
           [descriptor (JStr "urn:A") (JStr "Annotation")]
           (descriptor (JStr "urn:A") (JStr "Annotation"))
           50%nat entity_A store_with_cycle (body_cycle "urn:A" "urn:B"));
    try (vm_compute; reflexivity).
  - left. reflexivity.
  - left. reflexivity.
Defined.


(** *** Search by target *)

Lemma get_annotations_by_target_es_witness :
  make_target_list_query (JObj [("id", JStr "urn:r")])
    = Ok ("id", JStr "urn:r") /\
  exists bodies annotations w',
    get_annotations_by_target_es (JObj [("id", JStr "urn:r")]) store_with_B
      = (Ok annotations, w') /\
    (forall w0, es_docs w0 = es_docs store_with_B ->
       fst (es_search_target_list (JStr "Annotation") "id" (JStr "urn:r") w0)
       = Ok (map JObj bodies)) /\
    length annotations = length bodies /\
    (forall n annotation body,
       annotations !! n = Some annotation ->
       bodies !! n = Some body ->
       dict_has "target_list" body = true /\
       pt w' annotation (dict_del "target_list" body)) /\
    es_docs w' = es_docs store_with_B.
Proof.
  split; [ reflexivity | ].
  apply (get_annotations_by_target_es_strips_every_hit
           (JObj [("id", JStr "urn:r")]) "id" (JStr "urn:r") store_with_B).
  reflexivity.
Defined.
